(** * Mobile touch controls: gesture recognition core

    A shallow embedding of the TypeScript touch-control core of
    BrowserQuest-SinglePlayer (GestureRecognizer, TouchUtils, PerformanceMonitor,
    AccessibilityManager, PerformanceOptimizer, MemoryManager, FeedbackManager,
    TouchControlManager) and the properties of its specification and of its
    code.

    Conventions of the embedding.
    - A JavaScript [number] is an IEEE 754 binary64 value: Rocq's primitive
      [float], whose [+ - * / sqrt abs <?] are the correctly rounded operations
      JavaScript uses.  Touch identifiers and collection sizes/capacities are
      whole numbers and are modelled as [Z].
    - [a > b] is [b <? a]; every comparison with NaN is false, as in JavaScript.
    - [Math.pow(v, 2)] is [v * v].
    - [Math.atan2] has no counterpart among the primitive float operations; the
      recognizer takes it as a parameter.
    - [Date.now()] is an explicit argument of every method that reads the clock.
    - Reading a property of [undefined] raises a [TypeError]; methods that can
      do so return a [completion]. *)

From Stdlib Require Import ZArith List Bool Lia Floats String.
Import ListNotations.

Set Implicit Arguments.
Set Warnings "-inexact-float".

(* ================================================================== *)
(** * JavaScript numbers and completions *)
(* ================================================================== *)

Module JS.

(** [a > b] and [a < b] on numbers. *)
Definition gt (a b : float) : bool := PrimFloat.ltb b a.
Definition lt (a b : float) : bool := PrimFloat.ltb a b.

(** [Math.pow(v, 2)]. *)
Definition pow2 (v : float) : float := PrimFloat.mul v v.

(** [Math.PI], the binary64 value nearest to pi. *)
Definition PI : float := 0x1.921fb54442d18p+1%float.

(** The outcome of running a method body: a value, or a [TypeError] raised by
    a property read on [undefined]. *)
Inductive completion (A : Type) : Type :=
| Normal (a : A)
| TypeError.

Arguments TypeError {A}.

Definition bind {A B} (c : completion A) (k : A -> completion B) : completion B :=
  match c with
  | Normal a => k a
  | TypeError => TypeError
  end.

(** [arr[i]] on an array: [undefined] when out of range. *)
Definition index {A} (arr : list A) (i : nat) : option A := nth_error arr i.

(** Reading a property of [arr[i]]: a [TypeError] when the element is
    [undefined]. *)
Definition deref {A} (o : option A) : completion A :=
  match o with
  | Some a => Normal a
  | None => TypeError
  end.

(** [arr.findIndex(p)]: the first index whose element satisfies [p];
    JavaScript's [-1] is [None]. *)
Fixpoint findIndex {A} (p : A -> bool) (arr : list A) : option nat :=
  match arr with
  | [] => None
  | a :: rest => if p a then Some 0%nat else option_map S (findIndex p rest)
  end.

(** [arr[i] = v] for an index inside the array. *)
Fixpoint assign {A} (arr : list A) (i : nat) (v : A) : list A :=
  match arr, i with
  | [], _ => []
  | _ :: rest, O => v :: rest
  | a :: rest, S j => a :: assign rest j v
  end.

(** [a <= b] and [a >= b] on numbers. *)
Definition le (a b : float) : bool := PrimFloat.leb a b.
Definition ge (a b : float) : bool := PrimFloat.leb b a.

(** [-0]: the number that is [== 0] and has the sign bit set. *)
Definition isNegativeZero (a : float) : bool :=
  PrimFloat.eqb a 0 && PrimFloat.get_sign a.

(** [Math.max(a, b)] and [Math.min(a, b)]: NaN as soon as an argument is NaN;
    [+0] counts as larger than [-0]. *)
Definition max (a b : float) : float :=
  if PrimFloat.is_nan a || PrimFloat.is_nan b then nan
  else if PrimFloat.ltb b a then a
  else if PrimFloat.ltb a b then b
  else if isNegativeZero a then b else a.

Definition min (a b : float) : float :=
  if PrimFloat.is_nan a || PrimFloat.is_nan b then nan
  else if PrimFloat.ltb a b then a
  else if PrimFloat.ltb b a then b
  else if isNegativeZero a then a else b.

(** [if (c) arr.push(line)] on an array of strings. *)
Definition pushIf (c : bool) (line : string) (arr : list string) : list string :=
  if c then arr ++ [line] else arr.

(** An optional string is truthy unless it is [undefined] or empty. *)
Definition truthyText (o : option string) : bool :=
  match o with
  | Some (String _ _) => true
  | _ => false
  end.

End JS.

Notation "x <- c ;; k" := (JS.bind c (fun x => k))
  (at level 61, c at next level, right associativity).

(* ================================================================== *)
(** * JavaScript [Map] *)
(* ================================================================== *)

(** A [Map] keeps its entries in insertion order, one entry per key: [set] on
    a present key replaces the value where the entry stands, [set] on a new
    key appends, and iteration follows the order of the entries. *)
Module JSMap.

Section Ops.

Variables (K V : Type) (eqb : K -> K -> bool).

Definition t : Type := list (K * V).

Fixpoint get (k : K) (m : t) : option V :=
  match m with
  | [] => None
  | (k', v) :: rest => if eqb k' k then Some v else get k rest
  end.

Fixpoint set (k : K) (v : V) (m : t) : t :=
  match m with
  | [] => [(k, v)]
  | (k', v') :: rest => if eqb k' k then (k', v) :: rest else (k', v') :: set k v rest
  end.

Definition delete (k : K) (m : t) : t :=
  filter (fun e => negb (eqb (fst e) k)) m.

Definition size (m : t) : Z := Z.of_nat (List.length m).

Definition keys (m : t) : list K := map fst m.

Definition values (m : t) : list V := map snd m.

End Ops.

End JSMap.

(* ================================================================== *)
(** * types/TouchTypes *)
(* ================================================================== *)

Module TouchPoint.
Record t : Type := make {
  x : float;
  y : float;
  timestamp : float;
  pressure : option float;
  identifier : Z
}.
End TouchPoint.

Module TouchTarget.
Record t : Type := make {
  id : string;
  x : float;
  y : float;
  width : float;
  height : float;
  minSize : float;
  accessibilityLabel : option string;
  accessibilityHint : option string;
  accessibilityRole : option string
}.
End TouchTarget.

Module GestureState.
Record t : Type := make {
  startTime : float;
  startTouches : list TouchPoint.t;
  currentTouches : list TouchPoint.t;
  deltaX : float;
  deltaY : float;
  velocityX : float;
  velocityY : float;
  scale : float;
  rotation : float;
  isActive : bool;
  isRecognized : bool
}.

(** Field assignments [state.f = v]. *)
Definition set_currentTouches (v : list TouchPoint.t) (s : t) : t :=
  make (startTime s) (startTouches s) v (deltaX s) (deltaY s)
       (velocityX s) (velocityY s) (scale s) (rotation s) (isActive s) (isRecognized s).
Definition set_delta (dx dy : float) (s : t) : t :=
  make (startTime s) (startTouches s) (currentTouches s) dx dy
       (velocityX s) (velocityY s) (scale s) (rotation s) (isActive s) (isRecognized s).
Definition set_velocity (vx vy : float) (s : t) : t :=
  make (startTime s) (startTouches s) (currentTouches s) (deltaX s) (deltaY s)
       vx vy (scale s) (rotation s) (isActive s) (isRecognized s).
Definition set_scale (v : float) (s : t) : t :=
  make (startTime s) (startTouches s) (currentTouches s) (deltaX s) (deltaY s)
       (velocityX s) (velocityY s) v (rotation s) (isActive s) (isRecognized s).
Definition set_rotation (v : float) (s : t) : t :=
  make (startTime s) (startTouches s) (currentTouches s) (deltaX s) (deltaY s)
       (velocityX s) (velocityY s) (scale s) v (isActive s) (isRecognized s).
Definition set_flags (active recognized : bool) (s : t) : t :=
  make (startTime s) (startTouches s) (currentTouches s) (deltaX s) (deltaY s)
       (velocityX s) (velocityY s) (scale s) (rotation s) active recognized.
End GestureState.

Module GestureConfig.
Record t : Type := make {
  minDistance : float;
  maxDistance : float;
  minDuration : float;
  maxDuration : float;
  velocityThreshold : float;
  scaleThreshold : float;
  rotationThreshold : float
}.
End GestureConfig.

Inductive GestureType : Type :=
| TAP | DOUBLE_TAP | LONG_PRESS
| SWIPE_LEFT | SWIPE_RIGHT | SWIPE_UP | SWIPE_DOWN
| PAN | PINCH | ROTATE | EDGE_SWIPE | FORCE_TOUCH.

Definition GestureType_eqb (a b : GestureType) : bool :=
  match a, b with
  | TAP, TAP | DOUBLE_TAP, DOUBLE_TAP | LONG_PRESS, LONG_PRESS
  | SWIPE_LEFT, SWIPE_LEFT | SWIPE_RIGHT, SWIPE_RIGHT
  | SWIPE_UP, SWIPE_UP | SWIPE_DOWN, SWIPE_DOWN
  | PAN, PAN | PINCH, PINCH | ROTATE, ROTATE
  | EDGE_SWIPE, EDGE_SWIPE | FORCE_TOUCH, FORCE_TOUCH => true
  | _, _ => false
  end.

(** [Object.values(GestureType)], in declaration order. *)
Definition GestureType_values : list GestureType :=
  [TAP; DOUBLE_TAP; LONG_PRESS; SWIPE_LEFT; SWIPE_RIGHT; SWIPE_UP; SWIPE_DOWN;
   PAN; PINCH; ROTATE; EDGE_SWIPE; FORCE_TOUCH].

Module GestureEvent.
(** [nativeEvent] is never set by the core and is left out. *)
Record t : Type := make {
  type : GestureType;
  state : GestureState.t;
  target : option TouchTarget.t;
  timestamp : float
}.
End GestureEvent.

(** [defaultTouchControlConfig.gestureConfig] of index.ts. *)
Definition defaultGestureConfig : GestureConfig.t :=
  GestureConfig.make 10 1000 100 2000 0.3 0.1 15.

(* ================================================================== *)
(** * utils/TouchUtils *)
(* ================================================================== *)

Module TouchUtils.

Inductive Direction : Type := right | left | down | up.

(** [calculateDistance]. *)
Definition calculateDistance (point1 point2 : TouchPoint.t) : float :=
  let dx := (TouchPoint.x point2 - TouchPoint.x point1)%float in
  let dy := (TouchPoint.y point2 - TouchPoint.y point1)%float in
  PrimFloat.sqrt (dx * dx + dy * dy)%float.

(** [calculateGestureDirection]. *)
Definition calculateGestureDirection (deltaX deltaY : float) : Direction :=
  let absX := PrimFloat.abs deltaX in
  let absY := PrimFloat.abs deltaY in
  if JS.gt absX absY
  then (if JS.gt deltaX 0 then right else left)
  else (if JS.gt deltaY 0 then down else up).

(** [calculateGestureScale]. *)
Definition calculateGestureScale (startPoints currentPoints : list TouchPoint.t) : float :=
  match startPoints, currentPoints with
  | s0 :: s1 :: _, c0 :: c1 :: _ =>
      let startDistance := calculateDistance s0 s1 in
      let currentDistance := calculateDistance c0 c1 in
      if JS.gt startDistance 0 then (currentDistance / startDistance)%float else 1%float
  | _, _ => 1%float
  end.

(** [calculateAngle]; [atan2] is [Math.atan2]. *)
Definition calculateAngle (atan2 : float -> float -> float) (point1 point2 : TouchPoint.t)
  : float :=
  let dx := (TouchPoint.x point2 - TouchPoint.x point1)%float in
  let dy := (TouchPoint.y point2 - TouchPoint.y point1)%float in
  (atan2 dy dx * (180 / JS.PI))%float.

(** [calculateVelocity]: the pair is the object [{ x, y }]. *)
Definition calculateVelocity (point1 point2 : TouchPoint.t) : float * float :=
  let timeDelta := (TouchPoint.timestamp point2 - TouchPoint.timestamp point1)%float in
  if JS.le timeDelta 0 then (0%float, 0%float)
  else (((TouchPoint.x point2 - TouchPoint.x point1) / timeDelta)%float,
        ((TouchPoint.y point2 - TouchPoint.y point1) / timeDelta)%float).

(** [isTouchInTarget]. *)
Definition isTouchInTarget (touch : TouchPoint.t) (target : TouchTarget.t) : bool :=
  JS.ge (TouchPoint.x touch) (TouchTarget.x target)
  && JS.le (TouchPoint.x touch) (TouchTarget.x target + TouchTarget.width target)%float
  && JS.ge (TouchPoint.y touch) (TouchTarget.y target)
  && JS.le (TouchPoint.y touch) (TouchTarget.y target + TouchTarget.height target)%float.

(** The distance [findClosestTarget] measures: from the touch to the centre of
    the target. *)
Definition centerDistance (touch : TouchPoint.t) (target : TouchTarget.t) : float :=
  let centerX := (TouchTarget.x target + TouchTarget.width target / 2)%float in
  let centerY := (TouchTarget.y target + TouchTarget.height target / 2)%float in
  PrimFloat.sqrt (JS.pow2 (TouchPoint.x touch - centerX)
                  + JS.pow2 (TouchPoint.y touch - centerY))%float.

(** The loop of [findClosestTarget]: the accumulator is the pair
    [(closestTarget, minDistance)]. *)
Definition closerTarget (touch : TouchPoint.t) (acc : option TouchTarget.t * float)
           (target : TouchTarget.t) : option TouchTarget.t * float :=
  let distance := centerDistance touch target in
  if JS.lt distance (snd acc) then (Some target, distance) else acc.

(** [findClosestTarget]; [null] is [None]. *)
Definition findClosestTarget (touch : TouchPoint.t) (targets : list TouchTarget.t)
  : option TouchTarget.t :=
  fst (fold_left (closerTarget touch) targets (None, infinity)).

(** [validateTouchTargetSize(target, minSize = 44)]. *)
Definition validateTouchTargetSize (target : TouchTarget.t) (minSize : float) : bool :=
  JS.ge (TouchTarget.width target) minSize && JS.ge (TouchTarget.height target) minSize.

(** [areTargetsTooClose(target1, target2, minSpacing = 8)]. *)
Definition areTargetsTooClose (target1 target2 : TouchTarget.t) (minSpacing : float) : bool :=
  let center1X := (TouchTarget.x target1 + TouchTarget.width target1 / 2)%float in
  let center1Y := (TouchTarget.y target1 + TouchTarget.height target1 / 2)%float in
  let center2X := (TouchTarget.x target2 + TouchTarget.width target2 / 2)%float in
  let center2Y := (TouchTarget.y target2 + TouchTarget.height target2 / 2)%float in
  let distance :=
    PrimFloat.sqrt (JS.pow2 (center2X - center1X) + JS.pow2 (center2Y - center1Y))%float in
  JS.lt distance minSpacing.

(** [calculateGestureRotation]. *)
Definition calculateGestureRotation (atan2 : float -> float -> float)
           (startPoints currentPoints : list TouchPoint.t) : float :=
  match startPoints, currentPoints with
  | s0 :: s1 :: _, c0 :: c1 :: _ =>
      let startAngle := calculateAngle atan2 s0 s1 in
      let currentAngle := calculateAngle atan2 c0 c1 in
      (currentAngle - startAngle)%float
  | _, _ => 0%float
  end.

(** [isTapGesture(gestureState, maxDistance = 10, maxDuration = 500)]; [now] is
    the value of [Date.now()]. *)
Definition isTapGesture (gestureState : GestureState.t) (maxDistance maxDuration : float)
           (now : float) : bool :=
  let distance :=
    PrimFloat.sqrt (JS.pow2 (GestureState.deltaX gestureState)
                    + JS.pow2 (GestureState.deltaY gestureState))%float in
  let duration := (now - GestureState.startTime gestureState)%float in
  JS.lt distance maxDistance && JS.lt duration maxDuration.

(** [isSwipeGesture(gestureState, minVelocity = 0.3, minDistance = 50)]. *)
Definition isSwipeGesture (gestureState : GestureState.t) (minVelocity minDistance : float)
  : bool :=
  let velocity :=
    PrimFloat.sqrt (JS.pow2 (GestureState.velocityX gestureState)
                    + JS.pow2 (GestureState.velocityY gestureState))%float in
  let distance :=
    PrimFloat.sqrt (JS.pow2 (GestureState.deltaX gestureState)
                    + JS.pow2 (GestureState.deltaY gestureState))%float in
  JS.gt velocity minVelocity && JS.gt distance minDistance.

(** [isLongPressGesture(gestureState, minDuration = 500)]. *)
Definition isLongPressGesture (gestureState : GestureState.t) (minDuration : float)
           (now : float) : bool :=
  let duration := (now - GestureState.startTime gestureState)%float in
  JS.gt duration minDuration.

(** [createTouchTargetFromBounds]; the bounds are the four numbers. *)
Definition createTouchTargetFromBounds (id : string) (x y width height : float)
           (accessibilityLabel accessibilityHint accessibilityRole : option string)
  : TouchTarget.t :=
  TouchTarget.make id x y width height (JS.min width height)
                   accessibilityLabel accessibilityHint accessibilityRole.

End TouchUtils.

(* ================================================================== *)
(** * core/GestureRecognizer *)
(* ================================================================== *)

Module GestureRecognizer.

(** The recognizer object.  Its [gestureCache] map is only ever cleared and is
    left out. *)
Record t : Type := make {
  config : GestureConfig.t;
  gestureState : option GestureState.t;
  isProcessing : bool
}.

(** [new GestureRecognizer(config)]. *)
Definition create (cfg : GestureConfig.t) : t := make cfg None false.

(** [onTouchStart(touch)]; [now] is the value of [Date.now()]. *)
Definition onTouchStart (touch : TouchPoint.t) (now : float) (r : t) : t :=
  if isProcessing r then r
  else make (config r)
            (Some (GestureState.make now [touch] [touch] 0 0 0 0 1 0 true false))
            true.

Section WithAtan2.

(** [Math.atan2]. *)
Variable atan2 : float -> float -> float.

(** [calculateMultiTouchProperties()] on the state object. *)
Definition calculateMultiTouchProperties (s : GestureState.t)
  : JS.completion GestureState.t :=
  match GestureState.currentTouches s with
  | touch1 :: touch2 :: _ =>
      startTouch1 <- JS.deref (JS.index (GestureState.startTouches s) 0) ;;
      let startTouch2 :=
        match JS.index (GestureState.startTouches s) 1 with
        | Some p => p
        | None => startTouch1
        end in
      let currentDistance :=
        PrimFloat.sqrt (JS.pow2 (TouchPoint.x touch2 - TouchPoint.x touch1)
                        + JS.pow2 (TouchPoint.y touch2 - TouchPoint.y touch1))%float in
      let startDistance :=
        PrimFloat.sqrt (JS.pow2 (TouchPoint.x startTouch2 - TouchPoint.x startTouch1)
                        + JS.pow2 (TouchPoint.y startTouch2 - TouchPoint.y startTouch1))%float in
      let s1 :=
        if JS.gt startDistance 0
        then GestureState.set_scale (currentDistance / startDistance)%float s
        else s in
      let currentAngle :=
        atan2 (TouchPoint.y touch2 - TouchPoint.y touch1)%float
              (TouchPoint.x touch2 - TouchPoint.x touch1)%float in
      let startAngle :=
        atan2 (TouchPoint.y startTouch2 - TouchPoint.y startTouch1)%float
              (TouchPoint.x startTouch2 - TouchPoint.x startTouch1)%float in
      JS.Normal
        (GestureState.set_rotation ((currentAngle - startAngle) * (180 / JS.PI))%float s1)
  | _ => JS.Normal s
  end.

(** The body of [onTouchMove] once the guard has passed. *)
Definition moveState (touch : TouchPoint.t) (s : GestureState.t)
  : JS.completion GestureState.t :=
  let touches :=
    match JS.findIndex
            (fun p => Z.eqb (TouchPoint.identifier p) (TouchPoint.identifier touch))
            (GestureState.currentTouches s) with
    | Some touchIndex => JS.assign (GestureState.currentTouches s) touchIndex touch
    | None => GestureState.currentTouches s ++ [touch]
    end in
  let s1 := GestureState.set_currentTouches touches s in
  startTouch <- JS.deref (JS.index (GestureState.startTouches s1) 0) ;;
  let dX := (TouchPoint.x touch - TouchPoint.x startTouch)%float in
  let dY := (TouchPoint.y touch - TouchPoint.y startTouch)%float in
  let s2 := GestureState.set_delta dX dY s1 in
  let timeDelta := (TouchPoint.timestamp touch - TouchPoint.timestamp startTouch)%float in
  let s3 :=
    if JS.gt timeDelta 0
    then GestureState.set_velocity (dX / timeDelta)%float (dY / timeDelta)%float s2
    else s2 in
  if Nat.ltb 1 (List.length (GestureState.currentTouches s3))
  then calculateMultiTouchProperties s3
  else JS.Normal s3.

(** [onTouchMove(touch)]: the recognizer afterwards and the returned state
    ([null] is [None]). *)
Definition onTouchMove (touch : TouchPoint.t) (r : t)
  : JS.completion (t * option GestureState.t) :=
  match gestureState r, isProcessing r with
  | Some s, true =>
      s' <- moveState touch s ;;
      JS.Normal (make (config r) (Some s') true, Some s')
  | _, _ => JS.Normal (r, None)
  end.

End WithAtan2.

(** [recognizeSwipeDirection()]. *)
Definition recognizeSwipeDirection (s : GestureState.t) : GestureType :=
  let absX := PrimFloat.abs (GestureState.deltaX s) in
  let absY := PrimFloat.abs (GestureState.deltaY s) in
  if JS.gt absX absY
  then (if JS.gt (GestureState.deltaX s) 0 then SWIPE_RIGHT else SWIPE_LEFT)
  else (if JS.gt (GestureState.deltaY s) 0 then SWIPE_DOWN else SWIPE_UP).

(** [recognizeMultiTouchGesture()]. *)
Definition recognizeMultiTouchGesture (cfg : GestureConfig.t) (s : GestureState.t)
  : option GestureType :=
  if JS.gt (PrimFloat.abs (GestureState.scale s - 1)%float) (GestureConfig.scaleThreshold cfg)
  then Some PINCH
  else if JS.gt (PrimFloat.abs (GestureState.rotation s)) (GestureConfig.rotationThreshold cfg)
  then Some ROTATE
  else None.

(** The quantities [recognizeGesture] compares. *)
Definition gestureDuration (s : GestureState.t) (now : float) : float :=
  (now - GestureState.startTime s)%float.
Definition gestureDistance (s : GestureState.t) : float :=
  PrimFloat.sqrt (JS.pow2 (GestureState.deltaX s) + JS.pow2 (GestureState.deltaY s))%float.
Definition gestureVelocity (s : GestureState.t) : float :=
  PrimFloat.sqrt (JS.pow2 (GestureState.velocityX s) + JS.pow2 (GestureState.velocityY s))%float.

(** [recognizeGesture()]; [now] is the value of [Date.now()]. *)
Definition recognizeGesture (cfg : GestureConfig.t) (s : GestureState.t) (now : float)
  : option GestureType :=
  let duration := gestureDuration s now in
  let distance := gestureDistance s in
  let velocity := gestureVelocity s in
  if JS.lt distance (GestureConfig.minDistance cfg) && JS.lt duration (GestureConfig.maxDuration cfg)
  then Some TAP
  else if JS.lt distance (GestureConfig.minDistance cfg)
          && JS.gt duration (GestureConfig.minDuration cfg)
  then Some LONG_PRESS
  else if JS.gt velocity (GestureConfig.velocityThreshold cfg)
          && JS.gt distance (GestureConfig.minDistance cfg)
  then Some (recognizeSwipeDirection s)
  else if JS.gt distance (GestureConfig.minDistance cfg)
          && JS.lt velocity (GestureConfig.velocityThreshold cfg)
  then Some PAN
  else if Nat.ltb 1 (List.length (GestureState.currentTouches s))
  then recognizeMultiTouchGesture cfg s
  else None.

(** [onTouchEnd(touch)]: the recognizer afterwards and the returned event.
    [now] is the clock [recognizeGesture] reads, [now'] the one read for the
    event's timestamp.  The event's [state] is the spread copy
    [{ ...this.gestureState }], taken before the two flags are assigned. *)
Definition onTouchEnd (touch : TouchPoint.t) (now now' : float) (r : t)
  : t * option GestureEvent.t :=
  match gestureState r, isProcessing r with
  | Some s, true =>
      let s1 :=
        GestureState.set_currentTouches
          (filter (fun p => negb (Z.eqb (TouchPoint.identifier p) (TouchPoint.identifier touch)))
                  (GestureState.currentTouches s)) s in
      if Nat.eqb (List.length (GestureState.currentTouches s1)) 0
      then match recognizeGesture (config r) s1 now with
           | Some gestureType =>
               let gestureEvent := GestureEvent.make gestureType s1 None now' in
               (make (config r) (Some (GestureState.set_flags false true s1)) false,
                Some gestureEvent)
           | None => (make (config r) (Some s1) true, None)
           end
      else (make (config r) (Some s1) true, None)
  | _, _ => (r, None)
  end.

(** [updateConfig(newConfig)]: [newConfig] is a full [GestureConfig], so the
    spread [{ ...this.config, ...newConfig }] is [newConfig]. *)
Definition updateConfig (newConfig : GestureConfig.t) (r : t) : t :=
  make newConfig (gestureState r) (isProcessing r).

(** [reset()]. *)
Definition reset (r : t) : t := make (config r) None false.

(** [destroy()]: clears the cache and calls [reset()]. *)
Definition destroy (r : t) : t := reset r.

(** [getCurrentState()] and [isGestureActive()]. *)
Definition getCurrentState (r : t) : option GestureState.t := gestureState r.
Definition isGestureActive (r : t) : bool :=
  isProcessing r &&
  match gestureState r with
  | Some s => GestureState.isActive s
  | None => false
  end.

(** ** Sequences of calls *)

Inductive call : Type :=
| TouchStart (touch : TouchPoint.t) (now : float)
| TouchMove (touch : TouchPoint.t)
| TouchEnd (touch : TouchPoint.t) (now now' : float)
| UpdateConfig (newConfig : GestureConfig.t)
| DoReset
| DoDestroy.

(** What a call hands back to its caller. *)
Inductive output : Type :=
| Void
| State (s : option GestureState.t)
| Event (e : option GestureEvent.t).

Section Runs.

Variable atan2 : float -> float -> float.

Definition step (c : call) (r : t) : JS.completion (t * output) :=
  match c with
  | TouchStart touch now => JS.Normal (onTouchStart touch now r, Void)
  | TouchMove touch =>
      res <- onTouchMove atan2 touch r ;;
      JS.Normal (fst res, State (snd res))
  | TouchEnd touch now now' =>
      let res := onTouchEnd touch now now' r in
      JS.Normal (fst res, Event (snd res))
  | UpdateConfig newConfig => JS.Normal (updateConfig newConfig r, Void)
  | DoReset => JS.Normal (reset r, Void)
  | DoDestroy => JS.Normal (destroy r, Void)
  end.

(** Runs the calls in order; the outputs are listed in call order. *)
Fixpoint run (cs : list call) (r : t) : JS.completion (t * list output) :=
  match cs with
  | [] => JS.Normal (r, [])
  | c :: rest =>
      res <- step c r ;;
      res' <- run rest (fst res) ;;
      JS.Normal (fst res', snd res :: snd res')
  end.

End Runs.

End GestureRecognizer.

(* ================================================================== *)
(** * core/GestureRecognizer: where the touch arrays live *)
(* ================================================================== *)

(** The recognizer above handles the two touch lists of a gesture state as
    values.  In the source they are array objects, and the event returned by
    [onTouchEnd] holds a spread copy [{ ...this.gestureState }] of the state
    object: a new object whose [startTouches] and [currentTouches] refer to
    the very arrays the recognizer's state refers to.  This second model
    keeps the arrays in a heap and says, method by method, which array is
    created and which is written in place; what a method computes is taken
    from the recognizer above, applied to the state as the method reads it. *)
Module RecognizerObjects.

Definition ArrayRef : Type := nat.

Definition Heap : Type := list (list TouchPoint.t).

(** The array a reference points to. *)
Definition read (h : Heap) (ref : ArrayRef) : list TouchPoint.t := nth ref h [].

(** Replaces the contents of the array a reference points to. *)
Fixpoint write (ref : ArrayRef) (v : list TouchPoint.t) (h : Heap) : Heap :=
  match h, ref with
  | [], _ => []
  | _ :: rest, O => v :: rest
  | a :: rest, S r => a :: write r v rest
  end.

Module StateObject.
(** A [GestureState] object: the touch lists are references. *)
Record t : Type := make {
  startTime : float;
  startTouches : ArrayRef;
  currentTouches : ArrayRef;
  deltaX : float;
  deltaY : float;
  velocityX : float;
  velocityY : float;
  scale : float;
  rotation : float;
  isActive : bool;
  isRecognized : bool
}.

Definition set_currentTouches (ref : ArrayRef) (o : t) : t :=
  make (startTime o) (startTouches o) ref (deltaX o) (deltaY o)
       (velocityX o) (velocityY o) (scale o) (rotation o) (isActive o) (isRecognized o).
Definition set_flags (active recognized : bool) (o : t) : t :=
  make (startTime o) (startTouches o) (currentTouches o) (deltaX o) (deltaY o)
       (velocityX o) (velocityY o) (scale o) (rotation o) active recognized.
End StateObject.

Module EventObject.
Record t : Type := make {
  type : GestureType;
  state : StateObject.t;
  timestamp : float
}.
End EventObject.

(** The state the methods read through an object. *)
Definition viewState (h : Heap) (o : StateObject.t) : GestureState.t :=
  GestureState.make
    (StateObject.startTime o)
    (read h (StateObject.startTouches o))
    (read h (StateObject.currentTouches o))
    (StateObject.deltaX o) (StateObject.deltaY o)
    (StateObject.velocityX o) (StateObject.velocityY o)
    (StateObject.scale o) (StateObject.rotation o)
    (StateObject.isActive o) (StateObject.isRecognized o).

(** Assigns the number and flag fields of [s] to the object; its two
    references stay. *)
Definition assignFields (s : GestureState.t) (o : StateObject.t) : StateObject.t :=
  StateObject.make
    (GestureState.startTime s)
    (StateObject.startTouches o)
    (StateObject.currentTouches o)
    (GestureState.deltaX s) (GestureState.deltaY s)
    (GestureState.velocityX s) (GestureState.velocityY s)
    (GestureState.scale s) (GestureState.rotation s)
    (GestureState.isActive s) (GestureState.isRecognized s).

Record t : Type := make {
  heap : Heap;
  config : GestureConfig.t;
  gestureState : option StateObject.t;
  isProcessing : bool
}.

Definition create (cfg : GestureConfig.t) : t := make [] cfg None false.

(** [onTouchStart]: the two array literals [[touch]] are two new arrays. *)
Definition onTouchStart (touch : TouchPoint.t) (now : float) (r : t) : t :=
  if isProcessing r then r
  else
    let startRef := List.length (heap r) in
    let currentRef := S (List.length (heap r)) in
    make (heap r ++ [[touch]; [touch]]) (config r)
         (Some (StateObject.make now startRef currentRef 0 0 0 0 1 0 true false))
         true.

(** [onTouchMove]: [currentTouches[touchIndex] = touch] and
    [currentTouches.push(touch)] write the array the state refers to, in
    place; the other assignments are to number fields of the state object. *)
Definition onTouchMove (atan2 : float -> float -> float) (touch : TouchPoint.t) (r : t)
  : JS.completion (t * option StateObject.t) :=
  match gestureState r, isProcessing r with
  | Some o, true =>
      s' <- GestureRecognizer.moveState atan2 touch (viewState (heap r) o) ;;
      let o' := assignFields s' o in
      JS.Normal
        (make (write (StateObject.currentTouches o) (GestureState.currentTouches s') (heap r))
              (config r) (Some o') true,
         Some o')
  | _, _ => JS.Normal (r, None)
  end.

(** [onTouchEnd]: [filter] returns a new array, which becomes the state's
    [currentTouches]; the event's state is a new object with the fields of the
    state object copied, the two references among them. *)
Definition onTouchEnd (touch : TouchPoint.t) (now now' : float) (r : t)
  : t * option EventObject.t :=
  match gestureState r, isProcessing r with
  | Some o, true =>
      let filtered :=
        filter (fun p => negb (Z.eqb (TouchPoint.identifier p) (TouchPoint.identifier touch)))
               (read (heap r) (StateObject.currentTouches o)) in
      let h1 := heap r ++ [filtered] in
      let o1 := StateObject.set_currentTouches (List.length (heap r)) o in
      if Nat.eqb (List.length (read h1 (StateObject.currentTouches o1))) 0
      then match GestureRecognizer.recognizeGesture (config r) (viewState h1 o1) now with
           | Some gestureType =>
               (make h1 (config r) (Some (StateObject.set_flags false true o1)) false,
                Some (EventObject.make gestureType o1 now'))
           | None => (make h1 (config r) (Some o1) true, None)
           end
      else (make h1 (config r) (Some o1) true, None)
  | _, _ => (r, None)
  end.

Definition updateConfig (newConfig : GestureConfig.t) (r : t) : t :=
  make (heap r) newConfig (gestureState r) (isProcessing r).

(** [reset()] and [destroy()] drop the reference to the state object; the
    arrays stay where other objects refer to them. *)
Definition reset (r : t) : t := make (heap r) (config r) None false.

Definition step (atan2 : float -> float -> float) (c : GestureRecognizer.call) (r : t)
  : JS.completion t :=
  match c with
  | GestureRecognizer.TouchStart touch now => JS.Normal (onTouchStart touch now r)
  | GestureRecognizer.TouchMove touch =>
      res <- onTouchMove atan2 touch r ;; JS.Normal (fst res)
  | GestureRecognizer.TouchEnd touch now now' => JS.Normal (fst (onTouchEnd touch now now' r))
  | GestureRecognizer.UpdateConfig newConfig => JS.Normal (updateConfig newConfig r)
  | GestureRecognizer.DoReset => JS.Normal (reset r)
  | GestureRecognizer.DoDestroy => JS.Normal (reset r)
  end.

Fixpoint run (atan2 : float -> float -> float) (cs : list GestureRecognizer.call) (r : t)
  : JS.completion t :=
  match cs with
  | [] => JS.Normal r
  | c :: rest => r' <- step atan2 c r ;; run atan2 rest r'
  end.

(** The recognizer of the first model that an object-level recognizer stands
    for, and the event an event object stands for. *)
Definition view (r : t) : GestureRecognizer.t :=
  GestureRecognizer.make (config r) (option_map (viewState (heap r)) (gestureState r))
                         (isProcessing r).

Definition viewEvent (h : Heap) (e : EventObject.t) : GestureEvent.t :=
  GestureEvent.make (EventObject.type e) (viewState h (EventObject.state e)) None
                    (EventObject.timestamp e).

End RecognizerObjects.

(* ================================================================== *)
(** * core/PerformanceMonitor *)
(* ================================================================== *)

Module GestureMetrics.
Record t : Type := make {
  count : float;
  successCount : float;
  errorCount : float;
  averageTime : float;
  totalTime : float
}.
End GestureMetrics.

Module PerformanceMetrics.
Record t : Type := make {
  gestureRecognitionTime : float;
  memoryUsage : float;
  batteryImpact : float;
  errorRate : float;
  successRate : float
}.
End PerformanceMetrics.

Module PerformanceMonitor.

(** The monitor object; the named timings and the sampling timer play no part
    in the aggregate snapshot and are left out. *)
Record t : Type := make {
  gestureMetrics : JSMap.t GestureType GestureMetrics.t;
  memoryUsage : float;
  batteryImpact : float
}.

(** [initializeGestureMetrics()]: a zeroed entry for every gesture type. *)
Definition initializeGestureMetrics (m : JSMap.t GestureType GestureMetrics.t)
  : JSMap.t GestureType GestureMetrics.t :=
  fold_left (fun acc gestureType =>
               JSMap.set GestureType_eqb gestureType (GestureMetrics.make 0 0 0 0 0) acc)
            GestureType_values m.

(** [new PerformanceMonitor()]. *)
Definition create : t := make (initializeGestureMetrics []) 0 0.

(** A number is truthy unless it is [0], [-0] or NaN. *)
Definition truthy (v : float) : bool :=
  negb (PrimFloat.eqb v 0) && PrimFloat.eqb v v.

(** [recordGesture(gestureType, success, recognitionTime?)]. *)
Definition recordGesture (gestureType : GestureType) (success : bool)
           (recognitionTime : option float) (pm : t) : t :=
  match JSMap.get GestureType_eqb gestureType (gestureMetrics pm) with
  | None => pm
  | Some metrics =>
      let count' := (GestureMetrics.count metrics + 1)%float in
      let successCount' :=
        if success then (GestureMetrics.successCount metrics + 1)%float
        else GestureMetrics.successCount metrics in
      let errorCount' :=
        if success then GestureMetrics.errorCount metrics
        else (GestureMetrics.errorCount metrics + 1)%float in
      let timed :=
        match recognitionTime with
        | Some rt => truthy rt
        | None => false
        end in
      let totalTime' :=
        match recognitionTime with
        | Some rt => if timed then (GestureMetrics.totalTime metrics + rt)%float
                     else GestureMetrics.totalTime metrics
        | None => GestureMetrics.totalTime metrics
        end in
      let averageTime' :=
        if timed then (totalTime' / count')%float else GestureMetrics.averageTime metrics in
      make (JSMap.set GestureType_eqb gestureType
                      (GestureMetrics.make count' successCount' errorCount'
                                           averageTime' totalTime')
                      (gestureMetrics pm))
           (memoryUsage pm) (batteryImpact pm)
  end.

(** [Array.from(values).reduce((sum, metrics) => sum + f(metrics), 0)]. *)
Definition sumOver (f : GestureMetrics.t -> float) (pm : t) : float :=
  fold_left (fun sum metrics => (sum + f metrics)%float)
            (JSMap.values (gestureMetrics pm)) 0%float.

Definition totalGestures (pm : t) : float := sumOver GestureMetrics.count pm.
Definition successfulGestures (pm : t) : float := sumOver GestureMetrics.successCount pm.

(** [this.gestureMetrics.size] as a number. *)
Fixpoint sizeAsNumber {A} (l : list A) : float :=
  match l with
  | [] => 0%float
  | _ :: rest => (sizeAsNumber rest + 1)%float
  end.

(** [getMetrics()]. *)
Definition getMetrics (pm : t) : PerformanceMetrics.t :=
  let totalGestures := totalGestures pm in
  let successfulGestures := successfulGestures pm in
  let averageRecognitionTime :=
    (sumOver GestureMetrics.averageTime pm / sizeAsNumber (gestureMetrics pm))%float in
  PerformanceMetrics.make
    averageRecognitionTime
    (memoryUsage pm)
    (batteryImpact pm)
    (if JS.gt totalGestures 0
     then ((totalGestures - successfulGestures) / totalGestures)%float else 0%float)
    (if JS.gt totalGestures 0
     then (successfulGestures / totalGestures)%float else 1%float).

(** [getGestureMetrics(gestureType)]; [null] is [None]. *)
Definition getGestureMetrics (gestureType : GestureType) (pm : t)
  : option GestureMetrics.t :=
  JSMap.get GestureType_eqb gestureType (gestureMetrics pm).

(** [isPerformanceAcceptable()]. *)
Definition isPerformanceAcceptable (pm : t) : bool :=
  let metrics := getMetrics pm in
  JS.lt (PerformanceMetrics.gestureRecognitionTime metrics) 100
  && JS.lt (PerformanceMetrics.memoryUsage metrics) 50
  && JS.lt (PerformanceMetrics.batteryImpact metrics) 0.05
  && JS.lt (PerformanceMetrics.errorRate metrics) 0.05.

(** [getPerformanceRecommendations()]. *)
Definition getPerformanceRecommendations (pm : t) : list string :=
  let metrics := getMetrics pm in
  let recommendations := [] in
  let recommendations :=
    JS.pushIf (JS.gt (PerformanceMetrics.gestureRecognitionTime metrics) 100)
      "Gesture recognition time is too high. Consider optimizing gesture algorithms."
      recommendations in
  let recommendations :=
    JS.pushIf (JS.gt (PerformanceMetrics.memoryUsage metrics) 50)
      "Memory usage is high. Consider implementing memory cleanup strategies."
      recommendations in
  let recommendations :=
    JS.pushIf (JS.gt (PerformanceMetrics.batteryImpact metrics) 0.05)
      "Battery impact is significant. Consider reducing gesture processing frequency."
      recommendations in
  let recommendations :=
    JS.pushIf (JS.gt (PerformanceMetrics.errorRate metrics) 0.05)
      "Error rate is high. Consider improving gesture recognition accuracy."
      recommendations in
  recommendations.

(** [reset()], on the fields of this record (it also clears the timings,
    modelled below). *)
Definition reset (pm : t) : t := make (initializeGestureMetrics (gestureMetrics pm)) 0 0.

(** [destroy()], on the fields of this record: the counters are cleared. *)
Definition destroy (pm : t) : t := make [] (memoryUsage pm) (batteryImpact pm).

(** Calls on the counters. *)
Inductive call : Type :=
| RecordGesture (gestureType : GestureType) (success : bool) (recognitionTime : option float)
| Reset
| Destroy.

Definition step (c : call) (pm : t) : t :=
  match c with
  | RecordGesture gestureType success recognitionTime =>
      recordGesture gestureType success recognitionTime pm
  | Reset => reset pm
  | Destroy => destroy pm
  end.

Definition run (cs : list call) (pm : t) : t := fold_left (fun acc c => step c acc) cs pm.

End PerformanceMonitor.

Module TimingData.
Record t : Type := make {
  startTime : float;
  endTime : option float;
  duration : option float
}.
End TimingData.

(** The monitor's map of named timings.  [startTiming], [endTiming] and
    [getTiming] read and write this map and nothing else of the monitor;
    [now] is the value of [performance.now()]. *)
Module PerformanceTimings.

Definition t : Type := JSMap.t string TimingData.t.

(** [startTiming(operation)]: the returned start time and the map afterwards. *)
Definition startTiming (operation : string) (now : float) (timings : t) : float * t :=
  (now, JSMap.set String.eqb operation (TimingData.make now None None) timings).

(** [endTiming(operation, startTime?)]: the returned end time and the map
    afterwards.  A stored timing is completed in place; without one, a timing
    is stored only for a truthy [startTime]. *)
Definition endTiming (operation : string) (startTime : option float) (now : float)
           (timings : t) : float * t :=
  match JSMap.get String.eqb operation timings with
  | Some timing =>
      (now,
       JSMap.set String.eqb operation
         (TimingData.make (TimingData.startTime timing) (Some now)
                          (Some (now - TimingData.startTime timing)%float))
         timings)
  | None =>
      match startTime with
      | Some st =>
          if PerformanceMonitor.truthy st
          then (now,
                JSMap.set String.eqb operation
                  (TimingData.make st (Some now) (Some (now - st)%float)) timings)
          else (now, timings)
      | None => (now, timings)
      end
  end.

(** [getTiming(operation)]; [null] is [None]. *)
Definition getTiming (operation : string) (timings : t) : option TimingData.t :=
  JSMap.get String.eqb operation timings.

End PerformanceTimings.

(* ================================================================== *)
(** * core/AccessibilityManager *)
(* ================================================================== *)

(** Of the accessibility manager, the two checks of a touch target.  Its
    announcements, focus and settings are not modelled. *)
Module AccessibilityManager.

(** What [validateTouchTargetAccessibility] writes with [console.warn]. *)
Inductive ConsoleLine : Type :=
| AccessibilityIssues (targetId : string) (issues : list string).

(** The [issues] array of [validateTouchTargetAccessibility]. *)
Definition accessibilityIssues (target : TouchTarget.t) : list string :=
  let issues := [] in
  let issues :=
    JS.pushIf (JS.lt (TouchTarget.width target) 44 || JS.lt (TouchTarget.height target) 44)
      "Touch target is below minimum size (44x44 pixels)" issues in
  let issues :=
    JS.pushIf (negb (JS.truthyText (TouchTarget.accessibilityLabel target)))
      "Touch target missing accessibility label" issues in
  let issues :=
    JS.pushIf (negb (JS.truthyText (TouchTarget.accessibilityRole target)))
      "Touch target missing accessibility role" issues in
  issues.

(** [validateTouchTargetAccessibility(target)]: the result and the console
    afterwards. *)
Definition validateTouchTargetAccessibility (target : TouchTarget.t)
           (console : list ConsoleLine) : bool * list ConsoleLine :=
  let issues := accessibilityIssues target in
  if Nat.ltb 0 (List.length issues)
  then (false, console ++ [AccessibilityIssues (TouchTarget.id target) issues])
  else (true, console).

(** [getAccessibilityRecommendations(target)]. *)
Definition getAccessibilityRecommendations (target : TouchTarget.t) : list string :=
  let recommendations := [] in
  let recommendations :=
    JS.pushIf (JS.lt (TouchTarget.width target) 44 || JS.lt (TouchTarget.height target) 44)
      "Increase touch target size to at least 44x44 pixels" recommendations in
  let recommendations :=
    JS.pushIf (negb (JS.truthyText (TouchTarget.accessibilityLabel target)))
      "Add descriptive accessibility label" recommendations in
  let recommendations :=
    JS.pushIf (negb (JS.truthyText (TouchTarget.accessibilityHint target)))
      "Add accessibility hint explaining the action" recommendations in
  let recommendations :=
    JS.pushIf (negb (JS.truthyText (TouchTarget.accessibilityRole target)))
      "Specify accessibility role (button, link, etc.)" recommendations in
  recommendations.

End AccessibilityManager.

(* ================================================================== *)
(** * optimization/PerformanceOptimizer *)
(* ================================================================== *)

Module OptimizationConfig.
(** The three sizes are modelled as integers: the model covers the
    configurations whose sizes are whole numbers.  (The source type is
    [number]; with a fractional [memoryPoolSize] the loop of
    [initializeMemoryPool] pushes the next whole number of objects, and with a
    fractional [maxCacheSize] the cache grows to the next whole number.) *)
Record t : Type := make {
  enableGestureCaching : bool;
  enableMemoryPooling : bool;
  enableLazyLoading : bool;
  enableBatchProcessing : bool;
  maxCacheSize : Z;
  memoryPoolSize : Z;
  batchSize : Z;
  optimizationThreshold : float
}.
End OptimizationConfig.

Module PooledFields.
(** The five number fields of a pooled scratch object. *)
Record t : Type := make {
  x : float;
  y : float;
  timestamp : float;
  identifier : float;
  pressure : float
}.
Definition zero : t := make 0 0 0 0 0.
End PooledFields.

Module PooledObject.
(** The [reset] property of an object handed to the pool, when it is truthy:
    the function [createPooledObject] gives its objects, or a value of the
    caller's, named by a code.  Calling the latter runs arbitrary code of the
    caller (a property that is truthy without being callable throws when it
    is called). *)
Inductive ResetMethod : Type :=
| PoolReset
| CallerReset (code : nat).

(** An object handed to the pool: its five fields, plain writable
    properties, and its [reset] property, [None] when the property is absent
    or falsy.  Objects are modelled by value: the pool of the model holds the
    state an object had when it was pushed.  The number of objects in the
    pool does not depend on this; what the fields of an object in the pool
    hold does, when a caller writes to an object the pool holds or releases
    such an object again, and the statements about fields are about objects
    the pool does not hold yet.  (The parameter of [returnPooledObject] is
    typed [any]; a release of [null] or [undefined] under capacity throws at
    the read of [obj.reset] with nothing pushed, as an object whose [reset]
    throws does.) *)
Record t : Type := make {
  fields : PooledFields.t;
  reset : option ResetMethod
}.
End PooledObject.

Module PartialOptimizationConfig.
(** A [Partial<OptimizationConfig>]: a property that is absent is [None]. *)
Record t : Type := make {
  enableGestureCaching : option bool;
  enableMemoryPooling : option bool;
  enableLazyLoading : option bool;
  enableBatchProcessing : option bool;
  maxCacheSize : option Z;
  memoryPoolSize : option Z;
  batchSize : option Z;
  optimizationThreshold : option float
}.
End PartialOptimizationConfig.

Module PerformanceOptimizer.

Section WithData.

(** The type of cached results ([any] in the source). *)
Variable Data : Type.

Record CacheEntry : Type := mkCacheEntry {
  key : string;
  data : Data;
  timestamp : float;
  accessCount : float
}.

(** The optimizer object; the batch queue and the stored metrics play no part
    in pooling and caching and are left out. *)
Record t : Type := make {
  config : OptimizationConfig.t;
  gestureCache : JSMap.t string CacheEntry;
  memoryPool : list PooledObject.t
}.

Definition set_gestureCache (c : JSMap.t string CacheEntry) (o : t) : t :=
  make (config o) c (memoryPool o).
Definition set_memoryPool (p : list PooledObject.t) (o : t) : t :=
  make (config o) (gestureCache o) p.

(** How a call of [obj.reset()] ends. *)
Inductive ResetOutcome : Type :=
| ResetReturned
| ResetThrew (error : string).

(** What a call of [obj.reset()] leaves behind: how it ended, the object, and
    the optimizer. *)
Record ResetRun : Type := mkResetRun {
  outcome : ResetOutcome;
  object : PooledObject.t;
  optimizer : t
}.

(** What calling the [reset] of a caller's object does, by the code of the
    method, the object it is called on and the optimizer at the call.  The
    method is arbitrary code: it may write to the object, call back into the
    optimizer, or throw. *)
Variable callerReset : nat -> PooledObject.t -> t -> ResetRun.

(** [createPooledObject()]: zeroed fields and a [reset] that zeroes them. *)
Definition createPooledObject : PooledObject.t :=
  PooledObject.make PooledFields.zero (Some PooledObject.PoolReset).

(** [initializeMemoryPool()]: pushes [memoryPoolSize] new objects. *)
Definition initializeMemoryPool (o : t) : t :=
  if OptimizationConfig.enableMemoryPooling (config o)
  then set_memoryPool
         (memoryPool o
          ++ repeat createPooledObject
                    (Z.to_nat (OptimizationConfig.memoryPoolSize (config o)))) o
  else o.

(** [new PerformanceOptimizer(config)], [config] with the defaults merged in. *)
Definition create (cfg : OptimizationConfig.t) : t :=
  initializeMemoryPool (make cfg [] []).

(** [getPooledObject()]: the object handed out and the optimizer afterwards;
    [pop()] takes the last element. *)
Definition getPooledObject (o : t) : PooledObject.t * t :=
  if OptimizationConfig.enableMemoryPooling (config o)
     && (0 <? Z.of_nat (List.length (memoryPool o)))%Z
  then match rev (memoryPool o) with
       | obj :: rest => (obj, set_memoryPool (rev rest) o)
       | [] => (createPooledObject, o)
       end
  else (createPooledObject, o).

(** [if (obj.reset) { obj.reset(); }]: the method of the pool's own objects
    writes zero to the five fields of the object it is called on; an object
    without the property is left alone. *)
Definition callReset (obj : PooledObject.t) (o : t) : ResetRun :=
  match PooledObject.reset obj with
  | Some PooledObject.PoolReset =>
      mkResetRun ResetReturned
                 (PooledObject.make PooledFields.zero (PooledObject.reset obj)) o
  | Some (PooledObject.CallerReset code) => callerReset code obj o
  | None => mkResetRun ResetReturned obj o
  end.

(** [returnPooledObject(obj)]: how the call ends and the optimizer
    afterwards.  The capacity is tested before [obj.reset()] runs, and the
    push that follows is on the pool as the reset left it; when the reset
    throws, the exception leaves the method and nothing is pushed. *)
Definition returnPooledObject (obj : PooledObject.t) (o : t) : ResetOutcome * t :=
  if OptimizationConfig.enableMemoryPooling (config o)
     && (Z.of_nat (List.length (memoryPool o))
         <? OptimizationConfig.memoryPoolSize (config o))%Z
  then
    let run := callReset obj o in
    match outcome run with
    | ResetReturned =>
        (ResetReturned,
         set_memoryPool (memoryPool (optimizer run) ++ [object run]) (optimizer run))
    | ResetThrew error => (ResetThrew error, optimizer run)
    end
  else (ResetReturned, o).

(** The loop of [evictOldestCacheEntry()]: [oldest] is the pair
    [(oldestKey, oldestEntry)], [None] while both are [null]. *)
Fixpoint scanOldest (entries : list (string * CacheEntry))
         (oldest : option (string * CacheEntry)) : option (string * CacheEntry) :=
  match entries with
  | [] => oldest
  | (k, entry) :: rest =>
      scanOldest rest
        (match oldest with
         | None => Some (k, entry)
         | Some (_, oldestEntry) =>
             if JS.lt (timestamp entry) (timestamp oldestEntry)
             then Some (k, entry) else oldest
         end)
  end.

(** A string is truthy unless it is empty. *)
Definition truthyString (s : string) : bool :=
  match s with
  | EmptyString => false
  | String _ _ => true
  end.

(** [evictOldestCacheEntry()]. *)
Definition evictOldestCacheEntry (o : t) : t :=
  match scanOldest (gestureCache o) None with
  | Some (oldestKey, _) =>
      if truthyString oldestKey
      then set_gestureCache (JSMap.delete String.eqb oldestKey (gestureCache o)) o
      else o
  | None => o
  end.

(** [cacheGestureResult(key, result)]; [now] is the value of [Date.now()]. *)
Definition cacheGestureResult (k : string) (result : Data) (now : float) (o : t) : t :=
  if negb (OptimizationConfig.enableGestureCaching (config o)) then o
  else
    let o1 :=
      if (OptimizationConfig.maxCacheSize (config o) <=? JSMap.size (gestureCache o))%Z
      then evictOldestCacheEntry o else o in
    set_gestureCache
      (JSMap.set String.eqb k (mkCacheEntry k result now 0) (gestureCache o1)) o1.

(** [getCachedGestureResult(key)]: the result ([null] is [None]) and the
    optimizer afterwards, the entry's access count incremented. *)
Definition getCachedGestureResult (k : string) (o : t) : option Data * t :=
  if negb (OptimizationConfig.enableGestureCaching (config o)) then (None, o)
  else match JSMap.get String.eqb k (gestureCache o) with
       | Some entry =>
           (Some (data entry),
            set_gestureCache
              (JSMap.set String.eqb k
                 (mkCacheEntry (key entry) (data entry) (timestamp entry)
                               (accessCount entry + 1)%float)
                 (gestureCache o)) o)
       | None => (None, o)
       end.

(** [reset()], on the fields of this record: the cache is cleared and
    [initializeMemoryPool()] runs on the pool as it is. *)
Definition reset (o : t) : t := initializeMemoryPool (set_gestureCache [] o).

(** A property of the spread [{ ...this.config, ...newConfig }]. *)
Definition spread {A : Type} (old : A) (new : option A) : A :=
  match new with
  | Some v => v
  | None => old
  end.

Definition mergeConfig (c : OptimizationConfig.t) (n : PartialOptimizationConfig.t)
  : OptimizationConfig.t :=
  OptimizationConfig.make
    (spread (OptimizationConfig.enableGestureCaching c)
            (PartialOptimizationConfig.enableGestureCaching n))
    (spread (OptimizationConfig.enableMemoryPooling c)
            (PartialOptimizationConfig.enableMemoryPooling n))
    (spread (OptimizationConfig.enableLazyLoading c)
            (PartialOptimizationConfig.enableLazyLoading n))
    (spread (OptimizationConfig.enableBatchProcessing c)
            (PartialOptimizationConfig.enableBatchProcessing n))
    (spread (OptimizationConfig.maxCacheSize c) (PartialOptimizationConfig.maxCacheSize n))
    (spread (OptimizationConfig.memoryPoolSize c)
            (PartialOptimizationConfig.memoryPoolSize n))
    (spread (OptimizationConfig.batchSize c) (PartialOptimizationConfig.batchSize n))
    (spread (OptimizationConfig.optimizationThreshold c)
            (PartialOptimizationConfig.optimizationThreshold n)).

(** What [arr.splice(start)] leaves in the array: the elements before
    [start], a negative [start] counting from the end. *)
Definition spliceFrom {A : Type} (start : Z) (arr : list A) : list A :=
  let len := Z.of_nat (List.length arr) in
  let actualStart := if (start <? 0)%Z then Z.max (len + start) 0 else Z.min start len in
  firstn (Z.to_nat actualStart) arr.

(** The first half of [updateConfig]: the pool is resized when
    [newConfig.memoryPoolSize] is truthy. *)
Definition resizePool (newConfig : PartialOptimizationConfig.t) (o : t) : t :=
  match PartialOptimizationConfig.memoryPoolSize newConfig with
  | Some targetSize =>
      if (targetSize =? 0)%Z then o
      else
        let currentSize := Z.of_nat (List.length (memoryPool o)) in
        if (currentSize <? targetSize)%Z
        then set_memoryPool
               (memoryPool o
                ++ repeat createPooledObject (Z.to_nat (targetSize - currentSize))) o
        else if (targetSize <? currentSize)%Z
        then set_memoryPool (spliceFrom targetSize (memoryPool o)) o
        else o
  | None => o
  end.

(** The second half: entries are evicted when [newConfig.maxCacheSize] is
    truthy and below the size of the cache; the number of evictions is fixed
    before the loop. *)
Definition shrinkCache (newConfig : PartialOptimizationConfig.t) (o : t) : t :=
  match PartialOptimizationConfig.maxCacheSize newConfig with
  | Some newMax =>
      if negb (newMax =? 0)%Z && (newMax <? JSMap.size (gestureCache o))%Z
      then
        let entriesToRemove := (JSMap.size (gestureCache o) - newMax)%Z in
        Nat.iter (Z.to_nat entriesToRemove) evictOldestCacheEntry o
      else o
  | None => o
  end.

(** [updateConfig(newConfig)]. *)
Definition updateConfig (newConfig : PartialOptimizationConfig.t) (o : t) : t :=
  let o1 := make (mergeConfig (config o) newConfig) (gestureCache o) (memoryPool o) in
  shrinkCache newConfig (resizePool newConfig o1).

(** Calls on the cache. *)
Inductive cacheCall : Type :=
| Cache (k : string) (result : Data) (now : float)
| Lookup (k : string).

Definition cacheStep (c : cacheCall) (o : t) : t :=
  match c with
  | Cache k result now => cacheGestureResult k result now o
  | Lookup k => snd (getCachedGestureResult k o)
  end.

Definition cacheRun (cs : list cacheCall) (o : t) : t :=
  fold_left (fun acc c => cacheStep c acc) cs o.

(** Calls on the pool; the caller catches what a release throws. *)
Inductive poolCall : Type :=
| Get
| Return (obj : PooledObject.t).

Definition poolStep (c : poolCall) (o : t) : t :=
  match c with
  | Get => snd (getPooledObject o)
  | Return obj => snd (returnPooledObject obj o)
  end.

Definition poolRun (cs : list poolCall) (o : t) : t :=
  fold_left (fun acc c => poolStep c acc) cs o.

End WithData.

Arguments mkCacheEntry {Data}.
Arguments Lookup {Data}.
Arguments make {Data}.
Arguments mkResetRun {Data}.

(** ** The cache key hash

    [hashTouchData] hashes the string [JSON.stringify(touchData)]; the string
    is given here by its UTF-16 code units, the values of [charCodeAt].  The
    running hash is a 32-bit integer; the subtraction and the addition are
    exact on numbers of this size. *)

(** [ToInt32] on an integer: the signed value of its low 32 bits. *)
Definition toInt32 (z : Z) : Z := ((z + 2 ^ 31) mod 2 ^ 32 - 2 ^ 31)%Z.

(** One iteration of the loop of [hashTouchData]:
    [hash = ((hash << 5) - hash) + char; hash = hash & hash]. *)
Definition hashStep (hash char : Z) : Z :=
  let hash1 := (toInt32 (Z.shiftl (toInt32 hash) 5) - hash + char)%Z in
  Z.land (toInt32 hash1) (toInt32 hash1).

(** The number [hashTouchData] converts to base 36. *)
Definition hashTouchData (str : list Z) : Z := fold_left hashStep str 0%Z.

(** The defaults of the constructor. *)
Definition defaultConfig : OptimizationConfig.t :=
  OptimizationConfig.make true true true true 1000 100 10 0.8.

End PerformanceOptimizer.

Module MemoryStats.
Record t : Type := make {
  used : float;
  total : float;
  available : float;
  usage : float;
  gcCount : float;
  lastGCTime : float
}.
End MemoryStats.

(** [MemoryManager]: the readings of its [memoryStats]. *)
Module MemoryManager.

(** [isMemoryLow()] and [isMemoryCritical()]. *)
Definition isMemoryLow (memoryStats : MemoryStats.t) : bool :=
  JS.gt (MemoryStats.usage memoryStats) 80.
Definition isMemoryCritical (memoryStats : MemoryStats.t) : bool :=
  JS.gt (MemoryStats.usage memoryStats) 95.

(** [getMemoryRecommendations()]. *)
Definition getMemoryRecommendations (memoryStats : MemoryStats.t) : list string :=
  let recommendations := [] in
  let recommendations :=
    if JS.gt (MemoryStats.usage memoryStats) 90
    then recommendations
           ++ ["Memory usage is critically high. Consider reducing cache sizes."%string]
           ++ ["Enable aggressive garbage collection."%string]
    else if JS.gt (MemoryStats.usage memoryStats) 80
    then recommendations
           ++ ["Memory usage is high. Consider optimizing memory usage."%string]
           ++ ["Reduce object pool size if not needed."%string]
    else if JS.gt (MemoryStats.usage memoryStats) 70
    then recommendations
           ++ ["Memory usage is moderate. Monitor for potential issues."%string]
    else recommendations in
  let recommendations :=
    JS.pushIf (JS.gt (MemoryStats.gcCount memoryStats) 10)
      "Frequent garbage collection detected. Consider memory optimization."
      recommendations in
  recommendations.

End MemoryManager.

(* ================================================================== *)
(** * core/FeedbackManager and core/TouchControlManager *)
(* ================================================================== *)

Inductive TouchFeedbackType : Type := VISUAL | HAPTIC | AUDIO.

Definition TouchFeedbackType_eqb (a b : TouchFeedbackType) : bool :=
  match a, b with
  | VISUAL, VISUAL | HAPTIC, HAPTIC | AUDIO, AUDIO => true
  | _, _ => false
  end.

Inductive HapticType : Type :=
| LIGHT | MEDIUM | HEAVY | SELECTION | IMPACT | ROTATION | SUCCESS | ERROR | WARNING.

Module AudioType.
Inductive t : Type :=
| TAP | DOUBLE_TAP | LONG_PRESS | SWIPE | PINCH | ROTATE | SUCCESS | ERROR | WARNING.
End AudioType.

(** The string values of [GestureType]. *)
Definition GestureType_value (gestureType : GestureType) : string :=
  match gestureType with
  | TAP => "tap"
  | DOUBLE_TAP => "double_tap"
  | LONG_PRESS => "long_press"
  | SWIPE_LEFT => "swipe_left"
  | SWIPE_RIGHT => "swipe_right"
  | SWIPE_UP => "swipe_up"
  | SWIPE_DOWN => "swipe_down"
  | PAN => "pan"
  | PINCH => "pinch"
  | ROTATE => "rotate"
  | EDGE_SWIPE => "edge_swipe"
  | FORCE_TOUCH => "force_touch"
  end.

(** [FeedbackManager]: the choice of the feedback and the settings. *)
Module FeedbackManager.

(** The [data] handed to the feedback manager, as far as it is inspected: an
    object with a [type] property (a gesture event, or the literals of
    [provideSuccessFeedback] and its siblings), an object without one that has
    an [isActive] property (a gesture state), or any other object.  A [type]
    that is not a string matches no [case], like a string that is none of the
    listed ones. *)
Inductive Data : Type :=
| WithType (type : string)
| WithIsActive (isActive : bool)
| Other.

(** [getHapticTypeForData(data)]. *)
Definition getHapticTypeForData (data : Data) : HapticType :=
  match data with
  | WithType type =>
      if String.eqb type "tap" then LIGHT
      else if String.eqb type "double_tap" then MEDIUM
      else if String.eqb type "long_press" then HEAVY
      else if String.eqb type "swipe_left" || String.eqb type "swipe_right"
              || String.eqb type "swipe_up" || String.eqb type "swipe_down"
      then SELECTION
      else if String.eqb type "pinch" then IMPACT
      else if String.eqb type "rotate" then ROTATION
      else LIGHT
  | WithIsActive isActive => if isActive then SELECTION else LIGHT
  | Other => LIGHT
  end.

(** [getAudioTypeForData(data)]. *)
Definition getAudioTypeForData (data : Data) : AudioType.t :=
  match data with
  | WithType type =>
      if String.eqb type "tap" then AudioType.TAP
      else if String.eqb type "double_tap" then AudioType.DOUBLE_TAP
      else if String.eqb type "long_press" then AudioType.LONG_PRESS
      else if String.eqb type "swipe_left" || String.eqb type "swipe_right"
              || String.eqb type "swipe_up" || String.eqb type "swipe_down"
      then AudioType.SWIPE
      else if String.eqb type "pinch" then AudioType.PINCH
      else if String.eqb type "rotate" then AudioType.ROTATE
      else AudioType.TAP
  | _ => AudioType.TAP
  end.

(** The settings of the feedback manager. *)
Record t : Type := make {
  hapticEnabled : bool;
  audioEnabled : bool;
  visualEnabled : bool;
  feedbackIntensity : float
}.

(** [new FeedbackManager()]. *)
Definition create : t := make true true true 1.

(** [setFeedbackIntensity(intensity)]. *)
Definition setFeedbackIntensity (intensity : float) (fm : t) : t :=
  make (hapticEnabled fm) (audioEnabled fm) (visualEnabled fm)
       (JS.max 0 (JS.min 1 intensity)).

(** What the two triggers write to the console. *)
Inductive ConsoleLine : Type :=
| HapticFeedback (hapticType : HapticType) (intensity : float)
| AudioFeedback (audioType : AudioType.t).

(** [provideHapticFeedback(data)] and [provideAudioFeedback(data)]: the lines
    written. *)
Definition provideHapticFeedback (data : Data) (fm : t) : list ConsoleLine :=
  if negb (hapticEnabled fm) then []
  else [HapticFeedback (getHapticTypeForData data) (feedbackIntensity fm)].

Definition provideAudioFeedback (data : Data) (fm : t) : list ConsoleLine :=
  if negb (audioEnabled fm) then []
  else [AudioFeedback (getAudioTypeForData data)].

(** [provideSuccessFeedback()], [provideErrorFeedback()] and
    [provideWarningFeedback()]. *)
Definition provideSuccessFeedback (fm : t) : list ConsoleLine :=
  provideHapticFeedback (WithType "success") fm ++ provideAudioFeedback (WithType "success") fm.
Definition provideErrorFeedback (fm : t) : list ConsoleLine :=
  provideHapticFeedback (WithType "error") fm ++ provideAudioFeedback (WithType "error") fm.
Definition provideWarningFeedback (fm : t) : list ConsoleLine :=
  provideHapticFeedback (WithType "warning") fm ++ provideAudioFeedback (WithType "warning") fm.

End FeedbackManager.

Module TouchControlConfig.
(** The fields the manager itself reads, and the recognizer's configuration. *)
Record t : Type := make {
  minTouchTargetSize : float;
  spacingBetweenTargets : float;
  gestureConfig : GestureConfig.t
}.
End TouchControlConfig.

Module TouchControlManager.

(** A registered callback is a function reference: listeners are compared by
    identity ([indexOf]) and are named by numbers here. *)
Definition Listener : Type := nat.

(** A callback list is a JavaScript array object; the maps hold references to
    the arrays, and [onGesture], [offGesture] and [forEach] all work on the
    array a reference points to. *)
Definition ArrayRef : Type := nat.

(** What the manager and its feedback manager write to the console. *)
Inductive ConsoleLine : Type :=
| GestureCallbackError (gestureType : GestureType) (error : string)
| FeedbackCallbackError (feedbackType : TouchFeedbackType) (error : string)
| HapticFeedbackLog (hapticType : HapticType) (intensity : float).

(** How a callback invocation ends. *)
Inductive Outcome : Type :=
| Returned
| Threw (error : string).

(** The manager object with the parts of its collaborators that gesture
    dispatch touches: the feedback manager's haptic switch, intensity and
    custom callbacks, the performance monitor, the recognizer, and the
    console.  The accessibility manager and the operation timings are left
    out. *)
Record t : Type := make {
  isEnabled : bool;
  activeTouches : JSMap.t Z TouchPoint.t;
  touchTargets : JSMap.t string TouchTarget.t;
  gestureCallbacks : JSMap.t GestureType ArrayRef;
  customFeedbackCallbacks : JSMap.t TouchFeedbackType ArrayRef;
  arrays : list (list Listener);
  hapticEnabled : bool;
  feedbackIntensity : float;
  gestureRecognizer : GestureRecognizer.t;
  performanceMonitor : PerformanceMonitor.t;
  console : list ConsoleLine
}.

Definition set_arrays (v : list (list Listener)) (m : t) : t :=
  make (isEnabled m) (activeTouches m) (touchTargets m) (gestureCallbacks m)
       (customFeedbackCallbacks m) v (hapticEnabled m) (feedbackIntensity m)
       (gestureRecognizer m) (performanceMonitor m) (console m).
Definition set_gestureCallbacks (v : JSMap.t GestureType ArrayRef) (m : t) : t :=
  make (isEnabled m) (activeTouches m) (touchTargets m) v
       (customFeedbackCallbacks m) (arrays m) (hapticEnabled m) (feedbackIntensity m)
       (gestureRecognizer m) (performanceMonitor m) (console m).
Definition set_activeTouches (v : JSMap.t Z TouchPoint.t) (m : t) : t :=
  make (isEnabled m) v (touchTargets m) (gestureCallbacks m)
       (customFeedbackCallbacks m) (arrays m) (hapticEnabled m) (feedbackIntensity m)
       (gestureRecognizer m) (performanceMonitor m) (console m).
Definition set_gestureRecognizer (v : GestureRecognizer.t) (m : t) : t :=
  make (isEnabled m) (activeTouches m) (touchTargets m) (gestureCallbacks m)
       (customFeedbackCallbacks m) (arrays m) (hapticEnabled m) (feedbackIntensity m)
       v (performanceMonitor m) (console m).
Definition set_performanceMonitor (v : PerformanceMonitor.t) (m : t) : t :=
  make (isEnabled m) (activeTouches m) (touchTargets m) (gestureCallbacks m)
       (customFeedbackCallbacks m) (arrays m) (hapticEnabled m) (feedbackIntensity m)
       (gestureRecognizer m) v (console m).
Definition log (line : ConsoleLine) (m : t) : t :=
  make (isEnabled m) (activeTouches m) (touchTargets m) (gestureCallbacks m)
       (customFeedbackCallbacks m) (arrays m) (hapticEnabled m) (feedbackIntensity m)
       (gestureRecognizer m) (performanceMonitor m) (console m ++ [line]).

(** The array a reference points to. *)
Definition array (ref : ArrayRef) (m : t) : list Listener := nth ref (arrays m) [].

(** [Object.values(E).forEach(v => map.set(v, []))]: a new empty array for
    every value, the map pointing to it. *)
Definition allocateArrays {K : Type} (eqb : K -> K -> bool) (values : list K)
           (heap : list (list Listener)) (map : JSMap.t K ArrayRef)
  : list (list Listener) * JSMap.t K ArrayRef :=
  fold_left (fun acc v =>
               (fst acc ++ [[]], JSMap.set eqb v (List.length (fst acc)) (snd acc)))
            values (heap, map).

(** [new TouchControlManager(config)]: the feedback manager's callback lists
    are created first, the manager's own after them. *)
Definition create (cfg : TouchControlConfig.t) : t :=
  let feedback := allocateArrays TouchFeedbackType_eqb [VISUAL; HAPTIC; AUDIO] [] [] in
  let gestures := allocateArrays GestureType_eqb GestureType_values (fst feedback) [] in
  make true [] [] (snd gestures) (snd feedback) (fst gestures) true 1
       (GestureRecognizer.create (TouchControlConfig.gestureConfig cfg))
       PerformanceMonitor.create [].

(** [callbacks.indexOf(callback)]. *)
Definition indexOf (callback : Listener) (callbacks : list Listener) : option nat :=
  JS.findIndex (Nat.eqb callback) callbacks.

(** [callbacks.splice(index, 1)]. *)
Fixpoint splice1 (index : nat) (callbacks : list Listener) : list Listener :=
  match callbacks, index with
  | [], _ => []
  | _ :: rest, O => rest
  | c :: rest, S i => c :: splice1 i rest
  end.

(** Replaces the array a reference points to. *)
Fixpoint writeArray (ref : ArrayRef) (v : list Listener) (heap : list (list Listener))
  : list (list Listener) :=
  match heap, ref with
  | [], _ => []
  | _ :: rest, O => v :: rest
  | a :: rest, S r => a :: writeArray r v rest
  end.

(** [onGesture(gestureType, callback)]: pushes onto the array the map holds
    for the type, or onto a new one when the map has none. *)
Definition onGesture (gestureType : GestureType) (callback : Listener) (m : t) : t :=
  match JSMap.get GestureType_eqb gestureType (gestureCallbacks m) with
  | Some ref => set_arrays (writeArray ref (array ref m ++ [callback]) (arrays m)) m
  | None =>
      set_gestureCallbacks
        (JSMap.set GestureType_eqb gestureType (List.length (arrays m)) (gestureCallbacks m))
        (set_arrays (arrays m ++ [[callback]]) m)
  end.

(** [offGesture(gestureType, callback)]: removes the first occurrence from
    the array, in place. *)
Definition offGesture (gestureType : GestureType) (callback : Listener) (m : t) : t :=
  match JSMap.get GestureType_eqb gestureType (gestureCallbacks m) with
  | Some ref =>
      match indexOf callback (array ref m) with
      | Some index => set_arrays (writeArray ref (splice1 index (array ref m)) (arrays m)) m
      | None => m
      end
  | None => m
  end.

(** [getHapticTypeForData] on a gesture event. *)
Definition getHapticTypeForData (e : GestureEvent.t) : HapticType :=
  match GestureEvent.type e with
  | TAP => LIGHT
  | DOUBLE_TAP => MEDIUM
  | LONG_PRESS => HEAVY
  | SWIPE_LEFT | SWIPE_RIGHT | SWIPE_UP | SWIPE_DOWN => SELECTION
  | PINCH => IMPACT
  | ROTATE => ROTATION
  | _ => LIGHT
  end.

(** ** Touch targets, touch start and the enabled switch

    [cfg] is the manager's [config]. *)

Definition set_touchTargets (v : JSMap.t string TouchTarget.t) (m : t) : t :=
  make (isEnabled m) (activeTouches m) v (gestureCallbacks m)
       (customFeedbackCallbacks m) (arrays m) (hapticEnabled m) (feedbackIntensity m)
       (gestureRecognizer m) (performanceMonitor m) (console m).
Definition set_isEnabled (v : bool) (m : t) : t :=
  make v (activeTouches m) (touchTargets m) (gestureCallbacks m)
       (customFeedbackCallbacks m) (arrays m) (hapticEnabled m) (feedbackIntensity m)
       (gestureRecognizer m) (performanceMonitor m) (console m).

(** [isTargetsTooClose(target1, target2)]. *)
Definition isTargetsTooClose (cfg : TouchControlConfig.t) (target1 target2 : TouchTarget.t)
  : bool :=
  let minSpacing := TouchControlConfig.spacingBetweenTargets cfg in
  let distance :=
    PrimFloat.sqrt (JS.pow2 (TouchTarget.x target1 - TouchTarget.x target2)
                    + JS.pow2 (TouchTarget.y target1 - TouchTarget.y target2))%float in
  JS.lt distance minSpacing.

(** What [validateTouchTarget] writes with [console.warn]. *)
Inductive Warning : Type :=
| BelowMinimumSize (targetId : string) (minSize : float)
| TooCloseTogether (targetId existingId : string).

(** [validateTouchTarget(target)]: the warnings written, in order. *)
Definition validateTouchTarget (cfg : TouchControlConfig.t) (target : TouchTarget.t) (m : t)
  : list Warning :=
  let minSize := TouchControlConfig.minTouchTargetSize cfg in
  (if JS.lt (TouchTarget.width target) minSize || JS.lt (TouchTarget.height target) minSize
   then [BelowMinimumSize (TouchTarget.id target) minSize]
   else [])
  ++ flat_map (fun existingTarget =>
                 if isTargetsTooClose cfg target existingTarget
                 then [TooCloseTogether (TouchTarget.id target)
                                        (TouchTarget.id existingTarget)]
                 else [])
              (JSMap.values (touchTargets m)).

(** [registerTouchTarget(target)]: the manager afterwards and the warnings
    written. *)
Definition registerTouchTarget (cfg : TouchControlConfig.t) (target : TouchTarget.t) (m : t)
  : t * list Warning :=
  (set_touchTargets (JSMap.set String.eqb (TouchTarget.id target) target (touchTargets m)) m,
   validateTouchTarget cfg target m).

(** [unregisterTouchTarget(targetId)]. *)
Definition unregisterTouchTarget (targetId : string) (m : t) : t :=
  set_touchTargets (JSMap.delete String.eqb targetId (touchTargets m)) m.

(** [handleTouchStart(touch)]; [now] is the value of [Date.now()] the
    recognizer reads.  As for [handleTouchEnd], the operation timing and the
    accessibility announcement are outside the record. *)
Definition handleTouchStart (touch : TouchPoint.t) (now : float) (m : t) : t :=
  if negb (isEnabled m) then m
  else
    let m1 :=
      set_activeTouches
        (JSMap.set Z.eqb (TouchPoint.identifier touch) touch (activeTouches m)) m in
    set_gestureRecognizer
      (GestureRecognizer.onTouchStart touch now (gestureRecognizer m1)) m1.

(** [setEnabled(enabled)]. *)
Definition setEnabled (enabled : bool) (m : t) : t :=
  let m1 := set_isEnabled enabled m in
  if negb enabled
  then set_gestureRecognizer (GestureRecognizer.reset (gestureRecognizer m1))
                             (set_activeTouches [] m1)
  else m1.

Section Dispatch.

(** What calling a listener with an event does: how the call ends, and the
    manager afterwards.  A listener is arbitrary code; it may call back into
    the manager. *)
Variable call : Listener -> GestureEvent.t -> t -> Outcome * t.

(** One iteration of the loop body
    [try { callback(event) } catch (error) { console.error(..., error) }]. *)
Definition invoke (onError : string -> ConsoleLine) (callback : Listener)
           (e : GestureEvent.t) (m : t) : t :=
  match call callback e m with
  | (Returned, m') => m'
  | (Threw error, m') => log (onError error) m'
  end.

(** [callbacks.forEach(...)] from index [k] with [n] indices to go:
    [forEach] reads the array's length once, before the first call, and at
    every index looks the element up in the array as it is then; an index the
    array no longer has is skipped.  The second component lists the listeners
    called so far, in call order. *)
Fixpoint forEachFrom (n k : nat) (ref : ArrayRef) (onError : string -> ConsoleLine)
         (e : GestureEvent.t) (m : t) (called : list Listener) : t * list Listener :=
  match n with
  | O => (m, called)
  | S n' =>
      match nth_error (array ref m) k with
      | Some callback =>
          forEachFrom n' (S k) ref onError e (invoke onError callback e m)
                      (called ++ [callback])
      | None => forEachFrom n' (S k) ref onError e m called
      end
  end.

(** [(map.get(key) || []).forEach(...)]. *)
Definition forEachCallback (ref : option ArrayRef) (onError : string -> ConsoleLine)
           (e : GestureEvent.t) (m : t) : t * list Listener :=
  match ref with
  | Some r => forEachFrom (List.length (array r m)) 0 r onError e m []
  | None => (m, [])
  end.

(** [feedbackManager.provideFeedback(TouchFeedbackType.HAPTIC, event)]. *)
Definition provideHapticFeedback (e : GestureEvent.t) (m : t) : t :=
  let m1 :=
    if hapticEnabled m
    then log (HapticFeedbackLog (getHapticTypeForData e) (feedbackIntensity m)) m
    else m in
  fst (forEachCallback
         (JSMap.get TouchFeedbackType_eqb HAPTIC (customFeedbackCallbacks m1))
         (FeedbackCallbackError HAPTIC) e m1).

(** [processGestureEvent(gestureEvent)]: the manager afterwards and the
    gesture listeners that were called, in call order. *)
Definition processGestureEvent (e : GestureEvent.t) (m : t) : t * list Listener :=
  let dispatched :=
    forEachCallback
      (JSMap.get GestureType_eqb (GestureEvent.type e) (gestureCallbacks m))
      (GestureCallbackError (GestureEvent.type e)) e m in
  let m1 := provideHapticFeedback e (fst dispatched) in
  (set_performanceMonitor
     (PerformanceMonitor.recordGesture (GestureEvent.type e) true None
                                       (performanceMonitor m1)) m1,
   snd dispatched).

(** [handleTouchEnd(touch)]. *)
Definition handleTouchEnd (touch : TouchPoint.t) (now now' : float) (m : t)
  : t * list Listener :=
  if negb (isEnabled m) then (m, [])
  else
    let m1 :=
      set_activeTouches
        (JSMap.delete Z.eqb (TouchPoint.identifier touch) (activeTouches m)) m in
    let res := GestureRecognizer.onTouchEnd touch now now' (gestureRecognizer m1) in
    let m2 := set_gestureRecognizer (fst res) m1 in
    match snd res with
    | Some gestureEvent => processGestureEvent gestureEvent m2
    | None => (m2, [])
    end.

End Dispatch.

(** Calls that register and remove gesture listeners. *)
Inductive registration : Type :=
| On (gestureType : GestureType) (callback : Listener)
| Off (gestureType : GestureType) (callback : Listener).

Definition register (c : registration) (m : t) : t :=
  match c with
  | On gestureType callback => onGesture gestureType callback m
  | Off gestureType callback => offGesture gestureType callback m
  end.

Definition registrations (cs : list registration) (m : t) : t :=
  fold_left (fun acc c => register c acc) cs m.

End TouchControlManager.

(* ================================================================== *)
(** * Facts about binary64 arithmetic used below *)
(* ================================================================== *)

Module FloatFacts.

Lemma SFcompare_refl_not_Lt (f : spec_float) : SFcompare f f <> Some Lt.
Proof.
  destruct f as [s|s| |s m e]; simpl; try destruct s; try discriminate;
    rewrite Z.compare_refl, Pos.compare_cont_refl; discriminate.
Qed.

(** [<] is irreflexive. *)
Lemma ltb_irrefl (a : float) : PrimFloat.ltb a a = false.
Proof.
  rewrite FloatAxioms.ltb_spec. unfold SFltb.
  pose proof (SFcompare_refl_not_Lt (Prim2SF a)) as H.
  destruct (SFcompare (Prim2SF a) (Prim2SF a)) as [[]|]; congruence.
Qed.

Lemma SFltb_trans (f g h : spec_float) :
  SFltb f g = true -> SFltb g h = true -> SFltb f h = true.
Proof.
  unfold SFltb.
  destruct f as [sf|sf| |sf mf ef], g as [sg|sg| |sg mg eg], h as [sh|sh| |sh mh eh];
    simpl; try discriminate;
    try destruct sf; try destruct sg; try destruct sh; simpl;
    try discriminate; try reflexivity;
    change (PosDef.Pos.compare_cont Eq) with Pos.compare;
    destruct (Z.compare_spec ef eg), (Z.compare_spec eg eh), (Z.compare_spec ef eh);
    try discriminate; try reflexivity; try lia;
    destruct (Pos.compare_spec mf mg), (Pos.compare_spec mg mh), (Pos.compare_spec mf mh);
    simpl; try discriminate; try reflexivity; try lia.
Qed.

(** [<] is transitive (NaN is below and above nothing). *)
Lemma ltb_trans (a b c : float) :
  PrimFloat.ltb a b = true -> PrimFloat.ltb b c = true -> PrimFloat.ltb a c = true.
Proof. rewrite !FloatAxioms.ltb_spec. apply SFltb_trans. Qed.

Lemma SFcompare_Eq_not_Lt (f g : spec_float) :
  SFcompare f g = Some Eq -> SFcompare g f <> Some Lt.
Proof.
  destruct f as [sf|sf| |sf mf ef], g as [sg|sg| |sg mg eg]; simpl;
    try discriminate; try destruct sf; try destruct sg; simpl; try discriminate;
    change (PosDef.Pos.compare_cont Eq) with Pos.compare;
    destruct (Z.compare_spec ef eg), (Z.compare_spec eg ef); try discriminate; try lia;
    destruct (Pos.compare_spec mf mg), (Pos.compare_spec mg mf); simpl;
    try discriminate; try lia.
Qed.

(** [a == b] excludes [b < a]. *)
Lemma eqb_not_ltb (a b : float) : PrimFloat.eqb a b = true -> PrimFloat.ltb b a = false.
Proof.
  rewrite FloatAxioms.eqb_spec, FloatAxioms.ltb_spec. unfold SFeqb, SFltb. intros H.
  destruct (SFcompare (Prim2SF a) (Prim2SF b)) as [[]|] eqn:E; try discriminate.
  pose proof (SFcompare_Eq_not_Lt _ _ E) as N.
  destruct (SFcompare (Prim2SF b) (Prim2SF a)) as [[]|]; congruence.
Qed.

(** [v - v] is [+0] for a finite [v] and NaN otherwise. *)
Lemma sub_self (v : float) :
  PrimFloat.sub v v = 0%float \/ PrimFloat.sub v v = nan.
Proof.
  rewrite <- (SF2Prim_Prim2SF (PrimFloat.sub v v)), FloatAxioms.sub_spec.
  destruct (Prim2SF v) as [s|s| |s m e]; unfold SF64sub; simpl.
  - left. destruct s; reflexivity.
  - right. destruct s; reflexivity.
  - right. reflexivity.
  - left. rewrite Z.min_id.
    replace (cond_Zopp s (Z.pos (fst (shl_align m e e)))
             - cond_Zopp s (Z.pos (fst (shl_align m e e))))%Z with 0%Z by lia.
    reflexivity.
Qed.

(** The distance of a point to itself, as the recognizer computes it, is never
    greater than zero. *)
Lemma self_distance_not_positive (a b : float) :
  JS.gt (PrimFloat.sqrt (PrimFloat.add (JS.pow2 (PrimFloat.sub a a))
                                       (JS.pow2 (PrimFloat.sub b b)))) 0%float = false.
Proof.
  destruct (sub_self a) as [-> | ->], (sub_self b) as [-> | ->];
    vm_compute; reflexivity.
Qed.

(** ** The order on numbers *)

Lemma SFcompare_antisym (f g : spec_float) (c : comparison) :
  SFcompare f g = Some c -> SFcompare g f = Some (CompOpp c).
Proof.
  destruct f as [sf|sf| |sf mf ef], g as [sg|sg| |sg mg eg]; simpl;
    try destruct sf; try destruct sg; simpl; try discriminate;
    try (intros [= <-]; reflexivity);
    change (PosDef.Pos.compare_cont Eq) with Pos.compare;
    rewrite (Z.compare_antisym ef eg);
    destruct (Z.compare ef eg); simpl; try (intros [= <-]; reflexivity);
    rewrite (Pos.compare_antisym mf mg);
    destruct (Pos.compare mf mg); simpl; intros [= <-]; reflexivity.
Qed.

Lemma SFcompare_None (f g : spec_float) :
  SFcompare f g = None -> f = S754_nan \/ g = S754_nan.
Proof.
  destruct f as [sf|sf| |sf mf ef], g as [sg|sg| |sg mg eg]; simpl; auto;
    try destruct sf; try destruct sg; simpl; try discriminate;
    destruct (Z.compare ef eg); try discriminate;
    destruct (PosDef.Pos.compare_cont Eq mf mg); discriminate.
Qed.

Lemma SFcompare_Eq_left (f g h : spec_float) :
  SFcompare f g = Some Eq -> SFcompare f h = SFcompare g h.
Proof.
  destruct f as [sf|sf| |sf mf ef], g as [sg|sg| |sg mg eg], h as [sh|sh| |sh mh eh];
    simpl; try discriminate; try reflexivity;
    try destruct sf; try destruct sg; try destruct sh; simpl;
    try discriminate; try reflexivity;
    change (PosDef.Pos.compare_cont Eq) with Pos.compare;
    destruct (Z.compare_spec ef eg); try discriminate;
    destruct (Pos.compare_spec mf mg); try discriminate; subst; reflexivity.
Qed.


Lemma SFcompare_refl (f : spec_float) : f <> S754_nan -> SFcompare f f = Some Eq.
Proof.
  destruct f as [s|s| |s m e]; simpl; try destruct s; try congruence; intros _;
    rewrite Z.compare_refl, Pos.compare_cont_refl; reflexivity.
Qed.

(** The comparison all of [<], [<=] and [==] are read from. *)
Definition cmp (a b : float) : option comparison := SFcompare (Prim2SF a) (Prim2SF b).

Lemma ltb_cmp (a b : float) :
  PrimFloat.ltb a b = match cmp a b with Some Lt => true | _ => false end.
Proof. rewrite FloatAxioms.ltb_spec. reflexivity. Qed.

Lemma leb_cmp (a b : float) :
  PrimFloat.leb a b = match cmp a b with Some (Lt | Eq) => true | _ => false end.
Proof. rewrite FloatAxioms.leb_spec. reflexivity. Qed.

Lemma eqb_cmp (a b : float) :
  PrimFloat.eqb a b = match cmp a b with Some Eq => true | _ => false end.
Proof. rewrite FloatAxioms.eqb_spec. reflexivity. Qed.

Lemma cmp_antisym (a b : float) (c : comparison) :
  cmp a b = Some c -> cmp b a = Some (CompOpp c).
Proof. apply SFcompare_antisym. Qed.

Lemma is_nan_cmp (a : float) :
  PrimFloat.is_nan a = false <-> Prim2SF a <> S754_nan.
Proof.
  unfold PrimFloat.is_nan. rewrite eqb_cmp. unfold cmp. split.
  - intros H E. rewrite E in H. discriminate.
  - intros H. now rewrite SFcompare_refl.
Qed.

Lemma cmp_total (a b : float) :
  PrimFloat.is_nan a = false -> PrimFloat.is_nan b = false -> exists c, cmp a b = Some c.
Proof.
  rewrite !is_nan_cmp. intros Ha Hb. unfold cmp.
  destruct (SFcompare (Prim2SF a) (Prim2SF b)) as [c|] eqn:E; [eauto|].
  apply SFcompare_None in E. tauto.
Qed.

Lemma cmp_not_nan (a b : float) (c : comparison) :
  cmp a b = Some c -> PrimFloat.is_nan a = false /\ PrimFloat.is_nan b = false.
Proof.
  rewrite !is_nan_cmp. unfold cmp. intros H.
  split; intros E; rewrite E in H; [|destruct (Prim2SF a)]; discriminate.
Qed.

(** The order facts. *)
Lemma ltb_leb (a b : float) : PrimFloat.ltb a b = true -> PrimFloat.leb a b = true.
Proof. rewrite ltb_cmp, leb_cmp. destruct (cmp a b) as [[]|]; congruence. Qed.

Lemma eqb_leb (a b : float) : PrimFloat.eqb a b = true -> PrimFloat.leb a b = true.
Proof. rewrite eqb_cmp, leb_cmp. destruct (cmp a b) as [[]|]; congruence. Qed.

Lemma leb_not_ltb (a b : float) : PrimFloat.leb a b = true -> PrimFloat.ltb b a = false.
Proof.
  rewrite ltb_cmp, leb_cmp. destruct (cmp a b) as [c|] eqn:E; [|discriminate].
  rewrite (cmp_antisym _ _ E). destruct c; simpl; congruence.
Qed.

Lemma ltb_not_ltb (a b : float) : PrimFloat.ltb a b = true -> PrimFloat.ltb b a = false.
Proof. intros H. apply leb_not_ltb, ltb_leb, H. Qed.

Lemma not_ltb_leb (a b : float) :
  PrimFloat.is_nan a = false -> PrimFloat.is_nan b = false ->
  PrimFloat.ltb a b = false -> PrimFloat.leb b a = true.
Proof.
  intros Ha Hb. destruct (cmp_total a b Ha Hb) as [c E].
  rewrite ltb_cmp, leb_cmp, E, (cmp_antisym _ _ E). destruct c; simpl; congruence.
Qed.

Lemma leb_not_nan (a b : float) :
  PrimFloat.leb a b = true -> PrimFloat.is_nan a = false /\ PrimFloat.is_nan b = false.
Proof.
  rewrite leb_cmp. destruct (cmp a b) as [c|] eqn:E; [|discriminate].
  intros _. exact (cmp_not_nan _ _ E).
Qed.

Lemma ltb_not_nan (a b : float) :
  PrimFloat.ltb a b = true -> PrimFloat.is_nan a = false /\ PrimFloat.is_nan b = false.
Proof. intros H. apply leb_not_nan, ltb_leb, H. Qed.


Lemma eqb_refl (a : float) : PrimFloat.is_nan a = false -> PrimFloat.eqb a a = true.
Proof. unfold PrimFloat.is_nan. now destruct (PrimFloat.eqb a a). Qed.

Lemma leb_antisym (a b : float) :
  PrimFloat.leb a b = true -> PrimFloat.leb b a = true -> PrimFloat.eqb a b = true.
Proof.
  rewrite !leb_cmp, eqb_cmp. destruct (cmp a b) as [c|] eqn:E; [|discriminate].
  rewrite (cmp_antisym _ _ E). destruct c; simpl; congruence.
Qed.

Lemma cmp_Eq_left (a b c : float) : cmp a b = Some Eq -> cmp a c = cmp b c.
Proof. apply SFcompare_Eq_left. Qed.

Lemma cmp_Eq_right (a b c : float) : cmp a b = Some Eq -> cmp c a = cmp c b.
Proof.
  intros E. pose proof (cmp_Eq_left _ _ c E) as H.
  destruct (cmp c a) as [x|] eqn:Ea.
  - apply cmp_antisym in Ea. rewrite H in Ea. apply cmp_antisym in Ea.
    rewrite Ea. now destruct x.
  - destruct (cmp c b) as [y|] eqn:Eb; [|reflexivity].
    apply cmp_antisym in Eb. rewrite <- H in Eb. apply cmp_antisym in Eb. congruence.
Qed.

Lemma cmp_Lt_trans (a b c : float) :
  cmp a b = Some Lt -> cmp b c = Some Lt -> cmp a c = Some Lt.
Proof.
  intros H1 H2.
  assert (H : PrimFloat.ltb a c = true).
  { apply (ltb_trans (b := b)); rewrite ltb_cmp; [now rewrite H1 | now rewrite H2]. }
  rewrite ltb_cmp in H. destruct (cmp a c) as [[]|]; congruence.
Qed.

Lemma leb_ltb_trans (a b c : float) :
  PrimFloat.leb a b = true -> PrimFloat.ltb b c = true -> PrimFloat.ltb a c = true.
Proof.
  rewrite leb_cmp, !ltb_cmp. destruct (cmp a b) as [[]|] eqn:E1; try discriminate; intros _.
  - now rewrite (cmp_Eq_left _ _ c E1).
  - destruct (cmp b c) as [[]|] eqn:E2; try discriminate. intros _.
    now rewrite (cmp_Lt_trans _ _ _ E1 E2).
Qed.

Lemma ltb_leb_trans (a b c : float) :
  PrimFloat.ltb a b = true -> PrimFloat.leb b c = true -> PrimFloat.ltb a c = true.
Proof.
  rewrite leb_cmp, !ltb_cmp. destruct (cmp a b) as [[]|] eqn:E1; try discriminate; intros _.
  destruct (cmp b c) as [[]|] eqn:E2; try discriminate; intros _.
  - now rewrite <- (cmp_Eq_right _ _ a E2), E1.
  - now rewrite (cmp_Lt_trans _ _ _ E1 E2).
Qed.

Lemma leb_trans (a b c : float) :
  PrimFloat.leb a b = true -> PrimFloat.leb b c = true -> PrimFloat.leb a c = true.
Proof.
  intros H1 H2. rewrite leb_cmp in H1.
  destruct (cmp a b) as [[]|] eqn:E1; try discriminate.
  - rewrite leb_cmp, (cmp_Eq_left _ _ c E1), <- leb_cmp. exact H2.
  - apply ltb_leb, (ltb_leb_trans (b := b)); [|exact H2].
    rewrite ltb_cmp. now rewrite E1.
Qed.

End FloatFacts.

(* ================================================================== *)
(** * Properties of the gesture recognizer *)
(* ================================================================== *)

Module GestureRecognizerFacts.

Import GestureRecognizer.

(** ** Arrays *)

Lemma findIndex_None_not_In (ident : Z) (l : list TouchPoint.t) :
  JS.findIndex (fun p => Z.eqb (TouchPoint.identifier p) ident) l = None ->
  ~ In ident (map TouchPoint.identifier l).
Proof.
  induction l as [|a l IH]; simpl; intros H.
  - tauto.
  - destruct (Z.eqb_spec (TouchPoint.identifier a) ident) as [E|E]; [discriminate|].
    destruct (JS.findIndex _ l); [discriminate|].
    intros [E'|HIn]; [contradiction | exact (IH eq_refl HIn)].
Qed.

Lemma assign_findIndex_identifiers (touch : TouchPoint.t) (l : list TouchPoint.t) (i : nat) :
  JS.findIndex (fun p => Z.eqb (TouchPoint.identifier p) (TouchPoint.identifier touch)) l
    = Some i ->
  map TouchPoint.identifier (JS.assign l i touch) = map TouchPoint.identifier l.
Proof.
  revert i. induction l as [|a l IH]; simpl; intros i H.
  - discriminate.
  - destruct (Z.eqb_spec (TouchPoint.identifier a) (TouchPoint.identifier touch)) as [E|E].
    + injection H as <-. simpl. now rewrite E.
    + destruct (JS.findIndex _ l) as [j|] eqn:Hj; [|discriminate].
      injection H as <-. simpl. now rewrite (IH j eq_refl).
Qed.

Lemma NoDup_map_filter {A B} (f : A -> B) (q : A -> bool) (l : list A) :
  NoDup (map f l) -> NoDup (map f (filter q l)).
Proof.
  induction l as [|a l IH]; simpl; intros H.
  - constructor.
  - inversion H as [|? ? Hnotin Hnd]; subst.
    destruct (q a); simpl; [constructor|]; auto.
    intros HIn. apply Hnotin.
    apply in_map_iff in HIn. destruct HIn as [b [Hb HIn]].
    apply filter_In in HIn. apply in_map_iff. exists b. tauto.
Qed.

Lemma filter_removes_identifier (ident : Z) (l : list TouchPoint.t) :
  ~ In ident
      (map TouchPoint.identifier
           (filter (fun p => negb (Z.eqb (TouchPoint.identifier p) ident)) l)).
Proof.
  intros HIn. apply in_map_iff in HIn. destruct HIn as [p [Hp HIn]].
  apply filter_In in HIn. destruct HIn as [_ Hq].
  rewrite <- Hp, Z.eqb_refl in Hq. discriminate.
Qed.

(** ** The invariant of the recognizer object

    Whatever methods are called: while a gesture state exists its
    [startTouches] holds exactly the touch of the [onTouchStart] that created
    it, [currentTouches] has pairwise different identifiers, and [scale] still
    has its initial value; while the recognizer is processing, the state is
    flagged active and not recognized. *)
Definition state_inv (processing : bool) (s : GestureState.t) : Prop :=
  (exists p, GestureState.startTouches s = [p]) /\
  NoDup (map TouchPoint.identifier (GestureState.currentTouches s)) /\
  GestureState.scale s = 1%float /\
  (processing = true ->
   GestureState.isActive s = true /\ GestureState.isRecognized s = false).

Definition inv (r : t) : Prop :=
  match gestureState r with
  | Some s => state_inv (isProcessing r) s
  | None => isProcessing r = false
  end.

Lemma inv_create (cfg : GestureConfig.t) : inv (create cfg).
Proof. reflexivity. Qed.

Lemma inv_onTouchStart touch now r : inv r -> inv (onTouchStart touch now r).
Proof.
  unfold onTouchStart. intros H.
  destruct (isProcessing r) eqn:Hp; [exact H|]. unfold inv. simpl.
  split; [exists touch; reflexivity|].
  split; [constructor; [simpl; tauto | constructor]|].
  split; [reflexivity|]. intros _. split; reflexivity.
Qed.

Section WithAtan2.

Variable atan2 : float -> float -> float.

Lemma calculateMultiTouchProperties_inv b s :
  state_inv b s ->
  exists s', calculateMultiTouchProperties atan2 s = JS.Normal s' /\ state_inv b s' /\
             GestureState.currentTouches s' = GestureState.currentTouches s.
Proof.
  intros Hinv. pose proof Hinv as (Hstart & Hnd & Hscale & Hflags).
  destruct Hstart as [p Hp].
  unfold calculateMultiTouchProperties.
  destruct (GestureState.currentTouches s) as [|touch1 [|touch2 rest]] eqn:Hc;
    try (exists s; split; [reflexivity|]; split; [exact Hinv | exact Hc]).
  rewrite Hp. simpl. rewrite FloatFacts.self_distance_not_positive.
  eexists. split; [reflexivity|]. simpl.
  split; [|exact Hc].
  split; [exists p; exact Hp|].
  split; [simpl; rewrite Hc; exact Hnd|].
  split; [exact Hscale | exact Hflags].
Qed.

Lemma moveState_inv b touch s :
  state_inv b s -> exists s', moveState atan2 touch s = JS.Normal s' /\ state_inv b s'.
Proof.
  intros (Hstart & Hnd & Hscale & Hflags). destruct Hstart as [p Hp].
  unfold moveState.
  set (touches := match JS.findIndex _ _ with Some i => _ | None => _ end).
  assert (Hnd' : NoDup (map TouchPoint.identifier touches)).
  { subst touches.
    destruct (JS.findIndex _ (GestureState.currentTouches s)) as [i|] eqn:Hi.
    - now rewrite (assign_findIndex_identifiers _ _ Hi).
    - apply findIndex_None_not_In in Hi.
      rewrite map_app. simpl.
      apply NoDup_app; [exact Hnd | constructor; [simpl; tauto | constructor] |].
      intros a Ha [<-|[]]. contradiction. }
  simpl. rewrite Hp. simpl.
  match goal with
  | |- exists s', (if ?c then _ else JS.Normal ?s3) = _ /\ _ =>
      assert (H3 : state_inv b s3)
  end.
  { destruct (JS.gt _ 0); repeat split; simpl; eauto; apply Hflags; assumption. }
  match goal with
  | |- exists s', (if ?c then _ else _) = _ /\ _ => destruct c
  end.
  - destruct (calculateMultiTouchProperties_inv H3) as (s' & E & Hs' & _). eauto.
  - eauto.
Qed.

Lemma inv_onTouchMove touch r :
  inv r -> exists res, onTouchMove atan2 touch r = JS.Normal res /\ inv (fst res).
Proof.
  unfold onTouchMove, inv. intros H.
  destruct (gestureState r) as [s|] eqn:Hs.
  - destruct (isProcessing r) eqn:Hp.
    + destruct (moveState_inv touch H) as (s' & E & Hs'). rewrite E. simpl.
      eexists. split; [reflexivity|]. exact Hs'.
    + eexists. split; [reflexivity|]. simpl. now rewrite Hs, Hp.
  - eexists. split; [reflexivity|]. simpl. now rewrite Hs.
Qed.

End WithAtan2.

Lemma inv_onTouchEnd touch now now' r : inv r -> inv (fst (onTouchEnd touch now now' r)).
Proof.
  unfold onTouchEnd, inv. intros H.
  destruct (gestureState r) as [s|] eqn:Hs; [|simpl; now rewrite Hs].
  destruct (isProcessing r) eqn:Hp; [|simpl; now rewrite Hs, Hp].
  destruct H as (Hstart & Hnd & Hscale & Hflags).
  assert (Hnd' := NoDup_map_filter TouchPoint.identifier
            (fun p => negb (Z.eqb (TouchPoint.identifier p) (TouchPoint.identifier touch)))
            _ Hnd).
  destruct (Nat.eqb _ 0); [destruct (recognizeGesture _ _ _)|]; simpl;
    repeat split; auto; try discriminate; apply Hflags; reflexivity.
Qed.

Lemma inv_updateConfig cfg r : inv r -> inv (updateConfig cfg r).
Proof. unfold inv, updateConfig. simpl. auto. Qed.

Lemma inv_reset r : inv (reset r).
Proof. reflexivity. Qed.

Lemma inv_step atan2 c r :
  inv r -> exists res, step atan2 c r = JS.Normal res /\ inv (fst res).
Proof.
  intros H. destruct c as [touch now|touch|touch now now'|cfg| |]; simpl.
  - eexists. split; [reflexivity|]. now apply inv_onTouchStart.
  - destruct (@inv_onTouchMove atan2 touch r H) as (res & E & Hres). rewrite E. simpl.
    eexists. split; [reflexivity|]. exact Hres.
  - eexists. split; [reflexivity|]. now apply inv_onTouchEnd.
  - eexists. split; [reflexivity|]. now apply inv_updateConfig.
  - eexists. split; [reflexivity|]. apply inv_reset.
  - eexists. split; [reflexivity|]. apply inv_reset.
Qed.

(** No sequence of calls raises, and the invariant holds afterwards. *)
Lemma inv_run atan2 cs : forall r,
  inv r -> exists res, run atan2 cs r = JS.Normal res /\ inv (fst res).
Proof.
  induction cs as [|c cs IH]; intros r H; simpl.
  - eexists. split; [reflexivity|]. exact H.
  - destruct (@inv_step atan2 c r H) as (res & E & Hres). rewrite E. simpl.
    destruct (IH _ Hres) as (res' & E' & Hres'). rewrite E'. simpl.
    eexists. split; [reflexivity|]. exact Hres'.
Qed.

End GestureRecognizerFacts.

(* ================================================================== *)
(** * Claims about the gesture recognizer *)
(* ================================================================== *)

Module GestureRecognizerClaims.

Import GestureRecognizer GestureRecognizerFacts.

(** A touch point with pressure 0.5, as the repository's tests build them. *)
Definition touchAt (x y timestamp : float) (identifier : Z) : TouchPoint.t :=
  TouchPoint.make x y timestamp (Some 0.5%float) identifier.

(** ** C4: identifiers in [currentTouches] *)

(** C4.  For every sequence of [onTouchStart], [onTouchMove] and [onTouchEnd]
    calls (and of [updateConfig], [reset] and [destroy] calls between them)
    on a fresh recognizer, with arbitrary touch identifiers, no call raises
    and the gesture state's [currentTouches] never holds two entries with the
    same identifier. *)
Theorem currentTouches_identifiers_unique :
  forall (atan2 : float -> float -> float) (cfg : GestureConfig.t) (cs : list call),
  exists r outs,
    run atan2 cs (create cfg) = JS.Normal (r, outs) /\
    match gestureState r with
    | Some s => NoDup (map TouchPoint.identifier (GestureState.currentTouches s))
    | None => True
    end.
Proof.
  intros atan2 cfg cs.
  destruct (@inv_run atan2 cs (create cfg) (inv_create cfg)) as ([r outs] & E & Hinv).
  exists r, outs. split; [exact E|].
  unfold inv in Hinv. simpl in Hinv.
  destruct (gestureState r); [apply Hinv | exact I].
Qed.

(** [onTouchMove] replaces the first entry with the moved identifier, or
    appends the touch when there is none. *)
Lemma moveState_currentTouches atan2 touch s s' :
  moveState atan2 touch s = JS.Normal s' ->
  GestureState.currentTouches s' =
  match JS.findIndex
          (fun p => Z.eqb (TouchPoint.identifier p) (TouchPoint.identifier touch))
          (GestureState.currentTouches s) with
  | Some i => JS.assign (GestureState.currentTouches s) i touch
  | None => GestureState.currentTouches s ++ [touch]
  end.
Proof.
  unfold moveState. simpl.
  destruct (GestureState.startTouches s) as [|p ?]; simpl; [discriminate|].
  set (touches := match JS.findIndex _ _ with Some i => _ | None => _ end).
  assert (Hm : forall s0 s1, GestureState.currentTouches s0 = touches ->
                 calculateMultiTouchProperties atan2 s0 = JS.Normal s1 ->
                 GestureState.currentTouches s1 = touches).
  { intros s0 s1 H0. unfold calculateMultiTouchProperties.
    destruct (GestureState.currentTouches s0) as [|a [|b l0]] eqn:Hc;
      try (intros [= <-]; congruence).
    destruct (JS.index (GestureState.startTouches s0) 0); simpl; [|discriminate].
    destruct (JS.gt _ 0); intros [= <-]; simpl; congruence. }
  destruct (JS.gt _ 0); simpl;
    (destruct (Nat.ltb 1 (List.length touches));
     [apply Hm; reflexivity | intros [= <-]; reflexivity]).
Qed.

(** [onTouchEnd] removes every entry with the ended identifier. *)
Lemma onTouchEnd_removes_identifier touch now now' r s :
  isProcessing r = true ->
  gestureState (fst (onTouchEnd touch now now' r)) = Some s ->
  ~ In (TouchPoint.identifier touch)
       (map TouchPoint.identifier (GestureState.currentTouches s)).
Proof.
  unfold onTouchEnd. intros Hp.
  destruct (gestureState r) as [s0|] eqn:Hs; try rewrite Hp.
  - destruct (Nat.eqb _ 0); [destruct (recognizeGesture _ _ _)|]; simpl;
      intros [= <-]; simpl; apply filter_removes_identifier.
  - simpl. congruence.
Qed.

(** ** C1: multi-touch classification *)

(** Rules 1-4 of the classification order: TAP, LONG_PRESS, SWIPE and PAN. *)
Definition singleTouchRules (cfg : GestureConfig.t) (s : GestureState.t) (now : float)
  : option GestureType :=
  if JS.lt (gestureDistance s) (GestureConfig.minDistance cfg)
     && JS.lt (gestureDuration s now) (GestureConfig.maxDuration cfg)
  then Some TAP
  else if JS.lt (gestureDistance s) (GestureConfig.minDistance cfg)
          && JS.gt (gestureDuration s now) (GestureConfig.minDuration cfg)
  then Some LONG_PRESS
  else if JS.gt (gestureVelocity s) (GestureConfig.velocityThreshold cfg)
          && JS.gt (gestureDistance s) (GestureConfig.minDistance cfg)
  then Some (recognizeSwipeDirection s)
  else if JS.gt (gestureDistance s) (GestureConfig.minDistance cfg)
          && JS.lt (gestureVelocity s) (GestureConfig.velocityThreshold cfg)
  then Some PAN
  else None.

Definition isMultiTouchType (g : GestureType) : bool :=
  match g with
  | PINCH | ROTATE => true
  | _ => false
  end.

Lemma singleTouchRules_not_multi cfg s now g :
  singleTouchRules cfg s now = Some g -> isMultiTouchType g = false.
Proof.
  unfold singleTouchRules, recognizeSwipeDirection.
  repeat match goal with
         | |- context [if ?c then _ else _] => destruct c
         end; intros [= <-]; reflexivity.
Qed.

(** Once [currentTouches] is empty, [recognizeGesture] is rules 1-4: its
    multi-touch branch asks for more than one current touch. *)
Lemma recognizeGesture_released cfg s now :
  GestureState.currentTouches s = [] ->
  recognizeGesture cfg s now = singleTouchRules cfg s now.
Proof.
  intros H. unfold recognizeGesture, singleTouchRules. rewrite H. simpl.
  repeat match goal with
         | |- context [if ?c then _ else _] => destruct c
         end; reflexivity.
Qed.

(** Every event [onTouchEnd] returns, in whatever state it is called, is
    classified by rules 1-4 on the released state; none is of type PINCH or
    ROTATE, whatever the state's scale and rotation are. *)
Lemma onTouchEnd_never_pinch_or_rotate :
  forall (touch : TouchPoint.t) (now now' : float) (r : t),
    match snd (onTouchEnd touch now now' r) with
    | Some e =>
        singleTouchRules (config r) (GestureEvent.state e) now = Some (GestureEvent.type e)
        /\ isMultiTouchType (GestureEvent.type e) = false
    | None => True
    end.
Proof.
  intros touch now now' r. unfold onTouchEnd.
  destruct (gestureState r) as [s|]; [|exact I].
  destruct (isProcessing r); [|exact I].
  destruct (Nat.eqb _ 0) eqn:Hlen; [|exact I].
  apply Nat.eqb_eq, length_zero_iff_nil in Hlen.
  rewrite (recognizeGesture_released _ _ _ Hlen).
  destruct (singleTouchRules _ _ now) as [g|] eqn:Hg; simpl; [|exact I].
  split; [exact Hg | exact (singleTouchRules_not_multi _ _ _ Hg)].
Qed.

(** When rules 1-4 do not match the released state, [onTouchEnd] returns
    [null]. *)
Lemma onTouchEnd_null_beyond_rule_4 touch now now' r s :
  gestureState (fst (onTouchEnd touch now now' r)) = Some s ->
  singleTouchRules (config r) s now = None ->
  snd (onTouchEnd touch now now' r) = None.
Proof.
  unfold onTouchEnd.
  destruct (gestureState r) as [s0|]; [|reflexivity].
  destruct (isProcessing r); [|reflexivity].
  destruct (Nat.eqb _ 0) eqn:Hlen; [|reflexivity].
  apply Nat.eqb_eq, length_zero_iff_nil in Hlen.
  rewrite (recognizeGesture_released _ _ _ Hlen).
  destruct (singleTouchRules _ _ now) as [g|] eqn:Hg; simpl; [|reflexivity].
  intros [= <-].
  unfold singleTouchRules, recognizeSwipeDirection, gestureDistance, gestureDuration,
    gestureVelocity in *.
  simpl in *. congruence.
Qed.

(** A two-finger interaction under the default configuration: finger 1 lands
    at (100,100); finger 2 lands at (200,100) and moves to (100,250); finger 1
    moves to (100,110); both lift. *)
Definition twoFingerCalls : list call :=
  [ TouchStart (touchAt 100 100 0 1) 0;
    TouchStart (touchAt 200 100 0 2) 0;
    TouchMove (touchAt 100 250 500 2);
    TouchMove (touchAt 100 110 1000 1);
    TouchEnd (touchAt 100 110 1200 1) 1200 1200;
    TouchEnd (touchAt 100 250 1300 2) 1300 1300 ].

(** C1 (as the code behaves, at the two-finger interaction).  After the second
    move two touches are current, and the state's rotation is the angle
    between (100,110)-(100,250) and the start pair, a quarter turn with the
    real [Math.atan2].  The last delta, (0,10), has length 10 = [minDistance],
    so none of rules 1-4 matches.  Both [onTouchEnd] calls return [null], the
    last one too, and the recognizer is left processing. *)
Theorem two_finger_release_returns_null :
  forall atan2 : float -> float -> float,
  exists r outs s2 s3,
    run atan2 twoFingerCalls (create defaultGestureConfig) = JS.Normal (r, outs) /\
    outs = [Void; Void; State (Some s2); State (Some s3); Event None; Event None] /\
    List.length (GestureState.currentTouches s3) = 2%nat /\
    GestureState.scale s3 = 1%float /\
    GestureState.rotation s3 = ((atan2 140 0 - atan2 0 0) * (180 / JS.PI))%float /\
    singleTouchRules defaultGestureConfig s3 1300 = None /\
    isProcessing r = true.
Proof.
  intros atan2. do 4 eexists. split; [vm_compute; reflexivity|].
  split; [reflexivity|]. repeat split; vm_compute; reflexivity.
Qed.

(** ** C2: scale and rotation while two touches are active *)

(** On every run, [startTouches] keeps the single touch of [onTouchStart] and
    [scale] keeps its initial value 1: [calculateMultiTouchProperties] finds
    no second start touch, falls back to the first, and measures a start
    distance that is not greater than zero. *)
Lemma scale_is_always_1 (atan2 : float -> float -> float) (cfg : GestureConfig.t)
      (cs : list call) :
  exists r outs,
    run atan2 cs (create cfg) = JS.Normal (r, outs) /\
    match gestureState r with
    | Some s =>
        List.length (GestureState.startTouches s) = 1%nat /\
        GestureState.scale s = 1%float
    | None => True
    end.
Proof.
  destruct (@inv_run atan2 cs (create cfg) (inv_create cfg)) as ([r outs] & E & Hinv).
  exists r, outs. split; [exact E|].
  unfold inv in Hinv. simpl in Hinv.
  destruct (gestureState r); [|exact I].
  destruct Hinv as ([p Hp] & _ & Hscale & _). rewrite Hp. split; [reflexivity | exact Hscale].
Qed.

(** What [calculateMultiTouchProperties] assigns on a state with at least two
    current touches and a start touch: the quotient of the two distances when
    the start distance is greater than zero, the previous scale otherwise. *)
Lemma calculateMultiTouchProperties_scale atan2 s s' touch1 touch2 rest startTouch1 :
  GestureState.currentTouches s = touch1 :: touch2 :: rest ->
  JS.index (GestureState.startTouches s) 0 = Some startTouch1 ->
  calculateMultiTouchProperties atan2 s = JS.Normal s' ->
  let startTouch2 :=
    match JS.index (GestureState.startTouches s) 1 with
    | Some p => p
    | None => startTouch1
    end in
  let startDistance :=
    PrimFloat.sqrt (JS.pow2 (TouchPoint.x startTouch2 - TouchPoint.x startTouch1)
                    + JS.pow2 (TouchPoint.y startTouch2 - TouchPoint.y startTouch1))%float in
  let currentDistance :=
    PrimFloat.sqrt (JS.pow2 (TouchPoint.x touch2 - TouchPoint.x touch1)
                    + JS.pow2 (TouchPoint.y touch2 - TouchPoint.y touch1))%float in
  GestureState.scale s' =
    (if JS.gt startDistance 0 then (currentDistance / startDistance)%float
     else GestureState.scale s) /\
  GestureState.rotation s' =
    ((atan2 (TouchPoint.y touch2 - TouchPoint.y touch1)
            (TouchPoint.x touch2 - TouchPoint.x touch1)
      - atan2 (TouchPoint.y startTouch2 - TouchPoint.y startTouch1)
              (TouchPoint.x startTouch2 - TouchPoint.x startTouch1))
     * (180 / JS.PI))%float.
Proof.
  intros Hc Hs. unfold calculateMultiTouchProperties. rewrite Hc, Hs. simpl.
  intros [= <-]. destruct (JS.gt _ 0); simpl; split; reflexivity.
Qed.

(** The repository's test 'should calculate scale for pinch gesture': two
    fingers land 100 apart and move to 120 apart. *)
Definition pinchTestCalls : list call :=
  [ TouchStart (touchAt 100 100 0 1) 0;
    TouchStart (touchAt 200 100 0 2) 0;
    TouchMove (touchAt 90 100 100 1);
    TouchMove (touchAt 210 100 100 2) ].

(** C2 (as the code behaves, at the pinch test).  After the two moves two
    touches are active, 120 apart, and the two touches that started the
    gesture were 100 apart, so the quotient of the distances is 1.2; the
    recognizer's state has one start touch and scale 1. *)
Theorem pinch_test_scale_stays_1 :
  forall atan2 : float -> float -> float,
  exists r outs s,
    run atan2 pinchTestCalls (create defaultGestureConfig) = JS.Normal (r, outs) /\
    gestureState r = Some s /\
    GestureState.currentTouches s = [touchAt 90 100 100 1; touchAt 210 100 100 2] /\
    GestureState.startTouches s = [touchAt 100 100 0 1] /\
    GestureState.scale s = 1%float /\
    TouchUtils.calculateGestureScale
      [touchAt 100 100 0 1; touchAt 200 100 0 2]
      (GestureState.currentTouches s) = 1.2%float.
Proof.
  intros atan2. do 3 eexists.
  split; [vm_compute; reflexivity|].
  split; [reflexivity|].
  repeat split; vm_compute; reflexivity.
Qed.

(** ** C3: the event returned by [onTouchEnd] *)

(** On every run, an event returned by [onTouchEnd] carries the state as it
    was before the flags were assigned (active, not recognized); the flags are
    assigned on the recognizer's own state, and the recognizer stops
    processing. *)
Lemma event_snapshot_flags (atan2 : float -> float -> float) (cfg : GestureConfig.t)
      (cs : list call) (touch : TouchPoint.t) (now now' : float) :
  exists r outs,
    run atan2 cs (create cfg) = JS.Normal (r, outs) /\
    match onTouchEnd touch now now' r with
    | (r', Some e) =>
        GestureState.isRecognized (GestureEvent.state e) = false /\
        GestureState.isActive (GestureEvent.state e) = true /\
        gestureState r' = Some (GestureState.set_flags false true (GestureEvent.state e)) /\
        isProcessing r' = false
    | (_, None) => True
    end.
Proof.
  destruct (@inv_run atan2 cs (create cfg) (inv_create cfg)) as ([r outs] & E & Hinv).
  exists r, outs. split; [exact E|].
  unfold inv in Hinv. simpl in Hinv. unfold onTouchEnd.
  destruct (gestureState r) as [s|]; [|exact I].
  destruct (isProcessing r); [|exact I].
  destruct Hinv as (_ & _ & _ & Hflags). destruct (Hflags eq_refl) as [Ha Hr].
  destruct (Nat.eqb _ 0); [|exact I].
  destruct (recognizeGesture _ _ _); [|exact I].
  simpl. auto.
Qed.

(** C3 (as the code behaves, at the repository's test 'should handle touch
    end').  A touch lands at (100,100) and lifts 50 ms later: [onTouchEnd]
    returns a TAP event whose state has [isRecognized = false] and
    [isActive = true]; the recognizer's own state has [isRecognized = true]
    and [isActive = false], and the recognizer is idle. *)
Theorem tap_event_snapshot_flags :
  let r := onTouchStart (touchAt 100 100 0 1) 0 (create defaultGestureConfig) in
  exists r' e s',
    onTouchEnd (touchAt 100 100 50 1) 50 50 r = (r', Some e) /\
    GestureEvent.type e = TAP /\
    GestureState.isRecognized (GestureEvent.state e) = false /\
    GestureState.isActive (GestureEvent.state e) = true /\
    gestureState r' = Some s' /\
    GestureState.isRecognized s' = true /\
    GestureState.isActive s' = false /\
    isProcessing r' = false.
Proof.
  do 3 eexists. split; [vm_compute; reflexivity|]. repeat split.
Qed.

(** ** C10: after a release that matches no rule *)

(** Calls other than [reset()] and [destroy()]. *)
Definition quiet (c : call) : bool :=
  match c with
  | DoReset | DoDestroy => false
  | _ => true
  end.

(** Outputs other than a gesture event. *)
Definition silent (o : output) : bool :=
  match o with
  | Event (Some _) => false
  | _ => true
  end.

(** [r'] still holds the gesture state object that [onTouchStart] created for
    [r]: same start time, same start touches. *)
Definition sameGesture (r r' : t) : Prop :=
  match gestureState r, gestureState r' with
  | Some s, Some s' =>
      GestureState.startTime s' = GestureState.startTime s /\
      GestureState.startTouches s' = GestureState.startTouches s
  | _, _ => False
  end.

Lemma onTouchStart_ignored touch now r :
  isProcessing r = true -> onTouchStart touch now r = r.
Proof. unfold onTouchStart. now intros ->. Qed.

Lemma sameGesture_refl r : inv r -> isProcessing r = true -> sameGesture r r.
Proof.
  unfold inv, sameGesture. destruct (gestureState r); [tauto | congruence].
Qed.

Lemma sameGesture_trans r1 r2 r3 : sameGesture r1 r2 -> sameGesture r2 r3 -> sameGesture r1 r3.
Proof.
  unfold sameGesture.
  destruct (gestureState r1), (gestureState r2), (gestureState r3); try tauto.
  intros [-> ->] [-> ->]. tauto.
Qed.

Lemma calculateMultiTouchProperties_start atan2 s s' :
  calculateMultiTouchProperties atan2 s = JS.Normal s' ->
  GestureState.startTime s' = GestureState.startTime s /\
  GestureState.startTouches s' = GestureState.startTouches s.
Proof.
  unfold calculateMultiTouchProperties.
  destruct (GestureState.currentTouches s) as [|a [|b l]]; try (intros [= <-]; tauto).
  destruct (JS.index (GestureState.startTouches s) 0); simpl; [|discriminate].
  destruct (JS.gt _ 0); intros [= <-]; simpl; tauto.
Qed.

Lemma moveState_start atan2 touch s s' :
  moveState atan2 touch s = JS.Normal s' ->
  GestureState.startTime s' = GestureState.startTime s /\
  GestureState.startTouches s' = GestureState.startTouches s.
Proof.
  unfold moveState. simpl.
  destruct (GestureState.startTouches s) as [|p ps] eqn:Hs; simpl; [discriminate|].
  rewrite <- Hs.
  destruct (JS.gt _ 0); simpl;
    (destruct (Nat.ltb 1 _);
     [intros H; apply calculateMultiTouchProperties_start in H; simpl in H; exact H
     | intros [= <-]; simpl; tauto]).
Qed.

(** A quiet call that returns no event leaves a processing recognizer
    processing, on the same gesture. *)
Lemma step_keeps_processing atan2 c r r' o :
  inv r -> isProcessing r = true -> quiet c = true ->
  step atan2 c r = JS.Normal (r', o) -> silent o = true ->
  isProcessing r' = true /\ sameGesture r r'.
Proof.
  intros Hinv Hp Hq. pose proof (sameGesture_refl r Hinv Hp) as Hrefl.
  unfold inv in Hinv. unfold sameGesture in *.
  destruct c as [touch now|touch|touch now now'|cfg| |]; simpl in *; try discriminate.
  - rewrite (onTouchStart_ignored touch now r Hp). intros [= <- <-] _. tauto.
  - unfold onTouchMove.
    destruct (gestureState r) as [s|] eqn:Hs; [|contradiction]. rewrite Hp.
    destruct (moveState atan2 touch s) as [s'|] eqn:Hm; simpl; [|discriminate].
    intros [= <- <-] _. simpl. split; [reflexivity|].
    exact (moveState_start _ _ _ Hm).
  - unfold onTouchEnd.
    destruct (gestureState r) as [s|] eqn:Hs; [|contradiction]. rewrite Hp.
    destruct (Nat.eqb _ 0); [destruct (recognizeGesture _ _ _)|]; simpl;
      intros [= <- <-]; simpl; try discriminate; intros _; tauto.
  - intros [= <- <-] _. simpl. tauto.
Qed.

Lemma run_keeps_processing atan2 cs : forall r r' outs,
  inv r -> isProcessing r = true -> forallb quiet cs = true ->
  run atan2 cs r = JS.Normal (r', outs) -> forallb silent outs = true ->
  isProcessing r' = true /\ sameGesture r r'.
Proof.
  induction cs as [|c cs IH]; simpl; intros r r' outs Hinv Hp Hq.
  - intros [= <- <-] _. split; [exact Hp | exact (sameGesture_refl r Hinv Hp)].
  - apply andb_true_iff in Hq. destruct Hq as [Hc Hcs].
    destruct (@inv_step atan2 c r Hinv) as ([r1 o1] & E1 & Hinv1). rewrite E1. simpl in *.
    destruct (run atan2 cs r1) as [[r2 outs2]|] eqn:E2; simpl; [|discriminate].
    intros [= <- <-]. simpl. intros Hs. apply andb_true_iff in Hs. destruct Hs as [Ho Houts].
    destruct (step_keeps_processing atan2 c r Hinv Hp Hc E1 Ho) as [Hp1 Hsame1].
    destruct (IH r1 r2 outs2 Hinv1 Hp1 Hcs E2 Houts) as [Hp2 Hsame2].
    split; [exact Hp2 | exact (sameGesture_trans _ _ _ Hsame1 Hsame2)].
Qed.

(** C10 (amended).  On any run of a fresh recognizer, let an [onTouchEnd] on
    the processing recognizer return [null].  Then, whatever calls other than
    [reset()] and [destroy()] follow, they run without raising, and as long as
    none of them returns a gesture event the recognizer is still processing
    the same gesture state and ignores [onTouchStart]. *)
Theorem processing_until_reset_or_event :
  forall (atan2 : float -> float -> float) (cfg : GestureConfig.t)
         (before : list call) (r0 : t) (outs0 : list output)
         (touch : TouchPoint.t) (now now' : float) (after : list call),
    run atan2 before (create cfg) = JS.Normal (r0, outs0) ->
    isProcessing r0 = true ->
    snd (onTouchEnd touch now now' r0) = None ->
    forallb quiet after = true ->
    exists r' outs,
      run atan2 after (fst (onTouchEnd touch now now' r0)) = JS.Normal (r', outs) /\
      (forallb silent outs = true ->
       isProcessing r' = true /\ sameGesture r0 r' /\
       forall touch' now'', onTouchStart touch' now'' r' = r').
Proof.
  intros atan2 cfg before r0 outs0 touch now now' after Hrun Hp Hnull Hq.
  destruct (@inv_run atan2 before (create cfg) (inv_create cfg)) as (res & E & Hinv0).
  rewrite Hrun in E. injection E as <-. simpl in Hinv0.
  pose proof (inv_onTouchEnd touch now now' r0 Hinv0) as Hinv1.
  assert (H1 : isProcessing (fst (onTouchEnd touch now now' r0)) = true
               /\ sameGesture r0 (fst (onTouchEnd touch now now' r0))).
  { apply (@step_keeps_processing atan2 (TouchEnd touch now now') r0 _
             (Event (snd (onTouchEnd touch now now' r0))) Hinv0 Hp eq_refl).
    - simpl. now destruct (onTouchEnd touch now now' r0).
    - rewrite Hnull. reflexivity. }
  destruct H1 as [Hp1 Hsame1].
  destruct (@inv_run atan2 after _ Hinv1) as ([r' outs] & E' & Hinv').
  exists r', outs. split; [exact E'|]. intros Hs.
  destruct (run_keeps_processing atan2 after _ Hinv1 Hp1 Hq E' Hs) as [Hp' Hsame'].
  split; [exact Hp'|]. split; [exact (sameGesture_trans _ _ _ Hsame1 Hsame')|].
  intros touch' now''. exact (onTouchStart_ignored touch' now'' r' Hp').
Qed.

(** Runs on which [currentTouches] never holds two entries do not call
    [Math.atan2]; the closed examples pass this function for it. *)
Definition atan2_not_called : float -> float -> float := fun _ _ => nan.

(** A touch that lands at the origin and moves exactly [minDistance] = 10 away:
    a delta of length 10 is neither below nor above [minDistance]. *)
Definition exactlyMinDistanceCalls : list call :=
  [ TouchStart (touchAt 0 0 0 1) 0;
    TouchMove (touchAt 10 0 1000 1) ].

Definition afterExactlyMinDistance : t :=
  match run atan2_not_called exactlyMinDistanceCalls (create defaultGestureConfig) with
  | JS.Normal (r, _) => r
  | JS.TypeError => create defaultGestureConfig
  end.

Lemma processing_until_reset_or_event_witness :
  exists r' outs,
    run atan2_not_called
        [TouchStart (touchAt 50 50 1100 2) 1100; TouchMove (touchAt 10 5 1200 1)]
        (fst (onTouchEnd (touchAt 10 0 1000 1) 1000 1000 afterExactlyMinDistance))
      = JS.Normal (r', outs) /\
    (forallb silent outs = true ->
     isProcessing r' = true /\ sameGesture afterExactlyMinDistance r' /\
     forall touch' now'', onTouchStart touch' now'' r' = r').
Proof.
  apply (@processing_until_reset_or_event atan2_not_called defaultGestureConfig
           exactlyMinDistanceCalls afterExactlyMinDistance
           [Void; State (gestureState afterExactlyMinDistance)]).
  - vm_compute. reflexivity.
  - vm_compute. reflexivity.
  - vm_compute. reflexivity.
  - reflexivity.
Defined.

(** A configuration with a gap between the tap and the long-press windows: a
    tap lasts less than 300 ms, a long press more than 500 ms. *)
Definition gapConfig : GestureConfig.t := GestureConfig.make 10 1000 500 300 0.3 0.1 15.

(** C10 (counterexample).  Finger 1 lands and lifts after 400 ms: no rule
    matches, [onTouchEnd] returns [null] with [currentTouches] empty and the
    recognizer processing.  Finger 2, whose landing was ignored, lifts at
    600 ms: that [onTouchEnd] classifies a LONG_PRESS and the recognizer goes
    idle.  The next [onTouchStart] is not ignored: it creates a new gesture
    state, and neither [reset()] nor [destroy()] was called. *)
Lemma onTouchStart_accepted_without_reset :
  let r1 := onTouchStart (touchAt 100 100 0 1) 0 (create gapConfig) in
  let r1' := onTouchStart (touchAt 200 100 100 2) 100 r1 in
  let end1 := onTouchEnd (touchAt 100 100 400 1) 400 400 r1' in
  let end2 := onTouchEnd (touchAt 200 100 600 2) 600 600 (fst end1) in
  let r4 := onTouchStart (touchAt 50 50 700 3) 700 (fst end2) in
  r1' = r1 /\
  snd end1 = None /\
  option_map GestureState.currentTouches (gestureState (fst end1)) = Some [] /\
  isProcessing (fst end1) = true /\
  option_map GestureEvent.type (snd end2) = Some LONG_PRESS /\
  isProcessing (fst end2) = false /\
  option_map GestureState.startTime (gestureState r4) = Some 700%float /\
  option_map GestureState.startTouches (gestureState r4) = Some [touchAt 50 50 700 3] /\
  r4 <> fst end2.
Proof.
  repeat split; try (vm_compute; reflexivity).
  intros H. apply (f_equal isProcessing) in H. vm_compute in H. discriminate.
Qed.

(** The same under the default configuration: after the release at exactly
    [minDistance] returned [null], the touch moves back and lifts again, which
    classifies a TAP; the following [onTouchStart] starts a new gesture. *)
Lemma onTouchStart_accepted_without_reset_default (atan2 : float -> float -> float) :
  exists r outs s,
    run atan2
        (exactlyMinDistanceCalls ++
         [ TouchEnd (touchAt 10 0 1000 1) 1000 1000;
           TouchMove (touchAt 0 0 1500 1);
           TouchEnd (touchAt 0 0 1500 1) 1500 1500;
           TouchStart (touchAt 5 5 1600 2) 1600 ])
        (create defaultGestureConfig) = JS.Normal (r, outs) /\
    map silent outs = [true; true; true; true; false; true] /\
    nth_error outs 2 = Some (Event None) /\
    gestureState r = Some s /\
    GestureState.startTime s = 1600%float /\
    GestureState.startTouches s = [touchAt 5 5 1600 2].
Proof.
  do 3 eexists. split; [vm_compute; reflexivity|].
  repeat split; vm_compute; reflexivity.
Qed.

End GestureRecognizerClaims.

(* ================================================================== *)
(** * The event's state and the recognizer's touch arrays *)
(* ================================================================== *)

Module RecognizerObjectsFacts.

Import RecognizerObjects.

(** ** The heap *)

Lemma length_write ref v (h : Heap) : List.length (write ref v h) = List.length h.
Proof.
  revert ref. induction h as [|a h IH]; intros [|ref]; simpl; auto.
Qed.

Lemma read_write_same ref v (h : Heap) :
  (ref < List.length h)%nat -> read (write ref v h) ref = v.
Proof.
  unfold read. revert ref. induction h as [|a h IH]; intros [|ref]; simpl; intros H;
    try lia; auto. apply IH. lia.
Qed.

Lemma read_write_other ref ref' v (h : Heap) :
  ref <> ref' -> read (write ref v h) ref' = read h ref'.
Proof.
  unfold read. revert ref ref'.
  induction h as [|a h IH]; intros [|ref] [|ref']; simpl; intros H; auto; try congruence.
Qed.

Lemma read_app (h h' : Heap) ref :
  (ref < List.length h)%nat -> read (h ++ h') ref = read h ref.
Proof. intros H. unfold read. now apply app_nth1. Qed.

Lemma read_app_new (h : Heap) v h' : read (h ++ v :: h') (List.length h) = v.
Proof. unfold read. rewrite app_nth2, Nat.sub_diag; [reflexivity | lia]. Qed.

Lemma firstn_write n ref v (h : Heap) :
  (n <= ref)%nat -> firstn n (write ref v h) = firstn n h.
Proof.
  revert n ref. induction h as [|a h IH]; intros [|n] [|ref]; simpl; intros H;
    try lia; auto. f_equal. apply IH. lia.
Qed.

Lemma firstn_app_heap n (h h' : Heap) :
  (n <= List.length h)%nat -> firstn n (h ++ h') = firstn n h.
Proof.
  intros H. rewrite firstn_app.
  replace (n - List.length h)%nat with 0%nat by lia. simpl. apply app_nil_r.
Qed.

Lemma read_firstn n (h : Heap) ref :
  (ref < n)%nat -> read (firstn n h) ref = read h ref.
Proof.
  unfold read. revert n ref. induction h as [|a h IH]; intros [|n] [|ref]; simpl; intros H;
    try lia; auto. apply IH. lia.
Qed.


(** ** Well-formed recognizers

    The state object's two references point into the heap, at two different
    arrays. *)
Definition wf (r : t) : Prop :=
  match gestureState r with
  | Some o =>
      (StateObject.startTouches o < List.length (heap r))%nat /\
      (StateObject.currentTouches o < List.length (heap r))%nat /\
      StateObject.startTouches o <> StateObject.currentTouches o
  | None => True
  end.

Lemma wf_create cfg : wf (create cfg).
Proof. exact I. Qed.

Lemma wf_onTouchStart touch now r : wf r -> wf (onTouchStart touch now r).
Proof.
  unfold onTouchStart. intros H. destruct (isProcessing r); [exact H|].
  unfold wf. simpl. rewrite length_app. simpl. lia.
Qed.

Lemma wf_onTouchMove atan2 touch r res :
  wf r -> onTouchMove atan2 touch r = JS.Normal res -> wf (fst res).
Proof.
  unfold onTouchMove, wf. intros H.
  destruct (gestureState r) as [o|] eqn:Ho.
  - destruct (isProcessing r).
    + destruct (GestureRecognizer.moveState _ _ _); simpl; [|discriminate].
      intros [= <-]. simpl. now rewrite length_write.
    + intros [= <-]. simpl. now rewrite Ho.
  - intros [= <-]. simpl. now rewrite Ho.
Qed.

Lemma wf_onTouchEnd touch now now' r : wf r -> wf (fst (onTouchEnd touch now now' r)).
Proof.
  unfold onTouchEnd, wf. intros H.
  destruct (gestureState r) as [o|] eqn:Ho; [|simpl; now rewrite Ho].
  destruct (isProcessing r); [|simpl; now rewrite Ho].
  destruct (Nat.eqb _ 0); [destruct (GestureRecognizer.recognizeGesture _ _ _)|];
    simpl; rewrite length_app; simpl; lia.
Qed.

Lemma wf_step atan2 c r r' : wf r -> step atan2 c r = JS.Normal r' -> wf r'.
Proof.
  intros H. destruct c as [touch now|touch|touch now now'|cfg| |]; simpl.
  - intros [= <-]. now apply wf_onTouchStart.
  - destruct (onTouchMove atan2 touch r) as [res|] eqn:E; simpl; [|discriminate].
    intros [= <-]. eapply wf_onTouchMove; eassumption.
  - intros [= <-]. now apply wf_onTouchEnd.
  - intros [= <-]. exact H.
  - intros [= <-]. exact I.
  - intros [= <-]. exact I.
Qed.

Lemma wf_run atan2 cs : forall r r', wf r -> run atan2 cs r = JS.Normal r' -> wf r'.
Proof.
  induction cs as [|c cs IH]; simpl; intros r r' H.
  - intros [= <-]. exact H.
  - destruct (step atan2 c r) as [r1|] eqn:E; simpl; [|discriminate].
    apply IH. eapply wf_step; eassumption.
Qed.

(** ** The two models agree

    Each method of the object-level recognizer, seen through [view], is the
    method of the recognizer of the first model. *)

Lemma view_onTouchStart touch now r :
  wf r -> view (onTouchStart touch now r) = GestureRecognizer.onTouchStart touch now (view r).
Proof.
  intros _. unfold onTouchStart, GestureRecognizer.onTouchStart, view. simpl.
  destruct (isProcessing r) eqn:Hp; simpl; [now rewrite Hp|].
  unfold viewState. simpl.
  rewrite (read_app_new (heap r) [touch] [[touch]]).
  replace (heap r ++ [[touch]; [touch]]) with ((heap r ++ [[touch]]) ++ [[touch]])
    by (rewrite <- app_assoc; reflexivity).
  replace (S (List.length (heap r))) with (List.length (heap r ++ [[touch]]))
    by (rewrite length_app; simpl; lia).
  rewrite (read_app_new (heap r ++ [[touch]]) [touch] []).
  reflexivity.
Qed.

Lemma view_onTouchMove atan2 touch r :
  wf r ->
  (res <- onTouchMove atan2 touch r ;;
   JS.Normal (view (fst res), option_map (viewState (heap (fst res))) (snd res)))
  = GestureRecognizer.onTouchMove atan2 touch (view r).
Proof.
  unfold wf, onTouchMove, GestureRecognizer.onTouchMove, view. simpl. intros H.
  destruct (gestureState r) as [o|] eqn:Ho; simpl; [|now rewrite Ho].
  destruct (isProcessing r) eqn:Hp; simpl; [|now rewrite Ho, Hp].
  destruct H as (Hs & Hc & Hne).
  destruct (GestureRecognizer.moveState atan2 touch (viewState (heap r) o)) as [s'|] eqn:E;
    simpl; [|reflexivity].
  destruct (@GestureRecognizerClaims.moveState_start atan2 touch _ s' E) as [_ Hstart].
  assert (Hv : viewState (write (StateObject.currentTouches o)
                                (GestureState.currentTouches s') (heap r))
                         (assignFields s' o) = s').
  { unfold viewState, assignFields. simpl.
    rewrite read_write_same by exact Hc.
    rewrite read_write_other by congruence.
    simpl in Hstart. rewrite <- Hstart. now destruct s'. }
  now rewrite Hv.
Qed.

Lemma view_onTouchEnd touch now now' r :
  wf r ->
  (view (fst (onTouchEnd touch now now' r)),
   option_map (viewEvent (heap (fst (onTouchEnd touch now now' r))))
              (snd (onTouchEnd touch now now' r)))
  = GestureRecognizer.onTouchEnd touch now now' (view r).
Proof.
  unfold wf, onTouchEnd, GestureRecognizer.onTouchEnd, view. simpl. intros H.
  destruct (gestureState r) as [o|] eqn:Ho; simpl; [|now rewrite Ho].
  destruct (isProcessing r) eqn:Hp; simpl; [|now rewrite Ho, Hp].
  destruct H as (Hs & Hc & Hne).
  set (filtered := filter _ (read (heap r) (StateObject.currentTouches o))).
  assert (Hv : viewState (heap r ++ [filtered])
                 (StateObject.set_currentTouches (List.length (heap r)) o)
               = GestureState.set_currentTouches filtered (viewState (heap r) o)).
  { unfold viewState, GestureState.set_currentTouches. simpl.
    rewrite read_app_new. rewrite read_app by exact Hs. reflexivity. }
  rewrite read_app_new. rewrite Hv. simpl.
  destruct (Nat.eqb (List.length filtered) 0); simpl.
  - destruct (GestureRecognizer.recognizeGesture _ _ _); simpl.
    + unfold viewEvent. simpl. rewrite Hv.
      change (viewState (heap r ++ [filtered])
                (StateObject.set_flags false true
                   (StateObject.set_currentTouches (List.length (heap r)) o)))
        with (GestureState.set_flags false true
                (viewState (heap r ++ [filtered])
                   (StateObject.set_currentTouches (List.length (heap r)) o))).
      now rewrite Hv.
    + now rewrite Hv.
  - now rewrite Hv.
Qed.


Lemma view_step atan2 c r :
  wf r ->
  (r' <- step atan2 c r ;; JS.Normal (view r'))
  = (res <- GestureRecognizer.step atan2 c (view r) ;; JS.Normal (fst res)).
Proof.
  intros H. destruct c as [touch now|touch|touch now now'|cfg| |]; simpl.
  - now rewrite view_onTouchStart.
  - rewrite <- (@view_onTouchMove atan2 touch r H).
    now destruct (onTouchMove atan2 touch r).
  - now rewrite <- (@view_onTouchEnd touch now now' r H).
  - reflexivity.
  - reflexivity.
  - reflexivity.
Qed.

(** No sequence of calls raises: a run of the object-level recognizer ends in
    a well-formed recognizer that stands for a recognizer satisfying the
    invariant of the first model. *)
Lemma step_total atan2 c r :
  wf r -> GestureRecognizerFacts.inv (view r) ->
  exists r', step atan2 c r = JS.Normal r' /\ wf r' /\ GestureRecognizerFacts.inv (view r').
Proof.
  intros Hwf Hinv.
  destruct (@GestureRecognizerFacts.inv_step atan2 c (view r) Hinv) as (res & E & Hres).
  pose proof (@view_step atan2 c r Hwf) as Hsim. rewrite E in Hsim. simpl in Hsim.
  destruct (step atan2 c r) as [r'|] eqn:Es; simpl in Hsim; [|discriminate].
  exists r'. split; [reflexivity|]. split; [eapply wf_step; eassumption|].
  injection Hsim as ->. exact Hres.
Qed.

Lemma run_total atan2 cs : forall r,
  wf r -> GestureRecognizerFacts.inv (view r) ->
  exists r', run atan2 cs r = JS.Normal r' /\ wf r' /\ GestureRecognizerFacts.inv (view r').
Proof.
  induction cs as [|c cs IH]; intros r Hwf Hinv; simpl.
  - exists r. auto.
  - destruct (@step_total atan2 c r Hwf Hinv) as (r1 & E & Hwf1 & Hinv1).
    rewrite E. simpl. exact (IH r1 Hwf1 Hinv1).
Qed.

Lemma view_run atan2 cs : forall r,
  wf r ->
  (r' <- run atan2 cs r ;; JS.Normal (view r'))
  = (res <- GestureRecognizer.run atan2 cs (view r) ;; JS.Normal (fst res)).
Proof.
  induction cs as [|c cs IH]; intros r Hwf; simpl.
  - reflexivity.
  - pose proof (@view_step atan2 c r Hwf) as Hsim.
    destruct (step atan2 c r) as [r1|] eqn:Es; simpl in *.
    + destruct (GestureRecognizer.step atan2 c (view r)) as [res|]; simpl in *;
        [|discriminate].
      injection Hsim as Hsim. rewrite <- Hsim.
      rewrite (IH r1 (@wf_step atan2 c r r1 Hwf Es)).
      now destruct (GestureRecognizer.run atan2 cs (view r1)).
    + destruct (GestureRecognizer.step atan2 c (view r)); simpl in *;
        [discriminate | reflexivity].
Qed.

(** ** Arrays no method writes any more

    The recognizer writes one array only: the one its state's
    [currentTouches] refers to, and only while it is processing.  [livesAbove
    n r] says that this array is not among the first [n] of the heap. *)
Definition livesAbove (n : nat) (r : t) : Prop :=
  (n <= List.length (heap r))%nat /\
  (isProcessing r = true ->
   match gestureState r with
   | Some o => (n <= StateObject.currentTouches o)%nat
   | None => True
   end).

Lemma step_keeps_arrays atan2 c r r' n :
  livesAbove n r -> step atan2 c r = JS.Normal r' ->
  livesAbove n r' /\ firstn n (heap r') = firstn n (heap r).
Proof.
  unfold livesAbove. intros [Hn Hlive].
  destruct c as [touch now|touch|touch now now'|cfg| |]; simpl.
  - intros [= <-]. unfold onTouchStart.
    destruct (isProcessing r) eqn:Hp; [rewrite Hp; auto|]. simpl.
    rewrite length_app. rewrite firstn_app_heap by exact Hn. simpl. repeat split; lia.
  - unfold onTouchMove.
    destruct (gestureState r) as [o|] eqn:Ho.
    + destruct (isProcessing r) eqn:Hp.
      * destruct (GestureRecognizer.moveState _ _ _); simpl; [|discriminate].
        intros [= <-]. simpl. specialize (Hlive eq_refl).
        rewrite length_write. rewrite firstn_write by exact Hlive. auto.
      * simpl. intros [= <-]. rewrite Ho, Hp. auto.
    + simpl. intros [= <-]. rewrite Ho. auto.
  - intros [= <-]. unfold onTouchEnd.
    destruct (gestureState r) as [o|] eqn:Ho; [|simpl; rewrite Ho; auto].
    destruct (isProcessing r) eqn:Hp; [|simpl; rewrite Ho, Hp; auto].
    destruct (Nat.eqb _ 0); [destruct (GestureRecognizer.recognizeGesture _ _ _)|];
      simpl; rewrite length_app; rewrite firstn_app_heap by exact Hn; simpl;
      repeat split; try discriminate; intros; lia.
  - intros [= <-]. simpl. auto.
  - intros [= <-]. simpl. split; [split; [exact Hn | discriminate] | reflexivity].
  - intros [= <-]. simpl. split; [split; [exact Hn | discriminate] | reflexivity].
Qed.

Lemma run_keeps_arrays atan2 cs n : forall r r',
  livesAbove n r -> run atan2 cs r = JS.Normal r' ->
  livesAbove n r' /\ firstn n (heap r') = firstn n (heap r).
Proof.
  induction cs as [|c cs IH]; simpl; intros r r' H.
  - intros [= <-]. auto.
  - destruct (step atan2 c r) as [r1|] eqn:E; simpl; [|discriminate].
    intros Hrun. destruct (@step_keeps_arrays atan2 c r r1 n H E) as [H1 Hpre].
    destruct (IH _ _ H1 Hrun) as [H2 Hpre']. split; [exact H2 | congruence].
Qed.

(** X6.  An event returned by [onTouchEnd] is not a live reference.  After any
    calls [before], let [onTouchEnd] return an event [e]; whatever calls
    follow, they end without an exception and the event reads as it did when
    it was returned: the number and flag fields of its state are a copy, and
    the two arrays its state refers to are never written again. *)
Lemma event_unchanged_by_later_calls (atan2 : float -> float -> float)
      (cfg : GestureConfig.t) (before after : list GestureRecognizer.call)
      (touch : TouchPoint.t) (now now' : float) :
  exists r0,
    run atan2 before (create cfg) = JS.Normal r0 /\
    match onTouchEnd touch now now' r0 with
    | (r1, Some e) =>
        Some (viewEvent (heap r1) e)
          = snd (GestureRecognizer.onTouchEnd touch now now' (view r0)) /\
        exists r2,
          run atan2 after r1 = JS.Normal r2 /\
          viewEvent (heap r2) e = viewEvent (heap r1) e
    | (_, None) => True
    end.
Proof.
  destruct (@run_total atan2 before (create cfg) (wf_create cfg)
              (GestureRecognizerFacts.inv_create cfg)) as (r0 & E0 & Hwf0 & Hinv0).
  exists r0. split; [exact E0|].
  pose proof (@view_onTouchEnd touch now now' r0 Hwf0) as Hsim.
  pose proof (@wf_onTouchEnd touch now now' r0 Hwf0) as Hwf1.
  pose proof (@GestureRecognizerFacts.inv_onTouchEnd touch now now' (view r0) Hinv0) as Hinv1.
  rewrite <- Hsim in Hinv1. simpl in Hinv1.
  assert (Hrefs : match onTouchEnd touch now now' r0 with
                  | (r1, Some e) =>
                      isProcessing r1 = false /\
                      (StateObject.startTouches (EventObject.state e)
                         < List.length (heap r1))%nat /\
                      (StateObject.currentTouches (EventObject.state e)
                         < List.length (heap r1))%nat
                  | (_, None) => True
                  end).
  { unfold onTouchEnd. unfold wf in Hwf0.
    destruct (gestureState r0) as [o|]; [|exact I].
    destruct (isProcessing r0); [|exact I].
    destruct (Nat.eqb _ 0); [|exact I].
    destruct (GestureRecognizer.recognizeGesture _ _ _); [|exact I].
    simpl. rewrite length_app. simpl. repeat split; lia. }
  destruct (onTouchEnd touch now now' r0) as [r1 [e|]]; [|exact I].
  simpl in *. destruct Hrefs as (Hp1 & Hs & Hc).
  split; [now rewrite <- Hsim|].
  destruct (@run_total atan2 after r1 Hwf1 Hinv1) as (r2 & E2 & _ & _).
  exists r2. split; [exact E2|].
  assert (Hlive : livesAbove (List.length (heap r1)) r1).
  { split; [lia|]. rewrite Hp1. discriminate. }
  destruct (@run_keeps_arrays atan2 after _ r1 r2 Hlive E2) as [_ Hpre].
  unfold viewEvent, viewState. simpl.
  rewrite <- (@read_firstn _ (heap r2) _ Hs), <- (@read_firstn _ (heap r2) _ Hc), Hpre.
  rewrite (@read_firstn _ (heap r1) _ Hs), (@read_firstn _ (heap r1) _ Hc).
  reflexivity.
Qed.

(** By contrast, the state [onTouchMove] returns is the recognizer's own
    state object: the next [onTouchMove] writes the array its
    [currentTouches] refers to. *)
Example onTouchMove_state_is_live (atan2 : float -> float -> float) :
  let touch x := GestureRecognizerClaims.touchAt x 100 0 1 in
  let r0 := onTouchStart (touch 100%float) 0 (create defaultGestureConfig) in
  exists r1 o r2,
    onTouchMove atan2 (touch 110%float) r0 = JS.Normal (r1, Some o) /\
    step atan2 (GestureRecognizer.TouchMove (touch 120%float)) r1 = JS.Normal r2 /\
    map TouchPoint.x (read (heap r1) (StateObject.currentTouches o)) = [110%float] /\
    map TouchPoint.x (read (heap r2) (StateObject.currentTouches o)) = [120%float].
Proof.
  do 3 eexists. split; [vm_compute; reflexivity|].
  split; [vm_compute; reflexivity|]. split; reflexivity.
Qed.

End RecognizerObjectsFacts.

(* ================================================================== *)
(** * C8: the direction of a gesture *)
(* ================================================================== *)

Module DirectionClaims.

Import TouchUtils.

Definition isHorizontal (d : Direction) : bool :=
  match d with
  | right | left => true
  | down | up => false
  end.

(** The direction a swipe type stands for. *)
Definition swipeDirection (g : GestureType) : option Direction :=
  match g with
  | SWIPE_RIGHT => Some right
  | SWIPE_LEFT => Some left
  | SWIPE_DOWN => Some down
  | SWIPE_UP => Some up
  | _ => None
  end.

(** C8.  For every pair (dx, dy), [calculateGestureDirection] answers
    horizontally exactly when |dx| > |dy| holds strictly, then right if
    dx > 0 and left otherwise; in every other case, a tie |dx| == |dy|
    included, it answers vertically, down if dy > 0 and up otherwise.  The
    recognizer's [recognizeSwipeDirection] chooses the swipe type of the same
    direction from the state's deltas. *)
Theorem direction_horizontal_only_when_strictly_dominant :
  forall dx dy : float,
    let d := calculateGestureDirection dx dy in
    isHorizontal d = JS.gt (PrimFloat.abs dx) (PrimFloat.abs dy) /\
    d = (if JS.gt (PrimFloat.abs dx) (PrimFloat.abs dy)
         then (if JS.gt dx 0 then right else left)
         else (if JS.gt dy 0 then down else up)) /\
    PrimFloat.eqb (PrimFloat.abs dx) (PrimFloat.abs dy) && isHorizontal d = false /\
    forall s : GestureState.t,
      swipeDirection
        (GestureRecognizer.recognizeSwipeDirection (GestureState.set_delta dx dy s))
      = Some d.
Proof.
  intros dx dy. unfold calculateGestureDirection, GestureRecognizer.recognizeSwipeDirection.
  simpl.
  assert (Htie : PrimFloat.eqb (PrimFloat.abs dx) (PrimFloat.abs dy) = true ->
                 JS.gt (PrimFloat.abs dx) (PrimFloat.abs dy) = false)
    by apply FloatFacts.eqb_not_ltb.
  destruct (JS.gt (PrimFloat.abs dx) (PrimFloat.abs dy)) eqn:Habs.
  - destruct (PrimFloat.eqb _ _); [specialize (Htie eq_refl); discriminate|].
    destruct (JS.gt dx 0); repeat split.
  - destruct (JS.gt dy 0); repeat split; apply andb_false_r.
Qed.

(** Ties at work: equal magnitudes go to the vertical axis, whatever the
    signs. *)
Example direction_ties :
  calculateGestureDirection 5 5 = down /\
  calculateGestureDirection 5 (-5) = up /\
  calculateGestureDirection (-5) 5 = down /\
  calculateGestureDirection (-5) (-5) = up /\
  calculateGestureDirection 0 0 = up /\
  calculateGestureDirection 6 5 = right /\
  calculateGestureDirection (-6) 5 = left.
Proof. repeat split; vm_compute; reflexivity. Qed.

End DirectionClaims.

(* ================================================================== *)
(** * C9: the aggregate snapshot of the performance monitor *)
(* ================================================================== *)

Module PerformanceMonitorClaims.

Import PerformanceMonitor.

(** C9.  The aggregate snapshot sums [count] and [successCount] over the
    per-gesture-type counters; with a total greater than zero its error rate
    is (total - successes) / total and its success rate successes / total;
    with a total of 0 the error rate is 0 and the success rate 1. *)
Theorem getMetrics_rates :
  forall pm : t,
    let total := sumOver GestureMetrics.count pm in
    let successes := sumOver GestureMetrics.successCount pm in
    (JS.gt total 0 = true ->
     PerformanceMetrics.errorRate (getMetrics pm) = ((total - successes) / total)%float /\
     PerformanceMetrics.successRate (getMetrics pm) = (successes / total)%float) /\
    (PrimFloat.eqb total 0 = true ->
     PerformanceMetrics.errorRate (getMetrics pm) = 0%float /\
     PerformanceMetrics.successRate (getMetrics pm) = 1%float).
Proof.
  intros pm total successes. unfold getMetrics, totalGestures, successfulGestures.
  fold total. fold successes. simpl. split.
  - intros ->. split; reflexivity.
  - intros H. apply FloatFacts.eqb_not_ltb in H. unfold JS.gt. rewrite H.
    split; reflexivity.
Qed.

(** Three successful taps and one failed pan: a total of 4, an error rate of
    a quarter. *)
Definition sampleMonitor : t :=
  recordGesture PAN false None
    (recordGesture TAP true (Some 12%float)
       (recordGesture TAP true None
          (recordGesture TAP true (Some 8%float) create))).

Lemma getMetrics_rates_witness :
  (PerformanceMetrics.errorRate (getMetrics sampleMonitor) = 0.25%float /\
   PerformanceMetrics.successRate (getMetrics sampleMonitor) = 0.75%float) /\
  (PerformanceMetrics.errorRate (getMetrics create) = 0%float /\
   PerformanceMetrics.successRate (getMetrics create) = 1%float).
Proof.
  split.
  - destruct (getMetrics_rates sampleMonitor) as [Hpos _].
    destruct (Hpos eq_refl) as [He Hs].
    rewrite He, Hs. split; vm_compute; reflexivity.
  - destruct (getMetrics_rates create) as [_ Hzero].
    exact (Hzero eq_refl).
Defined.

End PerformanceMonitorClaims.

(* ================================================================== *)
(** * Claims about the performance optimizer *)
(* ================================================================== *)

Module PerformanceOptimizerClaims.

Import PerformanceOptimizer.

(** ** The object pool (C6) *)

Section Pool.

Variable Data : Type.

Lemma create_config (cfg : OptimizationConfig.t) : config (create Data cfg) = cfg.
Proof.
  unfold create, initializeMemoryPool. simpl.
  destruct (OptimizationConfig.enableMemoryPooling cfg); reflexivity.
Qed.

Lemma create_pool_length (cfg : OptimizationConfig.t) :
  (0 <= OptimizationConfig.memoryPoolSize cfg)%Z ->
  (Z.of_nat (List.length (memoryPool (create Data cfg)))
   <= OptimizationConfig.memoryPoolSize cfg)%Z.
Proof.
  intros H. unfold create, initializeMemoryPool. simpl.
  destruct (OptimizationConfig.enableMemoryPooling cfg); simpl; [|exact H].
  rewrite repeat_length. lia.
Qed.

Lemma getPooledObject_config (o : t Data) : config (snd (getPooledObject o)) = config o.
Proof.
  unfold getPooledObject.
  destruct (_ && _); [destruct (rev (memoryPool o))|]; reflexivity.
Qed.

Lemma getPooledObject_length (o : t Data) :
  (List.length (memoryPool (snd (getPooledObject o))) <= List.length (memoryPool o))%nat.
Proof.
  unfold getPooledObject.
  destruct (_ && _); [|simpl; lia].
  destruct (rev (memoryPool o)) as [|obj rest] eqn:Hrev; simpl; [lia|].
  rewrite length_rev. rewrite <- (length_rev (memoryPool o)), Hrev. simpl. lia.
Qed.

(** The condition on the callers' [reset] methods under which the size
    bound holds: a call leaves the configured capacity as it is and leaves
    the pool no larger than it found it.  The method may still write to the
    object, take objects from the pool, switch pooling off, change the cache,
    or throw. *)
Definition resetsKeepPool
           (callerReset : nat -> PooledObject.t -> t Data -> ResetRun Data) : Prop :=
  forall (code : nat) (obj : PooledObject.t) (o : t Data),
    OptimizationConfig.memoryPoolSize (config (optimizer (callerReset code obj o)))
    = OptimizationConfig.memoryPoolSize (config o) /\
    (List.length (memoryPool (optimizer (callerReset code obj o)))
     <= List.length (memoryPool o))%nat.

Variable callerReset : nat -> PooledObject.t -> t Data -> ResetRun Data.

Lemma returnPooledObject_full obj (o : t Data) :
  (OptimizationConfig.memoryPoolSize (config o)
   <= Z.of_nat (List.length (memoryPool o)))%Z
  \/ OptimizationConfig.enableMemoryPooling (config o) = false ->
  returnPooledObject callerReset obj o = (ResetReturned, o).
Proof.
  intros [Hfull | Hoff]; unfold returnPooledObject.
  - apply Z.ltb_ge in Hfull. rewrite Hfull, andb_false_r. reflexivity.
  - rewrite Hoff. reflexivity.
Qed.

Lemma returnPooledObject_under obj (o : t Data) :
  (Z.of_nat (List.length (memoryPool o))
   < OptimizationConfig.memoryPoolSize (config o))%Z ->
  OptimizationConfig.enableMemoryPooling (config o) = true ->
  returnPooledObject callerReset obj o
  = let run := callReset callerReset obj o in
    match outcome run with
    | ResetReturned =>
        (ResetReturned,
         set_memoryPool (memoryPool (optimizer run) ++ [object run]) (optimizer run))
    | ResetThrew error => (ResetThrew error, optimizer run)
    end.
Proof.
  intros Hunder Hon. unfold returnPooledObject.
  apply Z.ltb_lt in Hunder. rewrite Hunder, Hon. reflexivity.
Qed.

Hypothesis callerReset_keeps : resetsKeepPool callerReset.

Lemma callReset_keeps obj (o : t Data) :
  OptimizationConfig.memoryPoolSize (config (optimizer (callReset callerReset obj o)))
  = OptimizationConfig.memoryPoolSize (config o) /\
  (List.length (memoryPool (optimizer (callReset callerReset obj o)))
   <= List.length (memoryPool o))%nat.
Proof.
  unfold callReset. destruct (PooledObject.reset obj) as [[|code]|]; simpl.
  - split; [reflexivity | lia].
  - apply callerReset_keeps.
  - split; [reflexivity | lia].
Qed.

Lemma returnPooledObject_capacity obj (o : t Data) :
  OptimizationConfig.memoryPoolSize (config (snd (returnPooledObject callerReset obj o)))
  = OptimizationConfig.memoryPoolSize (config o).
Proof.
  unfold returnPooledObject. destruct (_ && _); [|reflexivity].
  destruct (callReset_keeps obj o) as [Hc _]. cbv zeta.
  destruct (outcome (callReset callerReset obj o)); simpl; exact Hc.
Qed.

Lemma returnPooledObject_length obj (o : t Data) :
  (Z.of_nat (List.length (memoryPool o)) <= OptimizationConfig.memoryPoolSize (config o))%Z ->
  (Z.of_nat (List.length (memoryPool (snd (returnPooledObject callerReset obj o))))
   <= OptimizationConfig.memoryPoolSize (config o))%Z.
Proof.
  unfold returnPooledObject. intros H.
  destruct (OptimizationConfig.enableMemoryPooling (config o)); simpl; [|exact H].
  destruct (Z.ltb_spec (Z.of_nat (List.length (memoryPool o)))
                       (OptimizationConfig.memoryPoolSize (config o))); simpl; [|exact H].
  destruct (callReset_keeps obj o) as [_ Hl].
  destruct (outcome (callReset callerReset obj o)); simpl.
  - rewrite length_app. simpl. lia.
  - lia.
Qed.

(** The size bound is an invariant of every pool call. *)
Lemma poolRun_bounded (cs : list poolCall) : forall o : t Data,
  (Z.of_nat (List.length (memoryPool o)) <= OptimizationConfig.memoryPoolSize (config o))%Z ->
  OptimizationConfig.memoryPoolSize (config (poolRun callerReset cs o))
  = OptimizationConfig.memoryPoolSize (config o) /\
  (Z.of_nat (List.length (memoryPool (poolRun callerReset cs o)))
   <= OptimizationConfig.memoryPoolSize (config o))%Z.
Proof.
  induction cs as [|c cs IH]; intros o H; simpl; [tauto|].
  assert (Hc : OptimizationConfig.memoryPoolSize (config (poolStep callerReset c o))
               = OptimizationConfig.memoryPoolSize (config o)).
  { destruct c; simpl.
    - now rewrite getPooledObject_config.
    - apply returnPooledObject_capacity. }
  assert (Hl : (Z.of_nat (List.length (memoryPool (poolStep callerReset c o)))
                <= OptimizationConfig.memoryPoolSize (config o))%Z).
  { destruct c; simpl.
    - pose proof (getPooledObject_length o). lia.
    - now apply returnPooledObject_length. }
  rewrite <- Hc in Hl. destruct (IH _ Hl) as [IHc IHl].
  unfold poolRun in *. rewrite IHc, Hc. rewrite Hc in IHl. tauto.
Qed.

End Pool.

(** An object that did not come from the pool: it has no [reset] method. *)
Definition foreignObject : PooledObject.t :=
  PooledObject.make (PooledFields.make 1 2 3 4 5) None.

(** An object of a caller's with a [reset] method of its own. *)
Definition callerObject (code : nat) : PooledObject.t :=
  PooledObject.make (PooledFields.make 1 2 3 4 5) (Some (PooledObject.CallerReset code)).

Definition pooling (enabled : bool) (capacity : Z) : OptimizationConfig.t :=
  OptimizationConfig.make true enabled true true 1000 capacity 10 0.8.

(** Reset methods of a caller: method 0 writes to its object, method 1
    throws, and every other method takes an object from the pool. *)
Definition sampleResets (code : nat) (obj : PooledObject.t) (o : t nat) : ResetRun nat :=
  match code with
  | 0%nat =>
      mkResetRun ResetReturned
                 (PooledObject.make (PooledFields.make 9 9 9 9 9) (PooledObject.reset obj)) o
  | 1%nat => mkResetRun (ResetThrew "reset failed") obj o
  | _ => mkResetRun ResetReturned obj (snd (getPooledObject o))
  end.

(** A [reset] method that hands an object of the pool's back while it runs. *)
Definition releasesAnother (code : nat) (obj : PooledObject.t) (o : t nat) : ResetRun nat :=
  mkResetRun ResetReturned obj (snd (returnPooledObject sampleResets createPooledObject o)).

(** C6 (counterexample).  A release while under capacity does not always
    reset and push: with pooling disabled nothing is pushed, and an object
    without a [reset] method is pushed with its fields as they are. *)
Lemma release_under_capacity_not_always_reset_and_pushed :
  let disabled := create nat (pooling false 2) in
  let oneLeft := snd (getPooledObject (create nat (pooling true 2))) in
  (memoryPool disabled = [] /\
   memoryPool (snd (returnPooledObject sampleResets createPooledObject disabled)) = []) /\
  (memoryPool oneLeft = [createPooledObject] /\
   memoryPool (snd (returnPooledObject sampleResets foreignObject oneLeft))
   = [createPooledObject; foreignObject] /\
   PooledObject.fields foreignObject <> PooledFields.zero).
Proof.
  repeat split. simpl. intros H. apply (f_equal PooledFields.x) in H.
  vm_compute in H. apply (f_equal Prim2SF) in H. vm_compute in H. discriminate.
Qed.

(** The capacity is tested before [obj.reset()] runs and the push follows it
    unconditionally: when the method itself releases an object, the pool ends
    above its capacity.  Here the capacity is 1, the pool is empty, and the
    released object's [reset] hands the pool's own object back. *)
Lemma reentrant_reset_exceeds_capacity :
  let emptied := snd (getPooledObject (create nat (pooling true 1))) in
  memoryPool emptied = [] /\
  returnPooledObject releasesAnother (callerObject 0) emptied
  = (ResetReturned,
     make (pooling true 1) (gestureCache emptied) [createPooledObject; callerObject 0]).
Proof. split; reflexivity. Qed.

(** C6 (amended).  The pool capacity is a whole number, at least 0, and the
    [reset] methods of the callers' objects never add objects to the pool or
    change the capacity: then the pool of a new optimizer never holds more
    objects than the capacity, whatever [getPooledObject] and
    [returnPooledObject] calls are made.
    Whatever the [reset] methods do: a release while the pool is at capacity,
    or while pooling is disabled, leaves the optimizer as it is and calls no
    [reset]; a release while under capacity with pooling enabled, of an
    object the pool does not hold already, calls the object's [reset] if it
    has one and then pushes the object, on the pool as the [reset] left it,
    unless the [reset] throws, in which case the exception leaves
    [returnPooledObject] and nothing is pushed.  The [reset]
    of an object created by the pool zeroes its five fields and touches
    nothing else; an object without [reset] is pushed as it is. *)
Theorem pool_never_exceeds_capacity :
  forall (Data : Type) (callerReset : nat -> PooledObject.t -> t Data -> ResetRun Data)
         (cfg : OptimizationConfig.t) (cs : list poolCall),
    (0 <= OptimizationConfig.memoryPoolSize cfg)%Z ->
    (resetsKeepPool callerReset ->
     (Z.of_nat (List.length (memoryPool (poolRun callerReset cs (create Data cfg))))
      <= OptimizationConfig.memoryPoolSize cfg)%Z) /\
    (forall (o : t Data) (obj : PooledObject.t),
       (OptimizationConfig.memoryPoolSize (config o)
        <= Z.of_nat (List.length (memoryPool o)))%Z
       \/ OptimizationConfig.enableMemoryPooling (config o) = false ->
       returnPooledObject callerReset obj o = (ResetReturned, o)) /\
    (forall (o : t Data) (fields : PooledFields.t) (code : nat),
       (Z.of_nat (List.length (memoryPool o))
        < OptimizationConfig.memoryPoolSize (config o))%Z ->
       OptimizationConfig.enableMemoryPooling (config o) = true ->
       let obj := PooledObject.make fields (Some (PooledObject.CallerReset code)) in
       let run := callerReset code obj o in
       returnPooledObject callerReset obj o
       = match outcome run with
         | ResetReturned =>
             (ResetReturned,
              set_memoryPool (memoryPool (optimizer run) ++ [object run]) (optimizer run))
         | ResetThrew error => (ResetThrew error, optimizer run)
         end) /\
    (forall (o : t Data) (fields : PooledFields.t),
       (Z.of_nat (List.length (memoryPool o))
        < OptimizationConfig.memoryPoolSize (config o))%Z ->
       OptimizationConfig.enableMemoryPooling (config o) = true ->
       returnPooledObject callerReset
                          (PooledObject.make fields (PooledObject.reset createPooledObject)) o
       = (ResetReturned,
          set_memoryPool
            (memoryPool o
             ++ [PooledObject.make PooledFields.zero (PooledObject.reset createPooledObject)])
            o)) /\
    (forall (o : t Data) (fields : PooledFields.t),
       (Z.of_nat (List.length (memoryPool o))
        < OptimizationConfig.memoryPoolSize (config o))%Z ->
       OptimizationConfig.enableMemoryPooling (config o) = true ->
       returnPooledObject callerReset (PooledObject.make fields None) o
       = (ResetReturned,
          set_memoryPool (memoryPool o ++ [PooledObject.make fields None]) o)).
Proof.
  intros Data callerReset cfg cs Hcap. split; [|split; [|split; [|split]]].
  - intros Hkeeps.
    pose proof (create_pool_length Data cfg Hcap) as H0.
    rewrite <- (create_config Data cfg) in H0 at 2.
    destruct (poolRun_bounded Hkeeps cs _ H0) as [_ H].
    now rewrite create_config in H.
  - intros o obj H. now apply returnPooledObject_full.
  - intros o fields code Hunder Hon obj run.
    now rewrite (returnPooledObject_under callerReset obj o Hunder Hon).
  - intros o fields Hunder Hon.
    now rewrite (returnPooledObject_under callerReset _ o Hunder Hon).
  - intros o fields Hunder Hon.
    now rewrite (returnPooledObject_under callerReset _ o Hunder Hon).
Qed.

Lemma pool_never_exceeds_capacity_witness :
  (Z.of_nat (List.length
               (memoryPool
                  (poolRun sampleResets
                           [Get; Get; Return foreignObject; Return (callerObject 2);
                            Return (callerObject 1); Return (callerObject 0);
                            Return createPooledObject; Return createPooledObject; Get]
                           (create nat (pooling true 2)))))
   <= 2)%Z.
Proof.
  apply (proj1 (pool_never_exceeds_capacity sampleResets (pooling true 2)
                  [Get; Get; Return foreignObject; Return (callerObject 2);
                   Return (callerObject 1); Return (callerObject 0);
                   Return createPooledObject; Return createPooledObject; Get]
                  ltac:(simpl; lia))).
  intros code obj o. destruct code as [|[|code]]; simpl.
  - split; [reflexivity | lia].
  - split; [reflexivity | lia].
  - split; [now rewrite getPooledObject_config | apply getPooledObject_length].
Defined.

(** ** The result cache (C5) *)

Section Cache.

Variable Data : Type.

Abbreviation entry := (string * CacheEntry Data)%type.

Definition stamp (e : entry) : float := timestamp (snd e).

(** The scan returns an entry that no scanned entry is strictly older than. *)
Lemma scanOldest_minimal (rest : list entry) : forall (seen : list entry) (a : entry),
  (forall e, In e seen -> JS.lt (stamp e) (stamp a) = false) ->
  exists r,
    scanOldest rest (Some a) = Some r /\
    (r = a \/ In r rest) /\
    JS.lt (stamp r) (stamp r) = false /\
    forall e, In e (seen ++ rest) -> JS.lt (stamp e) (stamp r) = false.
Proof.
  induction rest as [|[k y] rest IH]; intros seen [ka a] Hseen; simpl.
  - exists (ka, a). rewrite app_nil_r.
    repeat split; auto. apply FloatFacts.ltb_irrefl.
  - destruct (JS.lt (timestamp y) (timestamp a)) eqn:Hlt.
    + destruct (IH (seen ++ [(k, y)]) (k, y)) as (r & E & Hin & Hirr & Hmin).
      { intros e He. apply in_app_or in He. destruct He as [He | [<- | []]].
        - destruct (JS.lt (stamp e) (stamp (k, y))) eqn:Hey; [|reflexivity].
          rewrite <- (Hseen e He). symmetry.
          exact (FloatFacts.ltb_trans Hey Hlt).
        - apply FloatFacts.ltb_irrefl. }
      exists r. rewrite <- app_assoc in Hmin. simpl in Hmin.
      repeat split; auto. destruct Hin as [-> | Hin]; auto.
    + destruct (IH (seen ++ [(k, y)]) (ka, a)) as (r & E & Hin & Hirr & Hmin).
      { intros e He. apply in_app_or in He. destruct He as [He | [<- | []]]; auto. }
      exists r. rewrite <- app_assoc in Hmin. simpl in Hmin.
      repeat split; auto. destruct Hin as [-> | Hin]; auto.
Qed.

Lemma scanOldest_nonempty (m : list entry) :
  m <> [] ->
  exists r,
    scanOldest m None = Some r /\ In r m /\
    forall e, In e m -> JS.lt (stamp e) (stamp r) = false.
Proof.
  destruct m as [|[k a] rest]; [congruence|]. intros _. simpl.
  destruct (scanOldest_minimal rest [(k, a)] (k, a)) as (r & E & Hin & _ & Hmin).
  { intros e [<- | []]. apply FloatFacts.ltb_irrefl. }
  exists r. repeat split; auto. destruct Hin as [-> | Hin]; auto.
Qed.



(** Deleting the key of an entry of a map removes that entry and no other. *)
Lemma delete_entry (m : list entry) (e : entry) :
  NoDup (JSMap.keys m) -> In e m ->
  exists older newer,
    m = older ++ e :: newer /\ JSMap.delete String.eqb (fst e) m = older ++ newer.
Proof.
  intros Hnd Hin. destruct (in_split _ _ Hin) as (older & newer & ->).
  exists older, newer. split; [reflexivity|].
  unfold JSMap.keys in Hnd. rewrite map_app in Hnd. simpl in Hnd.
  pose proof (NoDup_remove_2 _ _ _ Hnd) as Hnot.
  assert (Hkeep : forall l : list entry,
             ~ In (fst e) (map fst l) ->
             filter (fun e' => negb (String.eqb (fst e') (fst e))) l = l).
  { induction l as [|x l IHl]; simpl; intros Hx; [reflexivity|].
    destruct (String.eqb_spec (fst x) (fst e)) as [E|E]; [tauto|].
    simpl. rewrite IHl; tauto. }
  unfold JSMap.delete. rewrite filter_app. simpl.
  rewrite String.eqb_refl. simpl.
  rewrite !Hkeep; [reflexivity| |]; intros H; apply Hnot, in_or_app; tauto.
Qed.

(** [set] on a key that is not in the map appends the entry. *)
Lemma set_new_key (m : list entry) (k : string) (v : CacheEntry Data) :
  ~ In k (JSMap.keys m) -> JSMap.set String.eqb k v m = m ++ [(k, v)].
Proof.
  induction m as [|[k' v'] m IH]; simpl; intros H; [reflexivity|].
  destruct (String.eqb_spec k' k) as [E|E]; [tauto|].
  rewrite IH; tauto.
Qed.

(** [set] on a key that is in the map leaves the keys as they are. *)
Lemma set_present_key (m : list entry) (k : string) (v : CacheEntry Data) :
  In k (JSMap.keys m) -> JSMap.keys (JSMap.set String.eqb k v m) = JSMap.keys m.
Proof.
  induction m as [|[k' v'] m IH]; simpl; intros H; [tauto|].
  destruct (String.eqb_spec k' k) as [E|E]; [reflexivity|].
  simpl. f_equal. apply IH. tauto.
Qed.

(** The optimizer keeps the keys of its cache pairwise different, as a [Map]
    does. *)
Lemma set_keys_NoDup (m : list entry) (k : string) (v : CacheEntry Data) :
  NoDup (JSMap.keys m) -> NoDup (JSMap.keys (JSMap.set String.eqb k v m)).
Proof.
  intros H. destruct (in_dec string_dec k (JSMap.keys m)) as [Hin|Hout].
  - now rewrite set_present_key.
  - rewrite set_new_key by assumption. unfold JSMap.keys in *. rewrite map_app. simpl.
    apply NoDup_app; [exact H | constructor; [simpl; tauto | constructor] |].
    intros a Ha [<-|[]]. contradiction.
Qed.

Lemma delete_keys_NoDup (m : list entry) (k : string) :
  NoDup (JSMap.keys m) -> NoDup (JSMap.keys (JSMap.delete String.eqb k m)).
Proof.
  unfold JSMap.keys, JSMap.delete. induction m as [|a m IH]; simpl; intros H.
  - constructor.
  - inversion H as [|? ? Hnotin Hnd]; subst.
    destruct (negb (String.eqb (fst a) k)); simpl; [constructor|]; auto.
    intros HIn. apply Hnotin.
    apply in_map_iff in HIn. destruct HIn as [b [Hb HIn]].
    apply filter_In in HIn. apply in_map_iff. exists b. tauto.
Qed.

Lemma cacheGestureResult_keys_NoDup (o : t Data) k result now :
  NoDup (JSMap.keys (gestureCache o)) ->
  NoDup (JSMap.keys (gestureCache (cacheGestureResult k result now o))).
Proof.
  intros H. unfold cacheGestureResult.
  destruct (negb (OptimizationConfig.enableGestureCaching (config o))); [exact H|].
  simpl. apply set_keys_NoDup.
  destruct (_ <=? _)%Z; [|exact H].
  unfold evictOldestCacheEntry.
  destruct (scanOldest (gestureCache o) None) as [[oldestKey oldestEntry]|]; [|exact H].
  destruct (truthyString oldestKey); [|exact H].
  simpl. now apply delete_keys_NoDup.
Qed.

Lemma getCachedGestureResult_keys_NoDup (o : t Data) k :
  NoDup (JSMap.keys (gestureCache o)) ->
  NoDup (JSMap.keys (gestureCache (snd (getCachedGestureResult k o)))).
Proof.
  intros H. unfold getCachedGestureResult.
  destruct (negb (OptimizationConfig.enableGestureCaching (config o))); [exact H|].
  destruct (JSMap.get String.eqb k (gestureCache o)); [|exact H].
  simpl. now apply set_keys_NoDup.
Qed.

End Cache.






End PerformanceOptimizerClaims.

(* ================================================================== *)
(** * Claims about the touch control manager (C7) *)
(* ================================================================== *)

Module TouchControlManagerClaims.

Import TouchControlManager.

(** The listeners registered for a gesture type, in registration order. *)
Definition registered (gestureType : GestureType) (m : t) : list Listener :=
  match JSMap.get GestureType_eqb gestureType (gestureCallbacks m) with
  | Some ref => array ref m
  | None => []
  end.

(** Everything of the manager but its console. *)
Definition frame (m : t) :=
  (isEnabled m, activeTouches m, touchTargets m, gestureCallbacks m,
   customFeedbackCallbacks m, arrays m, hapticEnabled m, feedbackIntensity m,
   gestureRecognizer m, performanceMonitor m).

(** [m'] is [m] with lines added to the console, each an error report built
    by [onError]. *)
Definition logged (onError : string -> ConsoleLine) (m m' : t) : Prop :=
  frame m' = frame m /\
  exists lines,
    console m' = console m ++ lines /\
    Forall (fun line => exists error, line = onError error) lines.

Lemma logged_refl onError m : logged onError m m.
Proof.
  split; [reflexivity|]. exists []. split; [now rewrite app_nil_r | constructor].
Qed.

Lemma logged_trans onError m1 m2 m3 :
  logged onError m1 m2 -> logged onError m2 m3 -> logged onError m1 m3.
Proof.
  intros [F12 (l12 & C12 & H12)] [F23 (l23 & C23 & H23)].
  split; [congruence|]. exists (l12 ++ l23).
  split; [rewrite C23, C12; now rewrite app_assoc | now apply Forall_app].
Qed.

Lemma frame_array ref m m' : frame m' = frame m -> array ref m' = array ref m.
Proof. unfold frame, array. intros [= _ _ _ _ _ -> _ _ _ _]. reflexivity. Qed.

Lemma skipn_nth_error {A} (l : list A) : forall (k : nat) (a : A),
  nth_error l k = Some a -> skipn k l = a :: skipn (S k) l.
Proof.
  induction l as [|b l IH]; intros [|k] a H; simpl in *; try discriminate.
  - now injection H as ->.
  - exact (IH k a H).
Qed.

(** The [catch] adds a console line and nothing else: after the loop body the
    manager is as the listener left it, whether the listener returned or
    threw. *)
Lemma invoke_frame call onError callback e m :
  frame (invoke call onError callback e m) = frame (snd (call callback e m)).
Proof. unfold invoke. destruct (call callback e m) as [[|error] m']; reflexivity. Qed.

Section StableListeners.

Variable call : Listener -> GestureEvent.t -> t -> Outcome * t.
Variable e : GestureEvent.t.
Variable ref : ArrayRef.
Variable listeners : list Listener.

(** No listener of the list changes the array that is being walked. *)
Hypothesis stable : forall (callback : Listener) (m : t),
  In callback listeners -> array ref (snd (call callback e m)) = array ref m.

(** The loop calls the listeners from index [k] on, one after the other,
    however each call ends. *)
Lemma forEachFrom_stable onError (n : nat) : forall (k : nat) (m : t) called,
  array ref m = listeners ->
  (k + n = List.length listeners)%nat ->
  snd (forEachFrom call n k ref onError e m called) = called ++ skipn k listeners.
Proof.
  induction n as [|n IH]; intros k m called Harr Hlen; simpl.
  - rewrite skipn_all2 by lia. now rewrite app_nil_r.
  - rewrite Harr. destruct (nth_error listeners k) as [callback|] eqn:Hk.
    + rewrite IH; [| |lia].
      * rewrite <- app_assoc. simpl. now rewrite (skipn_nth_error _ _ Hk).
      * rewrite (frame_array ref (invoke_frame call onError callback e m)).
        rewrite stable; [exact Harr|]. exact (nth_error_In _ _ Hk).
    + apply nth_error_None in Hk. lia.
Qed.

End StableListeners.

Section PassiveListeners.

Variable call : Listener -> GestureEvent.t -> t -> Outcome * t.
Variable e : GestureEvent.t.

(** No callback calls back into the manager while it handles [e]. *)
Hypothesis passive : forall (callback : Listener) (m : t), snd (call callback e m) = m.

Lemma invoke_logged onError callback m : logged onError m (invoke call onError callback e m).
Proof.
  unfold invoke. pose proof (passive callback m) as H.
  destruct (call callback e m) as [[|error] m']; simpl in H; subst m'.
  - apply logged_refl.
  - split; [reflexivity|]. exists [onError error].
    split; [reflexivity|]. constructor; [now exists error | constructor].
Qed.

Lemma forEachFrom_passive onError ref (n : nat) : forall (k : nat) (m : t) called,
  logged onError m (fst (forEachFrom call n k ref onError e m called)).
Proof.
  induction n as [|n IH]; intros k m called; simpl.
  - apply logged_refl.
  - destruct (nth_error (array ref m) k) as [callback|]; [|apply IH].
    exact (logged_trans (invoke_logged onError callback m) (IH _ _ _)).
Qed.

Lemma forEachCallback_passive onError ref m :
  logged onError m (fst (forEachCallback call ref onError e m)).
Proof.
  destruct ref as [r|]; simpl; [apply forEachFrom_passive | apply logged_refl].
Qed.

(** With passive callbacks a dispatch changes the performance monitor and the
    console, and nothing else. *)
Lemma processGestureEvent_passive m :
  let m' := fst (processGestureEvent call e m) in
  activeTouches m' = activeTouches m /\
  touchTargets m' = touchTargets m /\
  gestureCallbacks m' = gestureCallbacks m /\
  customFeedbackCallbacks m' = customFeedbackCallbacks m /\
  arrays m' = arrays m /\
  gestureRecognizer m' = gestureRecognizer m /\
  performanceMonitor m'
  = PerformanceMonitor.recordGesture (GestureEvent.type e) true None
                                     (performanceMonitor m) /\
  exists lines, console m' = console m ++ lines.
Proof.
  unfold processGestureEvent, provideHapticFeedback.
  set (ref := JSMap.get GestureType_eqb (GestureEvent.type e) (gestureCallbacks m)).
  destruct (forEachCallback_passive (GestureCallbackError (GestureEvent.type e)) ref m)
    as [F1 (l1 & C1 & _)].
  set (m1 := fst (forEachCallback call ref (GestureCallbackError (GestureEvent.type e)) e m))
    in *.
  set (m2 := if hapticEnabled m1
             then log (HapticFeedbackLog (getHapticTypeForData e) (feedbackIntensity m1)) m1
             else m1).
  assert (F2 : frame m2 = frame m1) by (subst m2; destruct (hapticEnabled m1); reflexivity).
  assert (C2 : exists l2, console m2 = console m1 ++ l2).
  { subst m2. destruct (hapticEnabled m1); simpl; [eauto|].
    exists []. now rewrite app_nil_r. }
  destruct C2 as [l2 C2].
  destruct (forEachCallback_passive (FeedbackCallbackError HAPTIC)
              (JSMap.get TouchFeedbackType_eqb HAPTIC (customFeedbackCallbacks m2)) m2)
    as [F3 (l3 & C3 & _)].
  set (m3 := fst (forEachCallback call _ (FeedbackCallbackError HAPTIC) e m2)) in *.
  assert (F : frame m3 = frame m) by congruence.
  unfold frame in F. injection F as _ Ha Ht Hg Hc Harr _ _ Hr Hp.
  simpl. repeat split; try assumption.
  - now rewrite Hp.
  - exists (l1 ++ l2 ++ l3). rewrite C3, C2, C1. now rewrite !app_assoc.
Qed.

End PassiveListeners.

Lemma nth_writeArray (v : list Listener) (heap : list (list Listener)) :
  forall ref : ArrayRef,
    (ref < List.length heap)%nat -> nth ref (writeArray ref v heap) [] = v.
Proof.
  induction heap as [|a heap IH]; intros [|ref] Hlt; simpl in *; try lia.
  - reflexivity.
  - apply IH. lia.
Qed.

(** Registration order: [onGesture] appends to the list of the type. *)
Lemma registered_onGesture gestureType callback m ref :
  JSMap.get GestureType_eqb gestureType (gestureCallbacks m) = Some ref ->
  (ref < List.length (arrays m))%nat ->
  registered gestureType (onGesture gestureType callback m)
  = registered gestureType m ++ [callback].
Proof.
  intros Hget Hlt. unfold registered, onGesture. rewrite Hget. simpl. rewrite Hget.
  unfold array. simpl. now apply nth_writeArray.
Qed.

(** C7 (amended).  A gesture event is dispatched, and no listener registered
    for its gesture type changes that type's callback list while it is being
    called.  Then every listener registered for the type is called, once and
    in registration order, whichever of them throw.  A thrown exception is
    caught and reported on the console: after each call the manager is as the
    listener left it, console apart.  When, moreover, no callback calls back
    into the manager, the active-touch map, the target registry, the callback
    lists and the recognizer are after the dispatch as they were before it. *)
Theorem listeners_called_in_registration_order :
  forall (call : Listener -> GestureEvent.t -> t -> Outcome * t)
         (e : GestureEvent.t) (m : t),
    (forall (ref : ArrayRef) (callback : Listener) (m0 : t),
       JSMap.get GestureType_eqb (GestureEvent.type e) (gestureCallbacks m) = Some ref ->
       In callback (array ref m) ->
       array ref (snd (call callback e m0)) = array ref m0) ->
    snd (processGestureEvent call e m) = registered (GestureEvent.type e) m /\
    (forall (callback : Listener) (m0 : t),
       frame (invoke call (GestureCallbackError (GestureEvent.type e)) callback e m0)
       = frame (snd (call callback e m0))) /\
    ((forall (callback : Listener) (m0 : t), snd (call callback e m0) = m0) ->
     let m' := fst (processGestureEvent call e m) in
     activeTouches m' = activeTouches m /\
     touchTargets m' = touchTargets m /\
     gestureCallbacks m' = gestureCallbacks m /\
     customFeedbackCallbacks m' = customFeedbackCallbacks m /\
     arrays m' = arrays m /\
     gestureRecognizer m' = gestureRecognizer m).
Proof.
  intros call e m stable. split; [|split].
  - unfold processGestureEvent, registered. simpl.
    destruct (JSMap.get GestureType_eqb (GestureEvent.type e) (gestureCallbacks m))
      as [ref|] eqn:Hget; simpl; [|reflexivity].
    rewrite (@forEachFrom_stable call e ref (array ref m) (fun c m0 => stable ref c m0 eq_refl)
               (GestureCallbackError (GestureEvent.type e))
               (List.length (array ref m)) 0 m [] eq_refl eq_refl).
    reflexivity.
  - intros callback m0. apply invoke_frame.
  - intros passive.
    destruct (processGestureEvent_passive call e passive m)
      as (Ha & Ht & Hg & Hc & Harr & Hr & _).
    repeat split; assumption.
Qed.

(** Any gesture configuration does for the dispatch examples. *)
Definition someConfig : TouchControlConfig.t :=
  TouchControlConfig.make 44 8 defaultGestureConfig.

(** A TAP event, as [onTouchEnd] builds it. *)
Definition tapEvent : GestureEvent.t :=
  GestureEvent.make TAP
    (GestureState.make 0 [TouchPoint.make 100 100 0 None 1] [] 0 0 0 0 1 0 true false)
    None 50.

(** Three listeners on TAP, the second of which throws. *)
Definition secondThrows : Listener -> GestureEvent.t -> t -> Outcome * t :=
  fun callback _ m => if Nat.eqb callback 11 then (Threw "boom", m) else (Returned, m).

Definition threeListeners : t :=
  onGesture TAP 12 (onGesture TAP 11 (onGesture TAP 10 (create someConfig))).

Lemma listeners_called_in_registration_order_witness :
  snd (processGestureEvent secondThrows tapEvent threeListeners) = [10; 11; 12]%nat /\
  activeTouches (fst (processGestureEvent secondThrows tapEvent threeListeners))
  = activeTouches threeListeners /\
  arrays (fst (processGestureEvent secondThrows tapEvent threeListeners))
  = arrays threeListeners /\
  console (fst (processGestureEvent secondThrows tapEvent threeListeners))
  = [GestureCallbackError TAP "boom"; HapticFeedbackLog LIGHT 1].
Proof.
  assert (passive : forall (callback : Listener) (m0 : t),
             snd (secondThrows callback tapEvent m0) = m0)
    by (intros callback m0; unfold secondThrows; destruct (Nat.eqb callback 11); reflexivity).
  destruct (listeners_called_in_registration_order secondThrows tapEvent threeListeners)
    as (Hcalled & _ & Hstate).
  - intros ref callback m0 _ _. now rewrite passive.
  - destruct (Hstate passive) as (Ha & _ & _ & _ & Harr & _).
    rewrite Hcalled, Ha, Harr. repeat split; vm_compute; reflexivity.
Defined.

(** A listener that unregisters itself when called, as a one-shot listener
    does; every other listener just returns. *)
Definition unregistersItself : Listener -> GestureEvent.t -> t -> Outcome * t :=
  fun callback event m =>
    if Nat.eqb callback 10
    then (Returned, offGesture (GestureEvent.type event) 10 m)
    else (Returned, m).

Definition twoListeners : t :=
  onGesture TAP 11 (onGesture TAP 10 (create someConfig)).

(** C7 (counterexample).  Listeners 10 and 11 are registered for TAP, in
    that order; listener 10 unregisters itself when called.  Dispatching a
    TAP event calls listener 10 only: its [offGesture] removes it from the
    array [forEach] is walking, listener 11 moves to index 0, and index 1 no
    longer exists.  Listener 11 is registered before and after the dispatch
    and is not called; no exception is involved. *)
Lemma listener_skipped_after_unregistration :
  registered TAP twoListeners = [10; 11]%nat /\
  snd (processGestureEvent unregistersItself tapEvent twoListeners) = [10]%nat /\
  registered TAP (fst (processGestureEvent unregistersItself tapEvent twoListeners))
  = [11]%nat /\
  snd (processGestureEvent unregistersItself tapEvent twoListeners)
  <> registered TAP twoListeners.
Proof.
  repeat split; try (vm_compute; reflexivity).
  vm_compute. discriminate.
Qed.

End TouchControlManagerClaims.

(* ================================================================== *)
(** * Laws of the map operations *)
(* ================================================================== *)

Module JSMapFacts.

Section Laws.

Variables (K V : Type) (eqb : K -> K -> bool).
Hypothesis eqb_eq : forall a b : K, eqb a b = true <-> a = b.

Lemma key_eqb_refl (k : K) : eqb k k = true.
Proof. now apply eqb_eq. Qed.

Lemma key_eqb_neq (a b : K) : a <> b -> eqb a b = false.
Proof. intros H. destruct (eqb a b) eqn:E; [|reflexivity]. apply eqb_eq in E. contradiction. Qed.

Lemma get_set_same (k : K) (v : V) (m : JSMap.t K V) :
  JSMap.get eqb k (JSMap.set eqb k v m) = Some v.
Proof.
  induction m as [|[k' v'] m IH]; simpl.
  - now rewrite key_eqb_refl.
  - destruct (eqb k' k) eqn:E; simpl; rewrite E; [reflexivity | exact IH].
Qed.

Lemma get_set_other (k k' : K) (v : V) (m : JSMap.t K V) :
  k <> k' -> JSMap.get eqb k' (JSMap.set eqb k v m) = JSMap.get eqb k' m.
Proof.
  intros Hne. induction m as [|[j w] m IH]; simpl.
  - rewrite key_eqb_neq by exact Hne. reflexivity.
  - destruct (eqb j k) eqn:E; simpl.
    + apply eqb_eq in E. subst j. now rewrite (key_eqb_neq Hne).
    + now rewrite IH.
Qed.

Lemma get_delete_same (k : K) (m : JSMap.t K V) :
  JSMap.get eqb k (JSMap.delete eqb k m) = None.
Proof.
  unfold JSMap.delete. induction m as [|[j w] m IH]; simpl; [reflexivity|].
  destruct (eqb j k) eqn:E; simpl; [exact IH | now rewrite E].
Qed.

Lemma get_delete_other (k k' : K) (m : JSMap.t K V) :
  k <> k' -> JSMap.get eqb k' (JSMap.delete eqb k m) = JSMap.get eqb k' m.
Proof.
  intros Hne. unfold JSMap.delete. induction m as [|[j w] m IH]; simpl; [reflexivity|].
  destruct (eqb j k) eqn:E; simpl.
  - apply eqb_eq in E. subst j. now rewrite (key_eqb_neq Hne).
  - now rewrite IH.
Qed.

Lemma get_Some_In_keys (k : K) (v : V) (m : JSMap.t K V) :
  JSMap.get eqb k m = Some v -> In k (JSMap.keys m).
Proof.
  induction m as [|[j w] m IH]; simpl; [discriminate|].
  destruct (eqb j k) eqn:E; [apply eqb_eq in E; auto | auto].
Qed.

Lemma get_None_not_In_keys (k : K) (m : JSMap.t K V) :
  JSMap.get eqb k m = None -> ~ In k (JSMap.keys m).
Proof.
  induction m as [|[j w] m IH]; simpl; [tauto|].
  destruct (eqb j k) eqn:E; [discriminate|].
  intros H [Hj | Hin]; [|exact (IH H Hin)].
  subst j. now rewrite key_eqb_refl in E.
Qed.

(** [set] on a present key replaces the value where the entry stands. *)
Lemma keys_set_present (k : K) (v w : V) (m : JSMap.t K V) :
  JSMap.get eqb k m = Some w -> JSMap.keys (JSMap.set eqb k v m) = JSMap.keys m.
Proof.
  induction m as [|[j u] m IH]; simpl; [discriminate|].
  destruct (eqb j k) eqn:E; simpl; [reflexivity|].
  intros H. now rewrite IH.
Qed.

(** [set] on an absent key appends the entry. *)
Lemma set_absent (k : K) (v : V) (m : JSMap.t K V) :
  JSMap.get eqb k m = None -> JSMap.set eqb k v m = m ++ [(k, v)].
Proof.
  induction m as [|[j u] m IH]; simpl; [reflexivity|].
  destruct (eqb j k) eqn:E; [discriminate|].
  intros H. now rewrite IH.
Qed.

End Laws.

Arguments key_eqb_refl {K eqb} eqb_eq k.
Arguments key_eqb_neq {K eqb} eqb_eq {a b} _.
Arguments get_set_same {K V eqb} eqb_eq k v m.
Arguments get_set_other {K V eqb} eqb_eq {k k'} v m _.
Arguments get_delete_same {K V eqb} k m.
Arguments get_delete_other {K V eqb} eqb_eq {k k'} m _.
Arguments get_Some_In_keys {K V eqb} eqb_eq {k v m} _.
Arguments get_None_not_In_keys {K V eqb} eqb_eq {k m} _.
Arguments keys_set_present {K V eqb} k v {w m} _.
Arguments set_absent {K V eqb} k v {m} _.

Lemma GestureType_eqb_eq (a b : GestureType) : GestureType_eqb a b = true <-> a = b.
Proof. destruct a, b; simpl; split; congruence. Qed.

Lemma String_eqb_eq (a b : string) : String.eqb a b = true <-> a = b.
Proof. apply String.eqb_eq. Qed.

End JSMapFacts.

(* ================================================================== *)
(** * Properties of utils/TouchUtils *)
(* ================================================================== *)

Module TouchUtilsProperties.

Import TouchUtils.

(** ** [findClosestTarget] *)

(** What the loop of [findClosestTarget] knows after the targets [seen]. *)
Definition scanned (touch : TouchPoint.t) (seen : list TouchTarget.t)
           (acc : option TouchTarget.t * float) : Prop :=
  (forall u, In u seen -> JS.lt (centerDistance touch u) (snd acc) = false) /\
  match fst acc with
  | Some t =>
      snd acc = centerDistance touch t /\
      JS.lt (centerDistance touch t) infinity = true /\
      exists before after,
        seen = before ++ t :: after /\
        forall u, In u before ->
                  PrimFloat.eqb (centerDistance touch u) (centerDistance touch t) = false
  | None => snd acc = infinity
  end.

Lemma closerTarget_scanned touch seen acc target :
  scanned touch seen acc -> scanned touch (seen ++ [target]) (closerTarget touch acc target).
Proof.
  intros [Hmin Hacc]. unfold closerTarget.
  destruct (JS.lt (centerDistance touch target) (snd acc)) eqn:Hlt.
  - split; simpl.
    + intros u Hu. apply in_app_or in Hu. destruct Hu as [Hu | [<- | []]].
      * destruct (JS.lt (centerDistance touch u) (centerDistance touch target)) eqn:E;
          [|reflexivity].
        rewrite <- (Hmin u Hu). symmetry. exact (FloatFacts.ltb_trans E Hlt).
      * apply FloatFacts.ltb_irrefl.
    + split; [reflexivity|]. split.
      * destruct (fst acc) as [t|].
        -- destruct Hacc as (Hm & Hfin & _). rewrite Hm in Hlt.
           exact (FloatFacts.ltb_trans Hlt Hfin).
        -- now rewrite Hacc in Hlt.
      * exists seen, []. split; [reflexivity|]. intros u Hu.
        destruct (PrimFloat.eqb (centerDistance touch u) (centerDistance touch target))
          eqn:E; [|reflexivity].
        rewrite <- (Hmin u Hu). symmetry.
        unfold JS.lt in *. rewrite FloatFacts.ltb_cmp in *.
        rewrite FloatFacts.eqb_cmp in E.
        destruct (FloatFacts.cmp (centerDistance touch u) (centerDistance touch target))
          as [[]|] eqn:Ec; try discriminate.
        now rewrite (FloatFacts.cmp_Eq_left _ _ (snd acc) Ec).
  - split.
    + intros u Hu. apply in_app_or in Hu. destruct Hu as [Hu | [<- | []]]; auto.
    + destruct (fst acc) as [t|]; [|exact Hacc].
      destruct Hacc as (Hm & Hfin & before & after & Hseen & Hfirst).
      split; [exact Hm|]. split; [exact Hfin|].
      exists before, (after ++ [target]). split; [|exact Hfirst].
      rewrite Hseen, <- app_assoc. reflexivity.
Qed.

Lemma fold_closerTarget_scanned touch (rest : list TouchTarget.t) : forall seen acc,
  scanned touch seen acc ->
  scanned touch (seen ++ rest) (fold_left (closerTarget touch) rest acc).
Proof.
  induction rest as [|target rest IH]; intros seen acc H; simpl.
  - now rewrite app_nil_r.
  - replace (seen ++ target :: rest) with ((seen ++ [target]) ++ rest)
      by (rewrite <- app_assoc; reflexivity).
    apply IH, closerTarget_scanned, H.
Qed.

(** X1.  [findClosestTarget] returns [null] for no targets, and otherwise only when
    no target is at a distance below [Infinity].  A target it returns is one
    of the targets, no target is strictly closer to the touch, and no target
    before it in the list is at the same distance: among equally close
    targets the first one wins. *)
Theorem findClosestTarget_closest (touch : TouchPoint.t) (targets : list TouchTarget.t) :
  findClosestTarget touch [] = None /\
  match findClosestTarget touch targets with
  | Some t =>
      JS.lt (centerDistance touch t) infinity = true /\
      (forall u, In u targets ->
                 JS.lt (centerDistance touch u) (centerDistance touch t) = false) /\
      exists before after,
        targets = before ++ t :: after /\
        forall u, In u before ->
                  PrimFloat.eqb (centerDistance touch u) (centerDistance touch t) = false
  | None =>
      forall u, In u targets -> JS.lt (centerDistance touch u) infinity = false
  end.
Proof.
  split; [reflexivity|].
  assert (H0 : scanned touch [] (None, infinity)).
  { split; [intros u []|reflexivity]. }
  pose proof (@fold_closerTarget_scanned touch targets [] _ H0) as [Hmin Hacc].
  simpl in Hmin, Hacc. unfold findClosestTarget.
  destruct (fst (fold_left (closerTarget touch) targets (None, infinity))) as [t|].
  - destruct Hacc as (Hm & Hfin & Hsplit). rewrite Hm in Hmin. auto.
  - now rewrite Hacc in Hmin.
Qed.

(** ** The gesture predicates and the recognizer's rules *)

(** X2.  The recognizer's first rule is [isTapGesture] with the recognizer's
    [minDistance] and [maxDuration] as its limits: [recognizeGesture] answers
    TAP exactly when [isTapGesture] holds.  It answers LONG_PRESS only when
    [isLongPressGesture] holds for [minDuration] and the gesture is not a tap,
    and a swipe only when [isSwipeGesture] holds for [velocityThreshold] and
    [minDistance]. *)
Theorem recognizeGesture_agrees_with_predicates
        (cfg : GestureConfig.t) (s : GestureState.t) (now : float) :
  (GestureRecognizer.recognizeGesture cfg s now = Some TAP <->
   isTapGesture s (GestureConfig.minDistance cfg) (GestureConfig.maxDuration cfg) now = true)
  /\
  (GestureRecognizer.recognizeGesture cfg s now = Some LONG_PRESS ->
   isLongPressGesture s (GestureConfig.minDuration cfg) now = true /\
   isTapGesture s (GestureConfig.minDistance cfg) (GestureConfig.maxDuration cfg) now = false)
  /\
  (In (GestureRecognizer.recognizeGesture cfg s now)
      [Some SWIPE_LEFT; Some SWIPE_RIGHT; Some SWIPE_UP; Some SWIPE_DOWN] ->
   isSwipeGesture s (GestureConfig.velocityThreshold cfg) (GestureConfig.minDistance cfg)
   = true).
Proof.
  unfold GestureRecognizer.recognizeGesture, isTapGesture, isLongPressGesture,
    isSwipeGesture, GestureRecognizer.gestureDuration, GestureRecognizer.gestureDistance,
    GestureRecognizer.gestureVelocity, GestureRecognizer.recognizeMultiTouchGesture,
    GestureRecognizer.recognizeSwipeDirection.
  set (distance := PrimFloat.sqrt _).
  set (velocity := PrimFloat.sqrt _).
  set (duration := (now - GestureState.startTime s)%float).
  destruct (JS.lt distance (GestureConfig.minDistance cfg)) eqn:Hd;
    destruct (JS.lt duration (GestureConfig.maxDuration cfg)) eqn:Hmax;
    destruct (JS.gt duration (GestureConfig.minDuration cfg)) eqn:Hmin;
    destruct (JS.gt velocity (GestureConfig.velocityThreshold cfg)) eqn:Hv;
    destruct (JS.gt distance (GestureConfig.minDistance cfg)) eqn:Hg;
    simpl;
    repeat match goal with
           | |- context [if ?c then _ else _] => destruct c
           end;
    simpl; repeat split; try congruence; try tauto;
    try (intros [H | [H | [H | [H | []]]]]; congruence).
Qed.

(** ** Target sizes *)

(** X3.  A target built by [createTouchTargetFromBounds] passes
    [validateTouchTargetSize] for a minimum size exactly when its [minSize]
    field, the smaller of width and height, is at least that minimum. *)
Theorem validateTouchTargetSize_of_bounds
        (id : string) (x y width height minSize : float)
        (label hint role : option string) :
  let target := createTouchTargetFromBounds id x y width height label hint role in
  validateTouchTargetSize target minSize = JS.ge (TouchTarget.minSize target) minSize.
Proof.
  simpl. unfold validateTouchTargetSize, JS.ge, JS.min. simpl.
  assert (Hnan : PrimFloat.leb minSize nan = false).
  { destruct (PrimFloat.leb minSize nan) eqn:E; [|reflexivity].
    apply FloatFacts.leb_not_nan in E. destruct E as [_ E]. discriminate. }
  destruct (PrimFloat.is_nan width) eqn:Nw.
  { simpl. rewrite Hnan. destruct (PrimFloat.leb minSize width) eqn:E.
    - apply FloatFacts.leb_not_nan in E. destruct E; congruence.
    - reflexivity. }
  destruct (PrimFloat.is_nan height) eqn:Nh.
  { simpl. rewrite Hnan. destruct (PrimFloat.leb minSize height) eqn:E.
    - apply FloatFacts.leb_not_nan in E. destruct E; congruence.
    - now rewrite andb_false_r. }
  simpl.
  destruct (PrimFloat.ltb width height) eqn:Hwh.
  { destruct (PrimFloat.leb minSize width) eqn:E; [|reflexivity]. simpl.
    apply FloatFacts.ltb_leb, (FloatFacts.leb_ltb_trans E Hwh). }
  destruct (PrimFloat.ltb height width) eqn:Hhw.
  { destruct (PrimFloat.leb minSize height) eqn:E; [|now rewrite andb_false_r].
    rewrite andb_true_r.
    apply FloatFacts.ltb_leb, (FloatFacts.leb_ltb_trans E Hhw). }
  assert (Heq : FloatFacts.cmp width height = Some Eq).
  { destruct (FloatFacts.cmp_total width height Nw Nh) as [c E].
    rewrite FloatFacts.ltb_cmp in Hwh. rewrite FloatFacts.ltb_cmp in Hhw.
    rewrite (FloatFacts.cmp_antisym _ _ E) in Hhw. rewrite E in Hwh.
    destruct c; simpl in *; congruence. }
  assert (Hsame : PrimFloat.leb minSize width = PrimFloat.leb minSize height).
  { rewrite !FloatFacts.leb_cmp. now rewrite (FloatFacts.cmp_Eq_right _ _ minSize Heq). }
  destruct (JS.isNegativeZero width); rewrite Hsame; now destruct (PrimFloat.leb minSize height).
Qed.

End TouchUtilsProperties.

(* ================================================================== *)
(** * Further properties of the gesture recognizer *)
(* ================================================================== *)

Module GestureRecognizerProperties.

Import GestureRecognizer.

(** The types a classification can have once every touch has lifted. *)
Definition emitted : list GestureType :=
  [TAP; LONG_PRESS; SWIPE_LEFT; SWIPE_RIGHT; SWIPE_UP; SWIPE_DOWN; PAN].

Lemma recognizeGesture_emitted cfg s now g :
  GestureState.currentTouches s = [] ->
  recognizeGesture cfg s now = Some g -> In g emitted.
Proof.
  intros Hc. unfold recognizeGesture, recognizeSwipeDirection. rewrite Hc. simpl.
  repeat match goal with
         | |- context [if ?c then _ else _] => destruct c
         end;
    intros [= <-]; simpl; tauto.
Qed.

(** X4.  Whatever state the recognizer is in, an event returned by [onTouchEnd] is
    a TAP, a LONG_PRESS, one of the four swipes or a PAN, never a DOUBLE_TAP,
    PINCH, ROTATE, EDGE_SWIPE or FORCE_TOUCH; it is returned only by the call
    that removes the last current touch, it names no target, and it leaves the
    recognizer idle. *)
Theorem onTouchEnd_event (touch : TouchPoint.t) (now now' : float) (r : t) :
  match onTouchEnd touch now now' r with
  | (r', Some e) =>
      In (GestureEvent.type e) emitted /\
      GestureState.currentTouches (GestureEvent.state e) = [] /\
      GestureEvent.target e = None /\
      GestureEvent.timestamp e = now' /\
      isProcessing r = true /\
      isProcessing r' = false
  | (_, None) => True
  end.
Proof.
  unfold onTouchEnd.
  destruct (gestureState r) as [s|]; [|exact I].
  destruct (isProcessing r); [|exact I].
  set (s1 := GestureState.set_currentTouches _ s).
  destruct (Nat.eqb (List.length (GestureState.currentTouches s1)) 0) eqn:Hlen; [|exact I].
  assert (Hc : GestureState.currentTouches s1 = []).
  { apply Nat.eqb_eq in Hlen. now destruct (GestureState.currentTouches s1). }
  destruct (recognizeGesture (config r) s1 now) as [g|] eqn:Hg; [|exact I].
  simpl. repeat split; auto. exact (recognizeGesture_emitted _ _ _ Hc Hg).
Qed.

(** X5.  On every run from a fresh recognizer, [isGestureActive()] answers whether
    the recognizer is processing: while it is, a gesture state exists and is
    flagged active. *)
Theorem isGestureActive_iff_processing
        (atan2 : float -> float -> float) (cfg : GestureConfig.t) (cs : list call) :
  exists r outs,
    run atan2 cs (create cfg) = JS.Normal (r, outs) /\
    isGestureActive r = isProcessing r /\
    (getCurrentState r = None -> isProcessing r = false).
Proof.
  destruct (@GestureRecognizerFacts.inv_run atan2 cs (create cfg)
              (GestureRecognizerFacts.inv_create cfg)) as ([r outs] & E & Hinv).
  exists r, outs. split; [exact E|].
  unfold GestureRecognizerFacts.inv in Hinv. simpl in Hinv.
  unfold isGestureActive, getCurrentState.
  destruct (gestureState r) as [s|].
  - split; [|discriminate].
    destruct Hinv as (_ & _ & _ & Hflags).
    destruct (isProcessing r); [|reflexivity].
    destruct (Hflags eq_refl) as [-> _]. reflexivity.
  - split; [now rewrite Hinv | auto].
Qed.

End GestureRecognizerProperties.

(* ================================================================== *)
(** * Properties of the accessibility checks *)
(* ================================================================== *)

Module AccessibilityManagerProperties.

Import AccessibilityManager.

Lemma pushIf_nil (c : bool) (line : string) (arr : list string) :
  JS.pushIf c line arr = [] <-> c = false /\ arr = [].
Proof.
  unfold JS.pushIf. destruct c.
  - split; [|intros [? _]; discriminate].
    intros H. apply app_eq_nil in H. destruct H; discriminate.
  - tauto.
Qed.

(** X7.  [getAccessibilityRecommendations] has nothing to recommend exactly when
    [validateTouchTargetAccessibility] accepts the target and the target has a
    hint; an accepted target is never logged, a rejected one is logged once
    with its issues. *)
Theorem recommendations_empty_iff_valid_with_hint
        (target : TouchTarget.t) (console : list ConsoleLine) :
  (getAccessibilityRecommendations target = [] <->
   fst (validateTouchTargetAccessibility target console) = true /\
   JS.truthyText (TouchTarget.accessibilityHint target) = true) /\
  snd (validateTouchTargetAccessibility target console)
  = if fst (validateTouchTargetAccessibility target console) then console
    else console ++ [AccessibilityIssues (TouchTarget.id target) (accessibilityIssues target)].
Proof.
  split.
  - unfold getAccessibilityRecommendations, validateTouchTargetAccessibility,
      accessibilityIssues.
    rewrite !pushIf_nil.
    destruct (JS.lt (TouchTarget.width target) 44 || JS.lt (TouchTarget.height target) 44),
      (JS.truthyText (TouchTarget.accessibilityLabel target)),
      (JS.truthyText (TouchTarget.accessibilityHint target)),
      (JS.truthyText (TouchTarget.accessibilityRole target)); simpl;
      intuition congruence.
  - unfold validateTouchTargetAccessibility.
    destruct (Nat.ltb 0 _); reflexivity.
Qed.

(** X8.  A target that passes [validateTouchTargetSize] for the default minimum of
    44 and has a label and a role is accepted by
    [validateTouchTargetAccessibility]. *)
Theorem sized_and_labelled_target_is_valid
        (target : TouchTarget.t) (console : list ConsoleLine) :
  TouchUtils.validateTouchTargetSize target 44 = true ->
  JS.truthyText (TouchTarget.accessibilityLabel target) = true ->
  JS.truthyText (TouchTarget.accessibilityRole target) = true ->
  validateTouchTargetAccessibility target console = (true, console).
Proof.
  unfold TouchUtils.validateTouchTargetSize, JS.ge. intros Hsize Hlabel Hrole.
  apply andb_prop in Hsize. destruct Hsize as [Hw Hh].
  unfold validateTouchTargetAccessibility, accessibilityIssues, JS.lt.
  rewrite (FloatFacts.leb_not_ltb Hw), (FloatFacts.leb_not_ltb Hh), Hlabel, Hrole.
  reflexivity.
Qed.

Definition okButton : TouchTarget.t :=
  TouchTarget.make "ok" 0 0 44 48 44 (Some "OK"%string) None (Some "button"%string).

Lemma sized_and_labelled_target_is_valid_witness :
  validateTouchTargetAccessibility okButton [] = (true, []).
Proof.
  apply (@sized_and_labelled_target_is_valid okButton []); reflexivity.
Defined.

End AccessibilityManagerProperties.

(* ================================================================== *)
(** * Properties of the performance monitor *)
(* ================================================================== *)

Module PerformanceMonitorProperties.

Import PerformanceMonitor.

(** ** Named timings *)

(** X9.  [startTiming] followed by [endTiming] for the same operation leaves a
    timing with the two clock readings and their difference, whatever start
    time is handed to [endTiming]; the timings of other operations are as
    before. *)
Theorem endTiming_after_startTiming
        (operation : string) (startTime : option float) (now now' : float)
        (timings : PerformanceTimings.t) :
  let started := snd (PerformanceTimings.startTiming operation now timings) in
  let ended := snd (PerformanceTimings.endTiming operation startTime now' started) in
  PerformanceTimings.getTiming operation ended
  = Some (TimingData.make now (Some now') (Some (now' - now)%float)) /\
  forall other : string,
    other <> operation ->
    PerformanceTimings.getTiming other ended = PerformanceTimings.getTiming other timings.
Proof.
  simpl. unfold PerformanceTimings.endTiming, PerformanceTimings.getTiming.
  rewrite (JSMapFacts.get_set_same JSMapFacts.String_eqb_eq). simpl.
  split.
  - apply (JSMapFacts.get_set_same JSMapFacts.String_eqb_eq).
  - intros other Hne.
    rewrite !(JSMapFacts.get_set_other JSMapFacts.String_eqb_eq); congruence.
Qed.

(** X10.  [endTiming] for an operation that has no timing stores one only when it
    is handed a start time other than 0 and NaN; without one the call leaves
    the timings as they are and [getTiming] keeps answering [null]. *)
Theorem endTiming_without_startTiming
        (operation : string) (startTime : option float) (now : float)
        (timings : PerformanceTimings.t) :
  PerformanceTimings.getTiming operation timings = None ->
  let ended := snd (PerformanceTimings.endTiming operation startTime now timings) in
  match startTime with
  | Some st =>
      if truthy st
      then PerformanceTimings.getTiming operation ended
           = Some (TimingData.make st (Some now) (Some (now - st)%float))
      else ended = timings
  | None => ended = timings
  end.
Proof.
  unfold PerformanceTimings.getTiming, PerformanceTimings.endTiming. intros H. rewrite H.
  destruct startTime as [st|]; [|reflexivity].
  destruct (truthy st); [|reflexivity]. simpl.
  apply (JSMapFacts.get_set_same JSMapFacts.String_eqb_eq).
Qed.

Lemma endTiming_without_startTiming_witness :
  snd (PerformanceTimings.endTiming "touch_end" (Some 0%float) 5 []) = [] /\
  PerformanceTimings.getTiming "touch_end"
    (snd (PerformanceTimings.endTiming "touch_end" (Some 2%float) 5 []))
  = Some (TimingData.make 2 (Some 5%float) (Some 3%float)).
Proof.
  split.
  - exact (@endTiming_without_startTiming "touch_end" (Some 0%float) 5 [] eq_refl).
  - exact (@endTiming_without_startTiming "touch_end" (Some 2%float) 5 [] eq_refl).
Defined.

(** ** Acceptable performance *)

(** X11.  When [isPerformanceAcceptable()] holds, [getPerformanceRecommendations()]
    is empty. *)
Theorem acceptable_performance_has_no_recommendations (pm : t) :
  isPerformanceAcceptable pm = true -> getPerformanceRecommendations pm = [].
Proof.
  unfold isPerformanceAcceptable, getPerformanceRecommendations, JS.lt, JS.gt. intros H.
  apply andb_prop in H. destruct H as [H He].
  apply andb_prop in H. destruct H as [H Hb].
  apply andb_prop in H. destruct H as [Ht Hm].
  rewrite (FloatFacts.ltb_not_ltb Ht), (FloatFacts.ltb_not_ltb Hm),
    (FloatFacts.ltb_not_ltb Hb), (FloatFacts.ltb_not_ltb He).
  reflexivity.
Qed.

Lemma acceptable_performance_has_no_recommendations_witness :
  getPerformanceRecommendations create = [].
Proof.
  apply (@acceptable_performance_has_no_recommendations create). vm_compute. reflexivity.
Defined.


(** ** The counters *)

Lemma recordGesture_keys gestureType success recognitionTime (pm : t) :
  JSMap.keys (gestureMetrics (recordGesture gestureType success recognitionTime pm))
  = JSMap.keys (gestureMetrics pm).
Proof.
  unfold recordGesture.
  destruct (JSMap.get GestureType_eqb gestureType (gestureMetrics pm)) as [metrics|] eqn:Hget;
    [|reflexivity].
  exact (JSMapFacts.keys_set_present gestureType _ Hget).
Qed.

(** X12.  [recordGesture] touches the counters of its own gesture type only: the
    counters of every other type are as before, and no entry is added or
    removed.  For a type that has counters, [count] goes up by one together
    with [successCount] or [errorCount]. *)
Theorem recordGesture_changes_one_entry
        (gestureType : GestureType) (success : bool) (recognitionTime : option float)
        (pm : t) :
  let pm' := recordGesture gestureType success recognitionTime pm in
  JSMap.keys (gestureMetrics pm') = JSMap.keys (gestureMetrics pm) /\
  (forall other : GestureType,
     other <> gestureType -> getGestureMetrics other pm' = getGestureMetrics other pm) /\
  match getGestureMetrics gestureType pm with
  | Some metrics =>
      exists metrics',
        getGestureMetrics gestureType pm' = Some metrics' /\
        GestureMetrics.count metrics' = (GestureMetrics.count metrics + 1)%float /\
        GestureMetrics.successCount metrics'
        = (if success then GestureMetrics.successCount metrics + 1
           else GestureMetrics.successCount metrics)%float /\
        GestureMetrics.errorCount metrics'
        = (if success then GestureMetrics.errorCount metrics
           else GestureMetrics.errorCount metrics + 1)%float
  | None => pm' = pm
  end.
Proof.
  simpl. unfold recordGesture, getGestureMetrics.
  destruct (JSMap.get GestureType_eqb gestureType (gestureMetrics pm)) as [metrics|] eqn:Hget.
  - simpl. split; [|split].
    + pose proof (recordGesture_keys gestureType success recognitionTime pm) as Hkeys.
      unfold recordGesture in Hkeys. now rewrite Hget in Hkeys.
    + intros other Hne.
      apply (JSMapFacts.get_set_other JSMapFacts.GestureType_eqb_eq). congruence.
    + eexists. split; [apply (JSMapFacts.get_set_same JSMapFacts.GestureType_eqb_eq)|].
      simpl. repeat split.
  - repeat split.
Qed.

(** The counters of a monitor that went through any calls of [recordGesture],
    [reset()] and [destroy()]: either there are none (after [destroy()]), or
    there is one entry per gesture type, in the order of the enumeration. *)
Definition counters_shape (pm : t) : Prop :=
  gestureMetrics pm = [] \/ JSMap.keys (gestureMetrics pm) = GestureType_values.

Lemma initializeGestureMetrics_fresh (m : JSMap.t GestureType GestureMetrics.t) :
  m = [] \/ JSMap.keys m = GestureType_values ->
  initializeGestureMetrics m = gestureMetrics create.
Proof.
  intros [-> | H]; [reflexivity|].
  unfold JSMap.keys in H.
  do 12 (destruct m as [|[? ?] m]; [discriminate|]; simpl in H;
         injection H as -> H).
  destruct m; [|discriminate]. reflexivity.
Qed.

Lemma step_counters_shape (c : call) (pm : t) :
  counters_shape pm -> counters_shape (step c pm).
Proof.
  unfold counters_shape. intros H. destruct c as [g success rt| |]; simpl.
  - destruct H as [H | H].
    + left. unfold recordGesture. now rewrite H.
    + right. now rewrite recordGesture_keys.
  - right. rewrite (initializeGestureMetrics_fresh H). reflexivity.
  - left. reflexivity.
Qed.

Lemma run_counters_shape (cs : list call) : forall pm,
  counters_shape pm -> counters_shape (run cs pm).
Proof.
  unfold run. induction cs as [|c cs IH]; intros pm H; simpl; [exact H|].
  apply IH, step_counters_shape, H.
Qed.

(** X13.  Whatever was recorded, reset or destroyed before, [reset()] brings the
    counters, the memory usage and the battery impact back to those of a new
    monitor. *)
Theorem reset_restores_new_monitor (cs : list call) :
  reset (run cs create) = create.
Proof.
  assert (H : counters_shape (run cs create)).
  { apply run_counters_shape. right. reflexivity. }
  unfold reset. rewrite (initializeGestureMetrics_fresh H). reflexivity.
Qed.


(** ** A monitor that is only told of successes *)

Definition onlySuccesses (cs : list call) : bool :=
  forallb (fun c => match c with
                    | RecordGesture _ success _ => success
                    | _ => true
                    end) cs.

(** No failure counted: [errorCount] is 0 and [successCount] is [count]. *)
Definition noFailure (metrics : GestureMetrics.t) : Prop :=
  GestureMetrics.errorCount metrics = 0%float /\
  GestureMetrics.successCount metrics = GestureMetrics.count metrics.

Lemma set_Forall (P : GestureMetrics.t -> Prop) g v (m : JSMap.t GestureType GestureMetrics.t) :
  P v -> Forall (fun e => P (snd e)) m ->
  Forall (fun e => P (snd e)) (JSMap.set GestureType_eqb g v m).
Proof.
  intros Hv. induction m as [|[k w] m IH]; simpl; intros H.
  - constructor; [exact Hv | constructor].
  - inversion H as [|? ? Hw Hm]; subst.
    destruct (GestureType_eqb k g); constructor; auto.
Qed.

Lemma get_Forall (P : GestureMetrics.t -> Prop) g v (m : JSMap.t GestureType GestureMetrics.t) :
  Forall (fun e => P (snd e)) m -> JSMap.get GestureType_eqb g m = Some v -> P v.
Proof.
  induction m as [|[k w] m IH]; simpl; intros H; [discriminate|].
  inversion H as [|? ? Hw Hm]; subst.
  destruct (GestureType_eqb k g); [intros [= <-]; exact Hw | auto].
Qed.

Lemma initializeGestureMetrics_noFailure (m : JSMap.t GestureType GestureMetrics.t) :
  Forall (fun e => noFailure (snd e)) m ->
  Forall (fun e => noFailure (snd e)) (initializeGestureMetrics m).
Proof.
  unfold initializeGestureMetrics. generalize GestureType_values.
  intros values. revert m. induction values as [|g values IH]; intros m H; simpl; [exact H|].
  apply IH, set_Forall; [split; reflexivity | exact H].
Qed.

Lemma step_noFailure (c : call) (pm : t) :
  onlySuccesses [c] = true ->
  Forall (fun e => noFailure (snd e)) (gestureMetrics pm) ->
  Forall (fun e => noFailure (snd e)) (gestureMetrics (step c pm)).
Proof.
  intros Hc H. destruct c as [g success rt| |]; simpl.
  - simpl in Hc. rewrite andb_true_r in Hc. subst success. unfold recordGesture.
    destruct (JSMap.get GestureType_eqb g (gestureMetrics pm)) as [metrics|] eqn:Hget;
      [|exact H].
    simpl. apply set_Forall; [|exact H].
    destruct (@get_Forall noFailure _ _ _ H Hget) as [He Hs]. split; simpl; [exact He | now rewrite Hs].
  - now apply initializeGestureMetrics_noFailure.
  - constructor.
Qed.

Lemma run_noFailure (cs : list call) : forall pm,
  onlySuccesses cs = true ->
  Forall (fun e => noFailure (snd e)) (gestureMetrics pm) ->
  Forall (fun e => noFailure (snd e)) (gestureMetrics (run cs pm)).
Proof.
  unfold run. induction cs as [|c cs IH]; intros pm Hcs H; simpl; [exact H|].
  simpl in Hcs. apply andb_prop in Hcs. destruct Hcs as [Hc Hcs].
  apply IH; [exact Hcs|]. apply step_noFailure; [|exact H].
  simpl. now rewrite Hc.
Qed.

Lemma sums_agree (m : list GestureMetrics.t) : forall acc : float,
  Forall noFailure m ->
  fold_left (fun sum metrics => (sum + GestureMetrics.successCount metrics)%float) m acc
  = fold_left (fun sum metrics => (sum + GestureMetrics.count metrics)%float) m acc.
Proof.
  induction m as [|a m IH]; intros acc H; simpl; [reflexivity|].
  inversion H as [|? ? [_ Ha] Hm]; subst. rewrite Ha. now apply IH.
Qed.

(** [0 / a] and [NaN / a] are never above zero. *)
Lemma zero_div_not_positive (a : float) : JS.gt (0 / a)%float 0 = false.
Proof.
  unfold JS.gt. rewrite FloatAxioms.ltb_spec, FloatAxioms.div_spec.
  change (Prim2SF 0) with (S754_zero false).
  destruct (Prim2SF a) as [s|s| |s m e]; reflexivity.
Qed.

Lemma nan_div_not_positive (a : float) : JS.gt (nan / a)%float 0 = false.
Proof.
  unfold JS.gt. rewrite FloatAxioms.ltb_spec, FloatAxioms.div_spec.
  change (Prim2SF nan) with S754_nan. reflexivity.
Qed.

(** X14.  A monitor that was only ever told of successes, as the touch control
    manager's is, counts no failure for any gesture type, and the error rate
    it reports is never above zero. *)
Theorem only_successes_no_error_rate (cs : list call) :
  onlySuccesses cs = true ->
  let pm := run cs create in
  (forall gestureType metrics,
     getGestureMetrics gestureType pm = Some metrics ->
     GestureMetrics.errorCount metrics = 0%float /\
     GestureMetrics.successCount metrics = GestureMetrics.count metrics) /\
  JS.gt (PerformanceMetrics.errorRate (getMetrics pm)) 0 = false.
Proof.
  intros Hcs pm.
  assert (H : Forall (fun e => noFailure (snd e)) (gestureMetrics pm)).
  { apply run_noFailure; [exact Hcs|].
    repeat constructor. }
  split.
  - intros g metrics Hget. exact (@get_Forall noFailure _ _ _ H Hget).
  - unfold getMetrics. simpl.
    assert (Hsum : successfulGestures pm = totalGestures pm).
    { unfold successfulGestures, totalGestures, sumOver. apply sums_agree.
      unfold JSMap.values. apply Forall_map. exact H. }
    rewrite Hsum.
    destruct (JS.gt (totalGestures pm) 0); [|reflexivity].
    destruct (FloatFacts.sub_self (totalGestures pm)) as [-> | ->].
    + apply zero_div_not_positive.
    + apply nan_div_not_positive.
Qed.

Lemma only_successes_no_error_rate_witness :
  JS.gt (PerformanceMetrics.errorRate
           (getMetrics (run [RecordGesture TAP true None; Reset;
                             RecordGesture PAN true (Some 12%float)] create))) 0 = false.
Proof.
  apply (@only_successes_no_error_rate
           [RecordGesture TAP true None; Reset; RecordGesture PAN true (Some 12%float)]
           eq_refl).
Defined.

End PerformanceMonitorProperties.

(* ================================================================== *)
(** * Further properties of the performance optimizer *)
(* ================================================================== *)

Module PerformanceOptimizerProperties.

Import PerformanceOptimizer.

Section WithData.

Variable Data : Type.

Abbreviation entry := (string * CacheEntry Data)%type.

(** ** The pool *)

(** X15.  The pool is a stack: with pooling enabled and the pool under its
    capacity, an object released (one the pool does not hold already) is the
    next one handed out.  When the object's [reset] is code of the caller
    that returns and leaves pooling enabled, the object comes back as that
    [reset] left it, and so does the optimizer.  For an object with the
    pool's own [reset] (it comes back with its five fields zeroed) and for an
    object without [reset] (it comes back as it is), the two calls together
    leave the optimizer exactly as it was. *)
Theorem released_object_is_handed_out_next
        (callerReset : nat -> PooledObject.t -> t Data -> ResetRun Data)
        (obj : PooledObject.t) (o : t Data) :
  OptimizationConfig.enableMemoryPooling (config o) = true ->
  (Z.of_nat (List.length (memoryPool o)) < OptimizationConfig.memoryPoolSize (config o))%Z ->
  (forall code : nat,
     PooledObject.reset obj = Some (PooledObject.CallerReset code) ->
     let run := callerReset code obj o in
     outcome run = ResetReturned ->
     OptimizationConfig.enableMemoryPooling (config (optimizer run)) = true ->
     getPooledObject (snd (returnPooledObject callerReset obj o))
     = (object run, optimizer run)) /\
  (PooledObject.reset obj = Some PooledObject.PoolReset ->
   getPooledObject (snd (returnPooledObject callerReset obj o))
   = (PooledObject.make PooledFields.zero (Some PooledObject.PoolReset), o)) /\
  (PooledObject.reset obj = None ->
   getPooledObject (snd (returnPooledObject callerReset obj o)) = (obj, o)).
Proof.
  intros Hon Hunder.
  assert (Hpop : forall (x : PooledObject.t) (o' : t Data),
             OptimizationConfig.enableMemoryPooling (config o') = true ->
             getPooledObject (set_memoryPool (memoryPool o' ++ [x]) o') = (x, o')).
  { intros x o' Hon'. unfold getPooledObject. simpl. rewrite Hon'. simpl.
    rewrite length_app. simpl.
    replace (0 <? Z.of_nat (List.length (memoryPool o') + 1))%Z with true
      by (symmetry; apply Z.ltb_lt; lia).
    rewrite rev_app_distr. simpl. rewrite rev_involutive.
    destruct o'; reflexivity. }
  apply Z.ltb_lt in Hunder. unfold returnPooledObject, callReset.
  rewrite Hon, Hunder. simpl. split; [|split].
  - intros code Hreset Hret Hon'. rewrite Hreset.
    rewrite Hret. now apply Hpop.
  - intros Hreset. rewrite Hreset. simpl. now apply Hpop.
  - intros Hreset. rewrite Hreset. simpl. now apply Hpop.
Qed.

Lemma reset_pool (o : t Data) :
  memoryPool (reset o)
  = memoryPool o
    ++ (if OptimizationConfig.enableMemoryPooling (config o)
        then repeat createPooledObject
                    (Z.to_nat (OptimizationConfig.memoryPoolSize (config o)))
        else []) /\
  config (reset o) = config o /\
  gestureCache (reset o) = [].
Proof.
  unfold reset, initializeMemoryPool. simpl.
  destruct (OptimizationConfig.enableMemoryPooling (config o)); simpl;
    rewrite ?app_nil_r; auto.
Qed.

Lemma iter_reset (k : nat) (cfg : OptimizationConfig.t) :
  let o := Nat.iter k (@reset Data) (create Data cfg) in
  config o = cfg /\
  List.length (memoryPool o)
  = (if OptimizationConfig.enableMemoryPooling cfg
     then S k * Z.to_nat (OptimizationConfig.memoryPoolSize cfg) else 0)%nat.
Proof.
  induction k as [|k IH]; simpl.
  - unfold create, initializeMemoryPool. simpl.
    destruct (OptimizationConfig.enableMemoryPooling cfg); simpl; [|auto].
    rewrite repeat_length. split; [reflexivity | lia].
  - simpl in IH. destruct IH as [Hc Hl].
    destruct (reset_pool (Nat.iter k (@reset Data) (create Data cfg))) as (Hp & Hc' & _).
    rewrite Hc', Hp, length_app, Hl, Hc. split; [reflexivity|].
    destruct (OptimizationConfig.enableMemoryPooling cfg); simpl; [|reflexivity].
    rewrite repeat_length. lia.
Qed.

(** X16.  [reset()] empties the cache but not the pool: it pushes [memoryPoolSize]
    new objects onto the pool as it is.  After [k] resets a new optimizer
    with pooling enabled holds [k + 1] times its capacity. *)
Theorem reset_grows_the_pool (k : nat) (cfg : OptimizationConfig.t) :
  let o := Nat.iter k (@reset Data) (create Data cfg) in
  List.length (memoryPool o)
  = (if OptimizationConfig.enableMemoryPooling cfg
     then (k + 1) * Z.to_nat (OptimizationConfig.memoryPoolSize cfg) else 0)%nat /\
  gestureCache (reset o) = [] /\
  memoryPool (reset o)
  = memoryPool o
    ++ (if OptimizationConfig.enableMemoryPooling cfg
        then repeat createPooledObject (Z.to_nat (OptimizationConfig.memoryPoolSize cfg))
        else []).
Proof.
  simpl. destruct (iter_reset k cfg) as [Hc Hl].
  destruct (reset_pool (Nat.iter k (@reset Data) (create Data cfg))) as (Hp & _ & Hcache).
  rewrite Hc in Hp. rewrite Hl. replace (k + 1)%nat with (S k) by lia. auto.
Qed.


(** ** [updateConfig] *)

Lemma evictOldestCacheEntry_frame (o : t Data) :
  config (evictOldestCacheEntry o) = config o /\
  memoryPool (evictOldestCacheEntry o) = memoryPool o.
Proof.
  unfold evictOldestCacheEntry.
  destruct (scanOldest (gestureCache o) None) as [[k e]|]; [|auto].
  destruct (truthyString k); auto.
Qed.

Lemma iter_evict_frame (n : nat) (o : t Data) :
  config (Nat.iter n (@evictOldestCacheEntry Data) o) = config o /\
  memoryPool (Nat.iter n (@evictOldestCacheEntry Data) o) = memoryPool o.
Proof.
  induction n as [|n IH]; simpl; [auto|].
  destruct (evictOldestCacheEntry_frame (Nat.iter n (@evictOldestCacheEntry Data) o))
    as [-> ->]. exact IH.
Qed.

Lemma shrinkCache_frame newConfig (o : t Data) :
  config (shrinkCache newConfig o) = config o /\
  memoryPool (shrinkCache newConfig o) = memoryPool o.
Proof.
  unfold shrinkCache.
  destruct (PartialOptimizationConfig.maxCacheSize newConfig) as [newMax|]; [|auto].
  destruct (_ && _); [apply iter_evict_frame | auto].
Qed.

(** X17.  [updateConfig] with a pool size of at least 1 leaves exactly that many
    objects in the pool, whether or not pooling is enabled: missing objects
    are created, surplus objects are dropped from the end.  A pool size of 0
    is not acted on (the pool stays, above the new capacity), and a negative
    one removes that many objects from the end of the pool. *)
Theorem updateConfig_resizes_the_pool
        (newConfig : PartialOptimizationConfig.t) (n : Z) (o : t Data) :
  PartialOptimizationConfig.memoryPoolSize newConfig = Some n ->
  let o' := updateConfig newConfig o in
  OptimizationConfig.memoryPoolSize (config o') = n /\
  ((1 <= n)%Z ->
   List.length (memoryPool o') = Z.to_nat n /\
   exists created,
     firstn (Z.to_nat n) (memoryPool o ++ repeat createPooledObject created)
     = memoryPool o') /\
  (n = 0%Z -> memoryPool o' = memoryPool o) /\
  ((n < 0)%Z ->
   memoryPool o'
   = firstn (List.length (memoryPool o) - Z.to_nat (- n)) (memoryPool o)).
Proof.
  intros Hn. simpl. unfold updateConfig.
  destruct (shrinkCache_frame newConfig
              (resizePool newConfig
                 (make (mergeConfig (config o) newConfig) (gestureCache o) (memoryPool o))))
    as [-> ->].
  unfold resizePool. rewrite Hn. simpl.
  set (len := List.length (memoryPool o)).
  split; [|split; [|split]].
  - destruct (n =? 0)%Z; [|destruct (Z.of_nat len <? n)%Z; [|destruct (n <? Z.of_nat len)%Z]];
      simpl; unfold mergeConfig; simpl; now rewrite Hn.
  - intros Hpos.
    destruct (Z.eqb_spec n 0); [lia|].
    destruct (Z.ltb_spec (Z.of_nat len) n); simpl.
    + split.
      * rewrite length_app, repeat_length. fold len. lia.
      * exists (Z.to_nat (n - Z.of_nat len)).
        apply firstn_all2. rewrite length_app, repeat_length. fold len. lia.
    + destruct (Z.ltb_spec n (Z.of_nat len)); simpl.
      * unfold spliceFrom. fold len.
        destruct (Z.ltb_spec n 0); [lia|].
        rewrite Z.min_l by lia. split.
        -- rewrite length_firstn. fold len. lia.
        -- exists 0%nat. simpl. now rewrite app_nil_r.
      * split; [fold len; lia|].
        exists 0%nat. simpl. rewrite app_nil_r. apply firstn_all2. fold len. lia.
  - intros ->. reflexivity.
  - intros Hneg.
    destruct (Z.eqb_spec n 0); [lia|].
    destruct (Z.ltb_spec (Z.of_nat len) n); [lia|].
    destruct (Z.ltb_spec n (Z.of_nat len)); simpl.
    + unfold spliceFrom. fold len.
      destruct (Z.ltb_spec n 0); [|lia].
      f_equal. lia.
    + assert (len = 0%nat) by lia.
      destruct (memoryPool o); [reflexivity | discriminate].
Qed.


Abbreviation stamp := (@PerformanceOptimizerClaims.stamp Data).

Definition keyed (m : list entry) : Prop :=
  NoDup (JSMap.keys m) /\ forall k, In k (JSMap.keys m) -> truthyString k = true.

Lemma keyed_unique (m : list entry) (e r : entry) :
  NoDup (JSMap.keys m) -> In e m -> In r m -> fst e = fst r -> e = r.
Proof.
  unfold JSMap.keys. induction m as [|a m IH]; simpl; intros Hnd He Hr Hk; [tauto|].
  inversion Hnd as [|? ? Hnot Hnd']; subst.
  destruct He as [-> | He], Hr as [-> | Hr]; auto.
  - exfalso. apply Hnot. rewrite Hk. now apply in_map.
  - exfalso. apply Hnot. rewrite <- Hk. now apply in_map.
Qed.

(** One eviction from a cache that is not empty removes one entry, one that
    no entry of the cache is strictly older than. *)
Lemma evictOldestCacheEntry_one (o : t Data) :
  gestureCache o <> [] -> keyed (gestureCache o) ->
  exists older r newer,
    gestureCache o = older ++ r :: newer /\
    gestureCache (evictOldestCacheEntry o) = older ++ newer /\
    forall e, In e (gestureCache o) -> JS.lt (stamp e) (stamp r) = false.
Proof.
  intros Hne [Hnd Hkeys].
  destruct (PerformanceOptimizerClaims.scanOldest_nonempty Hne) as (r & Hscan & Hin & Hmin).
  destruct (@PerformanceOptimizerClaims.delete_entry Data (gestureCache o) r Hnd Hin)
    as (older & newer & Hsplit & Hdel).
  exists older, r, newer. split; [exact Hsplit|]. split; [|exact Hmin].
  unfold evictOldestCacheEntry. rewrite Hscan. destruct r as [k v]. simpl in *.
  rewrite (Hkeys k); [simpl; exact Hdel|].
  unfold JSMap.keys. rewrite Hsplit, map_app. apply in_or_app. right. simpl. auto.
Qed.

Lemma keyed_remove (older newer : list entry) (r : entry) :
  keyed (older ++ r :: newer) -> keyed (older ++ newer).
Proof.
  unfold keyed, JSMap.keys. rewrite !map_app. simpl. intros [Hnd Hkeys]. split.
  - exact (NoDup_remove_1 _ _ _ Hnd).
  - intros k Hk. apply Hkeys. apply in_app_or in Hk. apply in_or_app. simpl. tauto.
Qed.

Lemma iter_evict (k : nat) (o : t Data) :
  (k <= List.length (gestureCache o))%nat -> keyed (gestureCache o) ->
  let o' := Nat.iter k (@evictOldestCacheEntry Data) o in
  (List.length (gestureCache o') + k = List.length (gestureCache o))%nat /\
  keyed (gestureCache o') /\
  (forall s, In s (gestureCache o') -> In s (gestureCache o)) /\
  (forall e s,
     In e (gestureCache o) -> ~ In (fst e) (JSMap.keys (gestureCache o')) ->
     In s (gestureCache o') -> JS.lt (stamp s) (stamp e) = false).
Proof.
  intros Hk Hkeyed. induction k as [|k IH]; simpl.
  - split; [lia|]. split; [exact Hkeyed|]. split; [auto|].
    intros e s He Hnot. exfalso. apply Hnot. unfold JSMap.keys. now apply in_map.
  - destruct IH as (Hlen & Hkeyed' & Hsub & Hold); [lia|]. simpl in *.
    set (ok := Nat.iter k (@evictOldestCacheEntry Data) o) in *.
    assert (Hne : gestureCache ok <> []).
    { intros E. rewrite E in Hlen. simpl in Hlen. lia. }
    destruct (@evictOldestCacheEntry_one ok Hne Hkeyed') as (older & r & newer & Hsplit & Hev & Hmin).
    rewrite Hev. rewrite Hsplit in Hlen, Hkeyed', Hsub, Hold.
    split; [rewrite length_app in *; simpl in Hlen; lia|].
    split; [exact (@keyed_remove older newer r Hkeyed')|].
    split.
    { intros s Hs. apply Hsub. apply in_app_or in Hs. apply in_or_app. simpl. tauto. }
    intros e s He Hnot Hs.
    assert (Hs' : In s (older ++ r :: newer)).
    { apply in_app_or in Hs. apply in_or_app. simpl. tauto. }
    destruct (in_dec string_dec (fst e) (JSMap.keys (older ++ r :: newer))) as [Hin | Hout].
    + assert (Her : fst e = fst r).
      { unfold JSMap.keys in Hin, Hnot. rewrite map_app in Hin, Hnot. simpl in Hin.
        apply in_app_or in Hin. destruct Hin as [Hin | [Hin | Hin]]; auto;
          exfalso; apply Hnot, in_or_app; tauto. }
      assert (e = r).
      { apply (@keyed_unique (gestureCache o)); auto.
        - exact (proj1 Hkeyed).
        - apply Hsub, in_or_app. simpl. tauto. }
      subst e. apply Hmin. rewrite Hsplit. exact Hs'.
    + exact (Hold e s He Hout Hs').
Qed.

(** X18.  [updateConfig] with a cache limit of at least 1 that is below the size of
    the cache evicts down to the limit, oldest entries first: afterwards the
    cache holds [maxCacheSize] of its entries, and no entry that stays is
    strictly older than one that went.  A cache within the limit is left as
    it is.  (The keys of the cache are pairwise different and not empty.) *)
Theorem updateConfig_shrinks_the_cache
        (newConfig : PartialOptimizationConfig.t) (n : Z) (o : t Data) :
  PartialOptimizationConfig.maxCacheSize newConfig = Some n ->
  (1 <= n)%Z ->
  NoDup (JSMap.keys (gestureCache o)) ->
  (forall k, In k (JSMap.keys (gestureCache o)) -> truthyString k = true) ->
  let o' := updateConfig newConfig o in
  JSMap.size (gestureCache o') = Z.min (JSMap.size (gestureCache o)) n /\
  (forall s, In s (gestureCache o') -> In s (gestureCache o)) /\
  (forall e s,
     In e (gestureCache o) -> ~ In (fst e) (JSMap.keys (gestureCache o')) ->
     In s (gestureCache o') -> JS.lt (stamp s) (stamp e) = false) /\
  ((JSMap.size (gestureCache o) <= n)%Z -> gestureCache o' = gestureCache o).
Proof.
  intros Hn Hpos Hnd Hkeys. simpl. unfold updateConfig.
  set (o1 := resizePool newConfig
               (make (mergeConfig (config o) newConfig) (gestureCache o) (memoryPool o))).
  assert (Hcache : gestureCache o1 = gestureCache o).
  { unfold o1, resizePool.
    destruct (PartialOptimizationConfig.memoryPoolSize newConfig) as [size|]; [|reflexivity].
    destruct (size =? 0)%Z; [reflexivity|].
    destruct (_ <? size)%Z; [reflexivity|]. destruct (size <? _)%Z; reflexivity. }
  unfold shrinkCache. rewrite Hn, Hcache. unfold JSMap.size.
  set (len := List.length (gestureCache o)).
  destruct (Z.eqb_spec n 0); [lia|]. simpl.
  destruct (Z.ltb_spec n (Z.of_nat len)).
  - assert (Hk : (Z.to_nat (Z.of_nat len - n) <= List.length (gestureCache o1))%nat)
      by (rewrite Hcache; fold len; lia).
    assert (Hkeyed : keyed (gestureCache o1)) by (rewrite Hcache; split; assumption).
    destruct (@iter_evict _ o1 Hk Hkeyed) as (Hlen & _ & Hsub & Hold).
    simpl in *. rewrite Hcache in Hlen, Hsub, Hold. fold len in Hlen.
    split; [lia|]. split; [exact Hsub|]. split; [exact Hold|]. lia.
  - rewrite Hcache. fold len. split; [lia|]. split; [auto|]. split; [|auto].
    intros e s He Hnot. exfalso. apply Hnot. unfold JSMap.keys. now apply in_map.
Qed.


(** ** The cache *)

Lemma evictOldestCacheEntry_config (o : t Data) :
  config (evictOldestCacheEntry o) = config o.
Proof. apply evictOldestCacheEntry_frame. Qed.

(** X19.  A result cached under a key is what the next lookup of that key returns,
    whatever had to be evicted to make room; with caching disabled nothing is
    stored and every lookup answers [null]. *)
Theorem cached_result_is_found (k : string) (result : Data) (now : float) (o : t Data) :
  fst (getCachedGestureResult k (cacheGestureResult k result now o))
  = (if OptimizationConfig.enableGestureCaching (config o) then Some result else None) /\
  (OptimizationConfig.enableGestureCaching (config o) = false ->
   cacheGestureResult k result now o = o /\
   forall k', getCachedGestureResult k' o = (None, o)).
Proof.
  unfold getCachedGestureResult, cacheGestureResult.
  destruct (OptimizationConfig.enableGestureCaching (config o)) eqn:Hon; simpl.
  - split; [|discriminate].
    assert (Hc : OptimizationConfig.enableGestureCaching
                   (config (if (OptimizationConfig.maxCacheSize (config o)
                                <=? JSMap.size (gestureCache o))%Z
                            then evictOldestCacheEntry o else o)) = true).
    { destruct (_ <=? _)%Z; [rewrite evictOldestCacheEntry_config|]; exact Hon. }
    rewrite Hc. simpl.
    rewrite (JSMapFacts.get_set_same JSMapFacts.String_eqb_eq). reflexivity.
  - rewrite Hon. simpl. auto.
Qed.

(** X20.  A lookup changes no answer: after [getCachedGestureResult] for a key,
    every key is looked up with the same result as before, and the cache has
    the same keys in the same order. *)
Theorem lookup_changes_no_answer (k k' : string) (o : t Data) :
  let o' := snd (getCachedGestureResult k o) in
  fst (getCachedGestureResult k' o') = fst (getCachedGestureResult k' o) /\
  JSMap.keys (gestureCache o') = JSMap.keys (gestureCache o) /\
  config o' = config o /\
  memoryPool o' = memoryPool o.
Proof.
  simpl. unfold getCachedGestureResult.
  destruct (OptimizationConfig.enableGestureCaching (config o)) eqn:Hon; simpl;
    [|rewrite Hon; auto].
  destruct (JSMap.get String.eqb k (gestureCache o)) as [e|] eqn:Hget; simpl;
    rewrite Hon; simpl; [|auto].
  split; [|split; [exact (JSMapFacts.keys_set_present k _ Hget) | auto]].
  destruct (string_dec k k') as [<- | Hne].
  - rewrite (JSMapFacts.get_set_same JSMapFacts.String_eqb_eq), Hget. reflexivity.
  - rewrite (JSMapFacts.get_set_other JSMapFacts.String_eqb_eq) by exact Hne.
    now destruct (JSMap.get String.eqb k' (gestureCache o)).
Qed.

(** ** The size of the cache *)

(** No result is cached under the empty key. *)
Definition nonEmptyKeys (cs : list (cacheCall Data)) : bool :=
  forallb (fun c => match c with
                    | Cache k _ _ => truthyString k
                    | Lookup _ => true
                    end) cs.

Definition bounded (o : t Data) : Prop :=
  keyed (gestureCache o) /\
  (JSMap.size (gestureCache o) <= OptimizationConfig.maxCacheSize (config o))%Z.

Lemma length_set (k : string) (v : CacheEntry Data) (m : list entry) :
  (List.length (JSMap.set String.eqb k v m) <= S (List.length m))%nat.
Proof.
  induction m as [|[k' v'] m IH]; simpl; [lia|].
  destruct (String.eqb k' k); simpl; lia.
Qed.

Lemma keyed_set (k : string) (v : CacheEntry Data) (m : list entry) :
  truthyString k = true -> keyed m -> keyed (JSMap.set String.eqb k v m).
Proof.
  intros Hk [Hnd Hkeys]. split.
  - now apply PerformanceOptimizerClaims.set_keys_NoDup.
  - intros j Hj.
    destruct (JSMap.get String.eqb k m) as [w|] eqn:Hget.
    + rewrite (JSMapFacts.keys_set_present k v Hget) in Hj. auto.
    + rewrite (JSMapFacts.set_absent k v Hget) in Hj.
      unfold JSMap.keys in Hj. rewrite map_app in Hj. apply in_app_or in Hj.
      destruct Hj as [Hj | [<- | []]]; auto.
Qed.

Lemma cacheStep_bounded (c : cacheCall Data) (o : t Data) :
  (1 <= OptimizationConfig.maxCacheSize (config o))%Z ->
  nonEmptyKeys [c] = true -> bounded o ->
  bounded (cacheStep c o) /\ config (cacheStep c o) = config o.
Proof.
  intros Hmax Hc [Hkeyed Hsize]. destruct c as [k result now | k]; simpl.
  - simpl in Hc. rewrite andb_true_r in Hc.
    unfold cacheGestureResult.
    destruct (OptimizationConfig.enableGestureCaching (config o)); simpl;
      [|split; [split; assumption | reflexivity]].
    unfold JSMap.size in *.
    destruct (Z.leb_spec (OptimizationConfig.maxCacheSize (config o))
                         (Z.of_nat (List.length (gestureCache o)))) as [Hfull | Hroom].
    + assert (Hne : gestureCache o <> []).
      { intros E. rewrite E in Hfull. simpl in Hfull. lia. }
      destruct (@evictOldestCacheEntry_one o Hne Hkeyed)
        as (older & r & newer & Hsplit & Hev & _).
      rewrite evictOldestCacheEntry_config, Hev.
      split; [|reflexivity]. split.
      * apply keyed_set; [exact Hc|]. rewrite Hsplit in Hkeyed.
        exact (@keyed_remove older newer r Hkeyed).
      * simpl. pose proof (length_set k (mkCacheEntry k result now 0) (older ++ newer)).
        rewrite Hsplit in Hsize. rewrite length_app in *. simpl in Hsize.
        rewrite evictOldestCacheEntry_config. unfold JSMap.size. lia.
    + split; [|reflexivity]. split.
      * now apply keyed_set.
      * simpl. pose proof (length_set k (mkCacheEntry k result now 0) (gestureCache o)).
        unfold JSMap.size. lia.
  - unfold getCachedGestureResult.
    destruct (OptimizationConfig.enableGestureCaching (config o)); simpl;
      [|split; [split; assumption | reflexivity]].
    destruct (JSMap.get String.eqb k (gestureCache o)) as [e|] eqn:Hget; simpl;
      [|split; [split; assumption | reflexivity]].
    split; [|reflexivity]. destruct Hkeyed as [Hnd Hkeys]. split; [split|].
    + now apply PerformanceOptimizerClaims.set_keys_NoDup.
    + intros j Hj. simpl in Hj. rewrite (JSMapFacts.keys_set_present k _ Hget) in Hj. auto.
    + simpl. unfold JSMap.size in *.
      assert (Hl : List.length (JSMap.keys (JSMap.set String.eqb k
                     (mkCacheEntry (key e) (data e) (timestamp e) (accessCount e + 1)%float)
                     (gestureCache o)))
                   = List.length (JSMap.keys (gestureCache o)))
        by (now rewrite (JSMapFacts.keys_set_present k _ Hget)).
      unfold JSMap.keys in Hl. rewrite !length_map in Hl. lia.
Qed.

Lemma cacheRun_bounded (cs : list (cacheCall Data)) : forall o : t Data,
  (1 <= OptimizationConfig.maxCacheSize (config o))%Z ->
  nonEmptyKeys cs = true -> bounded o ->
  bounded (cacheRun cs o) /\ config (cacheRun cs o) = config o.
Proof.
  unfold cacheRun. induction cs as [|c cs IH]; intros o Hmax Hcs Hb; simpl; [auto|].
  simpl in Hcs. apply andb_prop in Hcs. destruct Hcs as [Hc Hcs].
  destruct (@cacheStep_bounded c o Hmax) as [Hb' Hcfg]; [simpl; now rewrite Hc | exact Hb |].
  destruct (IH (cacheStep c o)) as [Hb'' Hcfg'']; [now rewrite Hcfg | exact Hcs | exact Hb' |].
  split; [exact Hb'' | congruence].
Qed.

(** X21.  With a limit that is a whole number, at least 1, and no result
    cached under the empty key, the cache of an optimizer never holds more
    than [maxCacheSize] entries, whatever results are cached and looked up
    under the configuration the optimizer was constructed with.  (A limit
    that is not a whole number is outside the model.) *)
Theorem cache_never_exceeds_limit (cfg : OptimizationConfig.t) (cs : list (cacheCall Data)) :
  (1 <= OptimizationConfig.maxCacheSize cfg)%Z ->
  nonEmptyKeys cs = true ->
  (JSMap.size (gestureCache (cacheRun cs (create Data cfg)))
   <= OptimizationConfig.maxCacheSize cfg)%Z.
Proof.
  intros Hmax Hcs.
  assert (Hcfg : config (create Data cfg) = cfg)
    by apply PerformanceOptimizerClaims.create_config.
  assert (Hcache : gestureCache (create Data cfg) = []).
  { unfold create, initializeMemoryPool. simpl.
    destruct (OptimizationConfig.enableMemoryPooling cfg); reflexivity. }
  destruct (@cacheRun_bounded cs (create Data cfg)) as [[_ Hsize] Hc].
  - now rewrite Hcfg.
  - exact Hcs.
  - unfold bounded. rewrite Hcache, Hcfg. split; [split; [constructor | intros k []]|]. unfold JSMap.size. simpl. lia.
  - now rewrite Hc, Hcfg in Hsize.
Qed.

End WithData.

(** An optimizer with a pool of two objects out of three. *)
Definition twoOfThree : t nat :=
  snd (getPooledObject
         (create nat (OptimizationConfig.make true true true true 2 3 10 0.8))).

(** A caller's object whose [reset] writes 9 to the five fields. *)
Definition nines : PooledObject.t :=
  PooledObject.make (PooledFields.make 1 2 3 4 5) (Some (PooledObject.CallerReset 0)).

Definition writesNines (code : nat) (obj : PooledObject.t) (o : t nat) : ResetRun nat :=
  mkResetRun ResetReturned
             (PooledObject.make (PooledFields.make 9 9 9 9 9) (PooledObject.reset obj)) o.

Lemma released_object_is_handed_out_next_witness :
  getPooledObject (snd (returnPooledObject writesNines nines twoOfThree))
  = (PooledObject.make (PooledFields.make 9 9 9 9 9) (Some (PooledObject.CallerReset 0)),
     twoOfThree).
Proof.
  apply (proj1 (@released_object_is_handed_out_next nat writesNines nines twoOfThree
                  eq_refl ltac:(vm_compute; reflexivity)) 0%nat eq_refl eq_refl eq_refl).
Defined.

(** A new configuration that sets the two sizes. *)
Definition newSizes (maxCacheSize memoryPoolSize : Z) : PartialOptimizationConfig.t :=
  PartialOptimizationConfig.make None None None None
    (Some maxCacheSize) (Some memoryPoolSize) None None.

Lemma updateConfig_resizes_the_pool_witness :
  List.length (memoryPool (updateConfig (newSizes 1 5) twoOfThree)) = 5%nat.
Proof.
  apply (proj1 (proj2 (@updateConfig_resizes_the_pool nat (newSizes 1 5) 5 twoOfThree
                         eq_refl))).
  lia.
Defined.

(** A cache of two entries, the older one under the key a. *)
Definition twoCached : t nat :=
  cacheGestureResult "b" 2%nat 2%float (cacheGestureResult "a" 1%nat 1%float twoOfThree).

Lemma twoCached_keys :
  NoDup (JSMap.keys (gestureCache twoCached)) /\
  forall k, In k (JSMap.keys (gestureCache twoCached)) -> truthyString k = true.
Proof.
  split.
  - repeat constructor; simpl; intuition discriminate.
  - intros k [<- | [<- | []]]; reflexivity.
Qed.

Lemma updateConfig_shrinks_the_cache_witness :
  JSMap.size (gestureCache (updateConfig (newSizes 1 5) twoCached)) = 1%Z.
Proof.
  apply (proj1 (@updateConfig_shrinks_the_cache nat (newSizes 1 5) 1 twoCached
                  eq_refl ltac:(lia) (proj1 twoCached_keys) (proj2 twoCached_keys))).
Defined.

Lemma cache_never_exceeds_limit_witness :
  (JSMap.size
     (gestureCache
        (cacheRun [Cache "a"%string 1%nat 1%float; Cache "b"%string 2%nat 2%float; Lookup "a"%string;
                   Cache "c"%string 3%nat 3%float; Cache "b"%string 4%nat 4%float]
                  (create nat (OptimizationConfig.make true true true true 2 3 10 0.8))))
   <= 2)%Z.
Proof.
  apply (@cache_never_exceeds_limit nat
           (OptimizationConfig.make true true true true 2 3 10 0.8)
           [Cache "a"%string 1%nat 1%float; Cache "b"%string 2%nat 2%float; Lookup "a"%string;
            Cache "c"%string 3%nat 3%float; Cache "b"%string 4%nat 4%float]).
  - simpl. lia.
  - reflexivity.
Defined.

(** ** The cache key hash *)

Lemma toInt32_range (z : Z) : (- 2 ^ 31 <= toInt32 z < 2 ^ 31)%Z.
Proof.
  unfold toInt32.
  pose proof (Z.mod_pos_bound (z + 2 ^ 31) (2 ^ 32) ltac:(lia)). lia.
Qed.

Lemma toInt32_congruent (a b : Z) :
  ((a - b) mod 2 ^ 32 = 0)%Z -> toInt32 a = toInt32 b.
Proof.
  unfold toInt32. intros H. f_equal.
  apply Z.mod_divide in H; [|lia]. destruct H as [q Hq].
  replace (a + 2 ^ 31)%Z with (b + 2 ^ 31 + q * 2 ^ 32)%Z by lia.
  apply Z.mod_add. lia.
Qed.

Lemma toInt32_self (z : Z) : ((toInt32 z - z) mod 2 ^ 32 = 0)%Z.
Proof.
  unfold toInt32.
  rewrite (Z.mod_eq (z + 2 ^ 31) (2 ^ 32)) by lia.
  replace (z + 2 ^ 31 - 2 ^ 32 * ((z + 2 ^ 31) / 2 ^ 32) - 2 ^ 31 - z)%Z
    with ((- ((z + 2 ^ 31) / 2 ^ 32)) * 2 ^ 32)%Z by lia.
  apply Z.mod_mul. lia.
Qed.

Lemma toInt32_idempotent (z : Z) : toInt32 (toInt32 z) = toInt32 z.
Proof. apply toInt32_congruent, toInt32_self. Qed.

Lemma hashStep_polynomial (hash char : Z) :
  hashStep (toInt32 hash) char = toInt32 (31 * hash + char).
Proof.
  unfold hashStep. rewrite Z.land_diag, toInt32_idempotent, Z.shiftl_mul_pow2 by lia.
  apply toInt32_congruent.
  pose proof (toInt32_self (toInt32 hash * 2 ^ 5)) as H1.
  pose proof (toInt32_self hash) as H2.
  apply Z.mod_divide in H1; [|lia]. apply Z.mod_divide in H2; [|lia].
  destruct H1 as [q1 H1], H2 as [q2 H2].
  apply Z.mod_divide; [lia|]. exists (q1 + 31 * q2)%Z. lia.
Qed.

Lemma fold_hashStep (str : list Z) : forall hash : Z,
  fold_left hashStep str (toInt32 hash)
  = toInt32 (fold_left (fun h c => (31 * h + c)%Z) str hash).
Proof.
  induction str as [|c str IH]; intros hash; simpl; [reflexivity|].
  rewrite hashStep_polynomial. apply IH.
Qed.

(** X22.  [hashTouchData] computes the polynomial hash with multiplier 31 of the
    string's code units, reduced to a signed 32-bit integer; the number it
    hands to [toString(36)] is therefore always between -2^31 and 2^31 - 1. *)
Theorem hashTouchData_polynomial (str : list Z) :
  hashTouchData str = toInt32 (fold_left (fun h c => (31 * h + c)%Z) str 0%Z) /\
  (- 2 ^ 31 <= hashTouchData str < 2 ^ 31)%Z.
Proof.
  assert (H : hashTouchData str = toInt32 (fold_left (fun h c => (31 * h + c)%Z) str 0%Z)).
  { unfold hashTouchData. exact (fold_hashStep str 0). }
  split; [exact H|]. rewrite H. apply toInt32_range.
Qed.

End PerformanceOptimizerProperties.

(* ================================================================== *)
(** * Properties of the memory manager *)
(* ================================================================== *)

Module MemoryManagerProperties.

Import MemoryManager.

(** X23.  Memory that is critical is also low; while it is critical the first two
    recommendations are the ones for critically high usage, and while it is
    low there is always a recommendation. *)
Theorem critical_memory_is_low (memoryStats : MemoryStats.t) :
  (isMemoryCritical memoryStats = true -> isMemoryLow memoryStats = true) /\
  (isMemoryCritical memoryStats = true ->
   firstn 2 (getMemoryRecommendations memoryStats)
   = ["Memory usage is critically high. Consider reducing cache sizes.";
      "Enable aggressive garbage collection."]%string) /\
  (isMemoryLow memoryStats = true -> getMemoryRecommendations memoryStats <> []).
Proof.
  unfold isMemoryCritical, isMemoryLow, getMemoryRecommendations, JS.gt, JS.pushIf.
  assert (H80 : PrimFloat.ltb 80 95 = true) by reflexivity.
  assert (H90 : PrimFloat.ltb 90 95 = true) by reflexivity.
  split; [|split].
  - intros H. exact (@FloatFacts.ltb_trans 80 95 _ H80 H).
  - intros H. rewrite (@FloatFacts.ltb_trans 90 95 _ H90 H).
    destruct (PrimFloat.ltb 10 (MemoryStats.gcCount memoryStats)); reflexivity.
  - intros H. rewrite H.
    destruct (PrimFloat.ltb 90 (MemoryStats.usage memoryStats)),
      (PrimFloat.ltb 10 (MemoryStats.gcCount memoryStats)); discriminate.
Qed.

End MemoryManagerProperties.

(* ================================================================== *)
(** * Properties of the feedback manager *)
(* ================================================================== *)

Module FeedbackManagerProperties.

Import FeedbackManager.

(** X24.  Whatever data it is given, [getHapticTypeForData] answers one of LIGHT,
    MEDIUM, HEAVY, SELECTION, IMPACT and ROTATION, and [getAudioTypeForData]
    one of TAP, DOUBLE_TAP, LONG_PRESS, SWIPE, PINCH and ROTATE: the SUCCESS,
    ERROR and WARNING feedback types are never produced.  The success, error
    and warning feedback are all the light haptic and the tap sound.  On a
    gesture event the haptic type is the one the touch control manager's
    dispatch logs. *)
Theorem success_feedback_types_are_never_produced (data : Data) (fm : t) :
  In (getHapticTypeForData data) [LIGHT; MEDIUM; HEAVY; SELECTION; IMPACT; ROTATION] /\
  In (getAudioTypeForData data)
     [AudioType.TAP; AudioType.DOUBLE_TAP; AudioType.LONG_PRESS; AudioType.SWIPE;
      AudioType.PINCH; AudioType.ROTATE] /\
  provideSuccessFeedback fm
  = (if hapticEnabled fm then [HapticFeedback LIGHT (feedbackIntensity fm)] else [])
    ++ (if audioEnabled fm then [AudioFeedback AudioType.TAP] else []) /\
  provideErrorFeedback fm = provideSuccessFeedback fm /\
  provideWarningFeedback fm = provideSuccessFeedback fm /\
  forall e : GestureEvent.t,
    getHapticTypeForData (WithType (GestureType_value (GestureEvent.type e)))
    = TouchControlManager.getHapticTypeForData e.
Proof.
  split; [|split; [|split; [|split; [|split]]]].
  - destruct data as [type|[]|]; simpl; auto 10.
    repeat match goal with
           | |- context [String.eqb ?a ?b] => destruct (String.eqb a b)
           end; simpl; auto 10.
  - destruct data as [type|[]|]; simpl; auto 10.
    repeat match goal with
           | |- context [String.eqb ?a ?b] => destruct (String.eqb a b)
           end; simpl; auto 10.
  - unfold provideSuccessFeedback, provideHapticFeedback, provideAudioFeedback.
    destruct (hapticEnabled fm), (audioEnabled fm); reflexivity.
  - reflexivity.
  - reflexivity.
  - intros e. unfold TouchControlManager.getHapticTypeForData.
    destruct (GestureEvent.type e); reflexivity.
Qed.

(** ** The intensity clamp *)

Lemma is_nan_nan : PrimFloat.is_nan nan = true.
Proof. reflexivity. Qed.

(** X25.  [setFeedbackIntensity] stores NaN for NaN and otherwise a number between
    0 and 1: numbers below 0 become 0, numbers above 1 become 1, and a number
    in the range is stored as it is (up to the sign of zero). *)
Theorem setFeedbackIntensity_clamps (intensity : float) (fm : t) :
  let stored := feedbackIntensity (setFeedbackIntensity intensity fm) in
  (PrimFloat.is_nan intensity = true -> PrimFloat.is_nan stored = true) /\
  (PrimFloat.is_nan intensity = false ->
   JS.le 0 stored = true /\ JS.le stored 1 = true) /\
  (JS.lt intensity 0 = true -> stored = 0%float) /\
  (JS.gt intensity 1 = true -> stored = 1%float) /\
  (JS.le 0 intensity = true -> JS.le intensity 1 = true ->
   PrimFloat.eqb stored intensity = true) /\
  hapticEnabled (setFeedbackIntensity intensity fm) = hapticEnabled fm /\
  audioEnabled (setFeedbackIntensity intensity fm) = audioEnabled fm /\
  visualEnabled (setFeedbackIntensity intensity fm) = visualEnabled fm.
Proof.
  simpl. unfold JS.le, JS.lt, JS.gt.
  assert (H01 : PrimFloat.ltb 0 1 = true) by reflexivity.
  (* the inner [Math.min(1, intensity)] *)
  assert (Hmin :
            JS.min 1 intensity
            = if PrimFloat.is_nan intensity then nan
              else if PrimFloat.ltb 1 intensity then 1%float else intensity).
  { unfold JS.min. change (PrimFloat.is_nan 1) with false. simpl.
    destruct (PrimFloat.is_nan intensity); [reflexivity|].
    destruct (PrimFloat.ltb 1 intensity); [reflexivity|].
    destruct (PrimFloat.ltb intensity 1); reflexivity. }
  (* the outer [Math.max(0, w)] *)
  assert (Hmax : forall w,
            JS.max 0 w
            = if PrimFloat.is_nan w then nan
              else if PrimFloat.ltb w 0 then 0%float
              else if PrimFloat.ltb 0 w then w else 0%float).
  { intros w. unfold JS.max. change (PrimFloat.is_nan 0) with false. simpl.
    destruct (PrimFloat.is_nan w); [reflexivity|].
    destruct (PrimFloat.ltb w 0); [reflexivity|].
    destruct (PrimFloat.ltb 0 w); reflexivity. }
  rewrite Hmax, Hmin.
  destruct (PrimFloat.is_nan intensity) eqn:Hnan.
  { rewrite is_nan_nan.
    repeat split; try discriminate; try reflexivity; intros H.
    - apply FloatFacts.ltb_not_nan in H. destruct H; congruence.
    - apply FloatFacts.ltb_not_nan in H. destruct H; congruence.
    - apply FloatFacts.leb_not_nan in H. destruct H; congruence. }
  destruct (PrimFloat.ltb 1 intensity) eqn:Hgt.
  { change (PrimFloat.is_nan 1) with false. change (PrimFloat.ltb 1 0) with false.
    change (PrimFloat.ltb 0 1) with true. cbv iota.
    repeat split; try discriminate; try reflexivity.
    - intros H. rewrite (FloatFacts.ltb_not_ltb (@FloatFacts.ltb_trans intensity 0 1 H H01)) in Hgt.
      discriminate.
    - intros _ H. rewrite (FloatFacts.leb_not_ltb H) in Hgt. discriminate. }
  rewrite Hnan.
  destruct (PrimFloat.ltb intensity 0) eqn:Hlt.
  { repeat split; try discriminate; try reflexivity.
    intros H. rewrite (FloatFacts.leb_not_ltb H) in Hlt. discriminate. }
  destruct (PrimFloat.ltb 0 intensity) eqn:Hpos.
  { repeat split; try discriminate; try reflexivity.
    - exact (FloatFacts.ltb_leb Hpos).
    - apply FloatFacts.not_ltb_leb; [reflexivity | exact Hnan | exact Hgt].
    - intros _ _. apply FloatFacts.eqb_refl, Hnan. }
  repeat split; try discriminate; try reflexivity.
  intros H _.
  apply FloatFacts.leb_antisym; [exact H|].
  apply FloatFacts.not_ltb_leb; [reflexivity | exact Hnan | exact Hpos].
Qed.

End FeedbackManagerProperties.

(* ================================================================== *)
(** * Further properties of the touch control manager *)
(* ================================================================== *)

Module TouchControlManagerProperties.

Import TouchControlManager.

(** ** The target registry *)

Lemma get_In_values {K V} (eqb : K -> K -> bool) k (v : V) (m : JSMap.t K V) :
  JSMap.get eqb k m = Some v -> In v (JSMap.values m).
Proof.
  unfold JSMap.values. induction m as [|[j w] m IH]; simpl; [discriminate|].
  destruct (eqb j k); [intros [= <-]; auto | auto].
Qed.

(** X26.  [registerTouchTarget] stores the target under its id whatever the
    validation warns about, replacing a target that had the id;
    [unregisterTouchTarget] removes it; the targets under other ids are not
    touched by either. *)
Theorem registered_target_is_stored
        (cfg : TouchControlConfig.t) (target : TouchTarget.t) (m : t) :
  let id := TouchTarget.id target in
  let m' := fst (registerTouchTarget cfg target m) in
  JSMap.get String.eqb id (touchTargets m') = Some target /\
  JSMap.get String.eqb id (touchTargets (unregisterTouchTarget id m')) = None /\
  (forall other : string,
     other <> id ->
     JSMap.get String.eqb other (touchTargets m') = JSMap.get String.eqb other (touchTargets m) /\
     JSMap.get String.eqb other (touchTargets (unregisterTouchTarget id m))
     = JSMap.get String.eqb other (touchTargets m)) /\
  (JSMap.get String.eqb id (touchTargets m) <> None ->
   JSMap.keys (touchTargets m') = JSMap.keys (touchTargets m)).
Proof.
  simpl. split; [|split; [|split]].
  - apply (JSMapFacts.get_set_same JSMapFacts.String_eqb_eq).
  - apply JSMapFacts.get_delete_same.
  - intros other Hne. split.
    + apply (JSMapFacts.get_set_other JSMapFacts.String_eqb_eq). congruence.
    + apply (JSMapFacts.get_delete_other JSMapFacts.String_eqb_eq). congruence.
  - intros H.
    destruct (JSMap.get String.eqb (TouchTarget.id target) (touchTargets m)) as [old|] eqn:E;
      [|congruence].
    exact (JSMapFacts.keys_set_present _ _ E).
Qed.

(** [v - v] is [+0] for a finite [v]. *)
Lemma sub_self_finite (v : float) : PrimFloat.is_finite v = true -> PrimFloat.sub v v = 0%float.
Proof.
  intros Hfin. destruct (FloatFacts.sub_self v) as [H | H]; [exact H|]. exfalso.
  unfold PrimFloat.is_finite, PrimFloat.is_infinity in Hfin.
  apply negb_true_iff, orb_false_iff in Hfin. destruct Hfin as [Hnan Hinf].
  apply FloatFacts.is_nan_cmp in Hnan.
  rewrite FloatAxioms.eqb_spec, FloatAxioms.abs_spec in Hinf.
  apply (f_equal Prim2SF) in H. rewrite FloatAxioms.sub_spec in H.
  change (Prim2SF nan) with S754_nan in H.
  change (Prim2SF infinity) with (S754_infinity false) in Hinf.
  destruct (Prim2SF v) as [s|s| |s m e]; unfold SF64sub in H; simpl in *.
  - destruct s; discriminate.
  - discriminate.
  - congruence.
  - rewrite Z.min_id in H.
    replace (cond_Zopp s (Z.pos (fst (shl_align m e e)))
             - cond_Zopp s (Z.pos (fst (shl_align m e e))))%Z with 0%Z in H by lia.
    discriminate.
Qed.

(** X27.  Registering a target again under its id, at the position it is
    registered at, warns that the target is too close to itself (whenever the
    required spacing is above zero): the validation compares the new target
    with the registry before the old entry is replaced. *)
Theorem registering_again_warns_against_itself
        (cfg : TouchControlConfig.t) (target old : TouchTarget.t) (m : t) :
  JSMap.get String.eqb (TouchTarget.id target) (touchTargets m) = Some old ->
  TouchTarget.id old = TouchTarget.id target ->
  TouchTarget.x old = TouchTarget.x target ->
  TouchTarget.y old = TouchTarget.y target ->
  PrimFloat.is_finite (TouchTarget.x target) = true ->
  PrimFloat.is_finite (TouchTarget.y target) = true ->
  JS.gt (TouchControlConfig.spacingBetweenTargets cfg) 0 = true ->
  In (TooCloseTogether (TouchTarget.id target) (TouchTarget.id target))
     (snd (registerTouchTarget cfg target m)).
Proof.
  intros Hget Hid Hx Hy Hfx Hfy Hspacing. simpl. unfold validateTouchTarget.
  apply in_or_app. right. apply in_flat_map. exists old.
  split; [exact (get_In_values _ _ _ Hget)|].
  unfold isTargetsTooClose. rewrite Hx, Hy, Hid.
  rewrite (sub_self_finite _ Hfx), (sub_self_finite _ Hfy).
  change (PrimFloat.sqrt (JS.pow2 0 + JS.pow2 0)%float) with 0%float.
  unfold JS.gt in Hspacing. unfold JS.lt. rewrite Hspacing. simpl. auto.
Qed.


Definition spaced (spacing : float) : TouchControlConfig.t :=
  TouchControlConfig.make 44 spacing defaultGestureConfig.

Definition button : TouchTarget.t :=
  TouchTarget.make "attack" 10 20 48 48 48 (Some "Attack"%string) None (Some "button"%string).

Lemma registering_again_warns_against_itself_witness :
  In (TooCloseTogether "attack" "attack")
     (snd (registerTouchTarget (spaced 8) button
             (fst (registerTouchTarget (spaced 8) button (create (spaced 8)))))).
Proof.
  apply (@registering_again_warns_against_itself (spaced 8) button button
           (fst (registerTouchTarget (spaced 8) button (create (spaced 8)))));
    reflexivity.
Defined.

(** ** The enabled switch *)

(** X28.  [setEnabled(false)] forgets the active touches and resets the recognizer,
    and while the manager is disabled [handleTouchStart] and [handleTouchEnd]
    do nothing.  Once enabled again, the next [handleTouchStart] starts a new
    gesture for its touch, whatever state the recognizer was in before the
    manager was disabled. *)
Theorem disabling_resets_the_recognizer
        (call : Listener -> GestureEvent.t -> t -> Outcome * t)
        (touch : TouchPoint.t) (now now' : float) (m : t) :
  let off := setEnabled false m in
  activeTouches off = [] /\
  GestureRecognizer.getCurrentState (gestureRecognizer off) = None /\
  GestureRecognizer.isProcessing (gestureRecognizer off) = false /\
  handleTouchStart touch now off = off /\
  handleTouchEnd call touch now now' off = (off, []) /\
  let on := handleTouchStart touch now (setEnabled true off) in
  isEnabled on = true /\
  activeTouches on = [(TouchPoint.identifier touch, touch)] /\
  GestureRecognizer.isProcessing (gestureRecognizer on) = true /\
  GestureRecognizer.getCurrentState (gestureRecognizer on)
  = Some (GestureState.make now [touch] [touch] 0 0 0 0 1 0 true false).
Proof.
  simpl. unfold handleTouchStart, handleTouchEnd, setEnabled. simpl. repeat split.
Qed.

(** ** Registration of gesture listeners *)

(** What [offGesture] does to a list: the first occurrence goes. *)
Fixpoint removeFirst (callback : Listener) (callbacks : list Listener) : list Listener :=
  match callbacks with
  | [] => []
  | c :: rest => if Nat.eqb callback c then rest else c :: removeFirst callback rest
  end.

(** Every gesture type has a callback array of its own. *)
Definition wired (m : t) : Prop :=
  (forall g, exists ref,
      JSMap.get GestureType_eqb g (gestureCallbacks m) = Some ref /\
      (ref < List.length (arrays m))%nat) /\
  (forall g g' ref,
      JSMap.get GestureType_eqb g (gestureCallbacks m) = Some ref ->
      JSMap.get GestureType_eqb g' (gestureCallbacks m) = Some ref -> g = g').

Lemma wired_create (cfg : TouchControlConfig.t) : wired (create cfg).
Proof.
  split.
  - intros g. destruct g; eexists; (split; [reflexivity | simpl; lia]).
  - intros g g' ref. destruct g; simpl; intros [= <-]; destruct g'; simpl; congruence.
Qed.

Lemma length_writeArray ref v (heap : list (list Listener)) :
  List.length (writeArray ref v heap) = List.length heap.
Proof. revert ref. induction heap as [|a heap IH]; intros [|ref]; simpl; auto. Qed.

Lemma nth_writeArray_other ref ref' v (heap : list (list Listener)) :
  ref <> ref' -> nth ref' (writeArray ref v heap) [] = nth ref' heap [].
Proof.
  revert ref ref'. induction heap as [|a heap IH]; intros [|ref] [|ref'] H; simpl;
    auto; congruence.
Qed.

Lemma writeArray_same ref (heap : list (list Listener)) :
  writeArray ref (nth ref heap []) heap = heap.
Proof.
  revert ref. induction heap as [|a heap IH]; intros [|ref]; simpl; auto.
  now rewrite IH.
Qed.

Lemma writeArray_twice ref v w (heap : list (list Listener)) :
  writeArray ref w (writeArray ref v heap) = writeArray ref w heap.
Proof.
  revert ref. induction heap as [|a heap IH]; intros [|ref]; simpl; auto.
  now rewrite IH.
Qed.

Lemma splice1_indexOf callback (callbacks : list Listener) :
  match indexOf callback callbacks with
  | Some index => splice1 index callbacks = removeFirst callback callbacks
  | None => removeFirst callback callbacks = callbacks
  end.
Proof.
  unfold indexOf. induction callbacks as [|c rest IH]; simpl; [reflexivity|].
  destruct (Nat.eqb callback c); [reflexivity|].
  destruct (JS.findIndex (Nat.eqb callback) rest); simpl; now rewrite IH.
Qed.

Lemma removeFirst_app_new callback (callbacks : list Listener) :
  ~ In callback callbacks -> removeFirst callback (callbacks ++ [callback]) = callbacks.
Proof.
  induction callbacks as [|c rest IH]; simpl; intros H.
  - now rewrite Nat.eqb_refl.
  - destruct (Nat.eqb_spec callback c) as [E|E]; [subst; tauto|].
    rewrite IH; tauto.
Qed.

Lemma wired_register (c : registration) (m : t) : wired m -> wired (register c m).
Proof.
  intros [Hrefs Hinj]. destruct c as [g callback | g callback]; simpl.
  - unfold onGesture. destruct (Hrefs g) as (ref & Hget & Hlt). rewrite Hget.
    split; simpl.
    + intros g'. destruct (Hrefs g') as (ref' & Hget' & Hlt').
      exists ref'. rewrite length_writeArray. auto.
    + exact Hinj.
  - unfold offGesture. destruct (Hrefs g) as (ref & Hget & Hlt). rewrite Hget.
    destruct (indexOf callback (array ref m)); [|split; assumption].
    split; simpl.
    + intros g'. destruct (Hrefs g') as (ref' & Hget' & Hlt').
      exists ref'. rewrite length_writeArray. auto.
    + exact Hinj.
Qed.

Lemma wired_registrations (cs : list registration) : forall m,
  wired m -> wired (registrations cs m).
Proof.
  unfold registrations. induction cs as [|c cs IH]; intros m H; simpl; [exact H|].
  apply IH, wired_register, H.
Qed.

Lemma register_lists (m : t) (g : GestureType) (callback : Listener) :
  wired m ->
  TouchControlManagerClaims.registered g (onGesture g callback m)
  = TouchControlManagerClaims.registered g m ++ [callback] /\
  TouchControlManagerClaims.registered g (offGesture g callback m)
  = removeFirst callback (TouchControlManagerClaims.registered g m) /\
  (forall g', g' <> g ->
     TouchControlManagerClaims.registered g' (onGesture g callback m)
     = TouchControlManagerClaims.registered g' m /\
     TouchControlManagerClaims.registered g' (offGesture g callback m)
     = TouchControlManagerClaims.registered g' m) /\
  (~ In callback (TouchControlManagerClaims.registered g m) ->
   offGesture g callback (onGesture g callback m) = m).
Proof.
  intros [Hrefs Hinj]. destruct (Hrefs g) as (ref & Hget & Hlt).
  unfold TouchControlManagerClaims.registered, onGesture, offGesture. rewrite Hget.
  assert (Hon : array ref (set_arrays (writeArray ref (array ref m ++ [callback]) (arrays m)) m)
                = array ref m ++ [callback]).
  { unfold array. simpl.
    now apply TouchControlManagerClaims.nth_writeArray. }
  split; [|split; [|split]].
  - simpl. rewrite Hget. exact Hon.
  - pose proof (splice1_indexOf callback (array ref m)) as Hsp.
    destruct (indexOf callback (array ref m)); simpl; rewrite Hget.
    + unfold array at 1. simpl. rewrite <- Hsp.
      now apply TouchControlManagerClaims.nth_writeArray.
    + now rewrite Hsp.
  - intros g' Hne. destruct (Hrefs g') as (ref' & Hget' & Hlt').
    assert (Href : ref <> ref').
    { intros <-. apply Hne. exact (Hinj _ _ _ Hget' Hget). }
    split.
    + simpl. rewrite Hget'. unfold array. simpl. now apply nth_writeArray_other.
    + destruct (indexOf callback (array ref m)); simpl; rewrite Hget'; [|reflexivity].
      unfold array. simpl. now apply nth_writeArray_other.
  - intros Hnew. simpl. rewrite Hget, Hon.
    pose proof (splice1_indexOf callback (array ref m ++ [callback])) as Hsp.
    destruct (indexOf callback (array ref m ++ [callback])) as [index|] eqn:Hidx.
    + rewrite Hsp, (removeFirst_app_new _ _ Hnew). simpl.
      rewrite writeArray_twice. unfold array. rewrite writeArray_same.
      destruct m; reflexivity.
    + exfalso. rewrite (removeFirst_app_new _ _ Hnew) in Hsp.
      apply (f_equal (@List.length Listener)) in Hsp. rewrite length_app in Hsp.
      simpl in Hsp. lia.
Qed.

(** X29.  On a manager that went through any registrations since it was created:
    [onGesture] appends the listener to the list of its gesture type, also
    when the listener is in the list already; [offGesture] removes the first
    occurrence of the listener from that list and does nothing when there is
    none; neither touches the list of another gesture type; and registering a
    listener that was not registered and removing it again leaves the manager
    exactly as it was. *)
Theorem onGesture_offGesture_lists
        (cfg : TouchControlConfig.t) (cs : list registration)
        (gestureType : GestureType) (callback : Listener) :
  let m := registrations cs (create cfg) in
  TouchControlManagerClaims.registered gestureType (onGesture gestureType callback m)
  = TouchControlManagerClaims.registered gestureType m ++ [callback] /\
  TouchControlManagerClaims.registered gestureType (offGesture gestureType callback m)
  = removeFirst callback (TouchControlManagerClaims.registered gestureType m) /\
  (forall other, other <> gestureType ->
     TouchControlManagerClaims.registered other (onGesture gestureType callback m)
     = TouchControlManagerClaims.registered other m /\
     TouchControlManagerClaims.registered other (offGesture gestureType callback m)
     = TouchControlManagerClaims.registered other m) /\
  (~ In callback (TouchControlManagerClaims.registered gestureType m) ->
   offGesture gestureType callback (onGesture gestureType callback m) = m).
Proof.
  simpl. apply register_lists, wired_registrations, wired_create.
Qed.

End TouchControlManagerProperties.


(* ================================================================== *)
(** * The repository's unit tests, on the model *)
(* ================================================================== *)

(** Expectations of the repository's test suites that the model meets; where
    an expectation and the code part ways (two start touches, a pinch scale
    above 1), the claims above say so. *)
Module RepositoryTests.

Import GestureRecognizer GestureRecognizerClaims.

Definition point (x y : float) (identifier : Z) : TouchPoint.t :=
  TouchPoint.make x y 0 None identifier.

(** TouchUtils: 'should calculate distance between two points', 'should
    return 0 for same points'. *)
Example test_calculateDistance :
  TouchUtils.calculateDistance (point 0 0 1) (point 3 4 2) = 5%float /\
  TouchUtils.calculateDistance (point 100 100 1) (point 100 100 1) = 0%float.
Proof. split; vm_compute; reflexivity. Qed.

(** TouchUtils: the four direction tests. *)
Example test_calculateGestureDirection :
  TouchUtils.calculateGestureDirection 10 5 = TouchUtils.right /\
  TouchUtils.calculateGestureDirection (-10) 5 = TouchUtils.left /\
  TouchUtils.calculateGestureDirection 5 10 = TouchUtils.down /\
  TouchUtils.calculateGestureDirection 5 (-10) = TouchUtils.up.
Proof. repeat split; vm_compute; reflexivity. Qed.

(** TouchUtils: 'should calculate gesture scale'. *)
Example test_calculateGestureScale :
  TouchUtils.calculateGestureScale
    [point 0 0 1; point 100 0 2] [point 0 0 1; point 200 0 2] = 2%float.
Proof. vm_compute. reflexivity. Qed.

(** GestureRecognizer: 'should handle touch start', 'should check if gesture
    is active', 'should reset gesture recognizer'. *)
Example test_isGestureActive :
  let r := create defaultGestureConfig in
  isGestureActive r = false /\
  isGestureActive (onTouchStart (touchAt 100 100 0 1) 0 r) = true /\
  isGestureActive (reset (onTouchStart (touchAt 100 100 0 1) 0 r)) = false.
Proof. repeat split. Qed.

(** GestureRecognizer: 'should handle touch move'. *)
Example test_onTouchMove (atan2 : float -> float -> float) :
  exists r s,
    onTouchMove atan2 (touchAt 110 110 100 1)
                (onTouchStart (touchAt 100 100 0 1) 0 (create defaultGestureConfig))
    = JS.Normal (r, Some s) /\
    GestureState.deltaX s = 10%float /\ GestureState.deltaY s = 10%float.
Proof. do 2 eexists. split; [vm_compute; reflexivity|]. split; reflexivity. Qed.

(** GestureRecognizer: 'should recognize tap gesture'. *)
Example test_tap :
  option_map GestureEvent.type
    (snd (onTouchEnd (touchAt 102 102 50 1) 50 50
            (onTouchStart (touchAt 100 100 0 1) 0 (create defaultGestureConfig))))
  = Some TAP.
Proof. vm_compute. reflexivity. Qed.

(** GestureRecognizer: 'should return current gesture state'. *)
Example test_getCurrentState :
  exists s,
    getCurrentState (onTouchStart (touchAt 100 100 0 1) 0 (create defaultGestureConfig))
    = Some s /\
    GestureState.isActive s = true /\
    List.length (GestureState.startTouches s) = 1%nat.
Proof. eexists. split; [reflexivity|]. split; reflexivity. Qed.

Definition target (id : string) (x y width height minSize : float) : TouchTarget.t :=
  TouchTarget.make id x y width height minSize (Some "Target"%string) None
                   (Some "button"%string).

(** TouchUtils: 'should calculate velocity between two points', 'should
    return zero velocity for same timestamp'. *)
Example test_calculateVelocity :
  TouchUtils.calculateVelocity (touchAt 0 0 0 1) (touchAt 100 100 1000 1)
  = (0.1%float, 0.1%float) /\
  TouchUtils.calculateVelocity (touchAt 0 0 1000 1) (touchAt 100 100 1000 1)
  = (0%float, 0%float).
Proof. split; vm_compute; reflexivity. Qed.

(** TouchUtils: the three [isTouchInTarget] tests. *)
Example test_isTouchInTarget :
  let t := target "test-target" 0 0 100 100 44 in
  TouchUtils.isTouchInTarget (point 50 50 1) t = true /\
  TouchUtils.isTouchInTarget (point 150 150 1) t = false /\
  TouchUtils.isTouchInTarget (point 100 100 1) t = true.
Proof. repeat split. Qed.

(** TouchUtils: 'should find closest target', 'should return null for empty
    targets array'. *)
Example test_findClosestTarget :
  option_map TouchTarget.id
    (TouchUtils.findClosestTarget (point 25 25 1)
       [target "target1" 0 0 50 50 44; target "target2" 100 100 50 50 44])
  = Some "target1"%string /\
  TouchUtils.findClosestTarget (point 25 25 1) [] = None.
Proof. split; vm_compute; reflexivity. Qed.

(** TouchUtils: the two [validateTouchTargetSize] and the two
    [areTargetsTooClose] tests. *)
Example test_target_checks :
  TouchUtils.validateTouchTargetSize (target "valid-target" 0 0 50 50 44) 44 = true /\
  TouchUtils.validateTouchTargetSize (target "invalid-target" 0 0 30 30 30) 44 = false /\
  TouchUtils.areTargetsTooClose
    (target "target1" 0 0 50 50 44) (target "target2" 10 10 50 50 44) 20 = true /\
  TouchUtils.areTargetsTooClose
    (target "target1" 0 0 50 50 44) (target "target2" 100 100 50 50 44) 20 = false.
Proof. repeat split; vm_compute; reflexivity. Qed.

(** TouchUtils: 'should detect tap gesture', 'should detect swipe gesture',
    'should detect long press gesture', with the default limits and the clock
    50, 200 and 600 ms after the start. *)
Example test_gesture_type_detection :
  TouchUtils.isTapGesture (GestureState.make 0 [] [] 5 5 0 0 1 0 false false) 10 500 50
  = true /\
  TouchUtils.isSwipeGesture (GestureState.make 0 [] [] 100 0 0.5 0 1 0 false false) 0.3 50
  = true /\
  TouchUtils.isLongPressGesture (GestureState.make 0 [] [] 5 5 0 0 1 0 false false) 500 600
  = true.
Proof. repeat split; vm_compute; reflexivity. Qed.

(** TouchUtils: 'should create touch target from bounds'. *)
Example test_createTouchTargetFromBounds :
  TouchUtils.createTouchTargetFromBounds "test-target" 10 20 50 60
    (Some "Test Target"%string) (Some "Tap to activate"%string) (Some "button"%string)
  = TouchTarget.make "test-target" 10 20 50 60 50
      (Some "Test Target"%string) (Some "Tap to activate"%string) (Some "button"%string).
Proof. vm_compute. reflexivity. Qed.


End RepositoryTests.
